(** * Profiling and statistics engine of the data analyser (src/app/page.tsx)

    A shallow embedding of the pure functions of [page.tsx]: value coercion
    ([toNumber], [isNullValue]), [detectOrder], [parseDateValue],
    [buildHistogram], [calculateCorrelation], [analyzeData] and the derived
    [correlationMatrix] and [scatterPairs] computations.

    JavaScript numbers are IEEE 754 binary64 values: they are modelled by
    Rocq's primitive floats, whose operations are the same ones.  Strings are
    sequences of code units; here a code unit is an [ascii], so the model
    covers the strings whose code units are below 256. *)

From Stdlib Require Import List String Ascii ZArith Bool Arith Lia.
From Stdlib Require Uint63.
From Stdlib Require Import Floats.
Import ListNotations.

Local Open Scope list_scope.

(* Decimal literals such as 1e308 denote the nearest number, as they do in
   the language. *)
Set Warnings "-inexact-float".
Set Default Proof Using "Type".

(** ** The runtime: numbers *)

Module Js.

(** The type of numbers. *)
Abbreviation number := float (only parsing).

(** [Number.isFinite], [Number.isNaN]. *)
Definition isFinite (x : number) : bool := is_finite x.
Definition isNaN (x : number) : bool := is_nan x.

(** An integer as a number (exact below 2^53). *)
Definition ofZ (z : Z) : number :=
  match z with
  | Z0 => zero
  | Zpos _ => of_uint63 (Uint63.of_Z z)
  | Zneg p => (- of_uint63 (Uint63.of_Z (Zpos p)))%float
  end.

Definition ofNat (n : nat) : number := ofZ (Z.of_nat n).

(** The sign bit, so that [-0] and [+0] can be told apart. *)
Definition signBit (x : number) : bool :=
  match Prim2SF x with
  | S754_zero s => s
  | S754_infinity s => s
  | S754_finite s _ _ => s
  | S754_nan => false
  end.

(** [Math.min] and [Math.max] of two arguments: NaN is contagious and [-0]
    is below [+0]. *)
Definition min2 (a b : number) : number :=
  if isNaN a || isNaN b then nan
  else if (a <? b)%float then a
  else if (b <? a)%float then b
  else if signBit a then a else b.

Definition max2 (a b : number) : number :=
  if isNaN a || isNaN b then nan
  else if (b <? a)%float then a
  else if (a <? b)%float then b
  else if signBit a then b else a.

(** [Math.min(...values)] and [Math.max(...values)]. *)
Definition Math_min (values : list number) : number :=
  fold_left min2 values infinity.
Definition Math_max (values : list number) : number :=
  fold_left max2 values neg_infinity.

(** [Math.floor]: a number [m * 2^e] with [e < 0] is below 2^53, so its
    floor is an integer that [ofZ] represents exactly. *)
Definition Math_floor (x : number) : number :=
  match Prim2SF x with
  | S754_finite s m e =>
      if (0 <=? e)%Z then x
      else
        let q := Z.shiftr (Zpos m) (- e) in
        let exact := (Z.shiftl q (- e) =? Zpos m)%Z in
        if s then (if exact then ofZ (- q) else ofZ (- (q + 1)))
        else ofZ q
  | _ => x
  end.

(** The array index that a number used as a property key denotes, if any:
    [ToString] of an integral number that is not negative ([-0] prints as
    ["0"]).  Every other key names a property that is not an element. *)
Definition arrayIndex (x : number) : option Z :=
  match Prim2SF x with
  | S754_zero _ => Some 0%Z
  | S754_finite false m e =>
      if (0 <=? e)%Z then Some (Z.shiftl (Zpos m) e)
      else
        let q := Z.shiftr (Zpos m) (- e) in
        if (Z.shiftl q (- e) =? Zpos m)%Z then Some q else None
  | _ => None
  end.

(** The exact value of a finite number as a fraction [n / 2^k]. *)
Definition exactFraction (x : number) : option (Z * Z) :=
  match Prim2SF x with
  | S754_zero _ => Some (0, 0)%Z
  | S754_finite s m e =>
      let n := if s then Zneg m else Zpos m in
      if (0 <=? e)%Z then Some (Z.shiftl n e, 0%Z) else Some (n, (- e)%Z)
  | _ => None
  end.

End Js.

(** ** The runtime: strings *)

Module JsString.

Local Open Scope string_scope.

(** [WhiteSpace] and [LineTerminator] code units below 256: TAB, LF, VT, FF,
    CR, SP and NBSP.  [trim] and the string-to-number conversion strip the
    same set. *)
Definition isWhiteSpace (c : ascii) : bool :=
  let n := nat_of_ascii c in
  existsb (Nat.eqb n) [9; 10; 11; 12; 13; 32; 160].

Fixpoint trimStart (s : string) : string :=
  match s with
  | EmptyString => EmptyString
  | String c rest => if isWhiteSpace c then trimStart rest else s
  end.

(** Dropping trailing white space: a character is kept when something that
    is kept follows it or when it is not white space itself. *)
Fixpoint trimEnd (s : string) : string :=
  match s with
  | EmptyString => EmptyString
  | String c rest =>
      match trimEnd rest with
      | EmptyString => if isWhiteSpace c then EmptyString else String c EmptyString
      | kept => String c kept
      end
  end.

(** [String.prototype.trim]. *)
Definition trim (s : string) : string := trimEnd (trimStart s).

(** The strings made of white space only. *)
Fixpoint allWhiteSpace (s : string) : bool :=
  match s with
  | EmptyString => true
  | String c rest => isWhiteSpace c && allWhiteSpace rest
  end.

(** [s.replace(/,/g, ".")]. *)
Fixpoint replaceCommas (s : string) : string :=
  match s with
  | EmptyString => EmptyString
  | String c rest =>
      String (if Ascii.eqb c "," then "."%char else c) (replaceCommas rest)
  end.

(** Decimal digits of a natural number, most significant first. *)
Fixpoint digitsFuel (fuel : nat) (n : N) (acc : string) : string :=
  match fuel with
  | O => acc
  | S fuel' =>
      let d := ascii_of_N (48 + N.modulo n 10) in
      let q := N.div n 10 in
      if N.eqb q 0 then String d acc else digitsFuel fuel' q (String d acc)
  end.

Definition digits (n : N) : string :=
  digitsFuel (S (N.to_nat (N.log2 n))) n EmptyString.

End JsString.

(** ** The data model *)

(** A cell is [string | number | null]; reading a key that a row neither
    owns nor inherits gives [undefined], which the helpers test for as
    well. *)
Inductive Value : Type :=
  | Undefined
  | Null
  | Num (x : Js.number)
  | Str (s : string).

(** [DataRow]: the own properties of the row object, in [Object.keys] order. *)
Definition DataRow := list (string * Value).

Inductive DataType := numerico | texto | mixto | vacio.
Inductive Ordered := ascendente | descendente | sin_orden.

Record ColumnStats := {
  name : string;
  totalRows : nat;
  nullCount : nat;
  positiveCount : nat;
  dataType : DataType;
  ordered : Ordered
}.

Record AnalysisResult := {
  r_totalRows : nat;
  r_totalColumns : nat;
  hasNulls : bool;
  orderedByFirstColumn : bool;
  totalPositiveValues : nat;
  columnsWithNulls : nat;
  columnStats : list ColumnStats;
  numericColumns : list string;
  dateColumns : list string;
  rawRows : list DataRow
}.

Record HistogramBin := { bin : string; count : nat }.

Record Point := { px : Js.number; py : Js.number }.
Record ScatterPair := { sx : string; sy : string; points : list Point }.

(** A call either returns or throws [new Error(message)]. *)
Inductive exn := Error (message : string).
Inductive completion (A : Type) :=
  | Normal (a : A)
  | Throw (e : exn).
Arguments Normal {A} a.
Arguments Throw {A} e.

(** A [for] loop whose body may [return] from the enclosing function. *)
Inductive loop (A : Type) :=
  | Continue (acc : A)
  | Return (res : A).
Arguments Continue {A} acc.
Arguments Return {A} res.

Fixpoint forEach {I A : Type} (indices : list I) (body : I -> A -> loop A)
    (acc : A) : loop A :=
  match indices with
  | [] => Continue acc
  | i :: rest =>
      match body i acc with
      | Continue acc' => forEach rest body acc'
      | Return res => Return res
      end
  end.

Definition finish {A : Type} (l : loop A) : A :=
  match l with Continue a => a | Return a => a end.

(** The properties that a row has without owning them: a row is a plain
    object, and reads the properties of [Object.prototype] that it does not
    own itself.  They are built-in functions, and the prototype itself
    under [__proto__].  The page applies to a cell only the tests
    [=== null], [=== undefined], [=== ""] and [typeof value === "number"],
    none of which such a value passes, and the conversions [String(value)]
    and [new Date(value)], which see of a function or of an object its
    text; so such a value is held as the text that [String] gives of it
    (here as V8 prints it). *)
Definition nativeFunction (functionName : string) : string :=
  String.append "function "
    (String.append functionName "() { [native code] }").

Definition ObjectPrototype : list (string * string) :=
  [ ("constructor", nativeFunction "Object");
    ("__defineGetter__", nativeFunction "__defineGetter__");
    ("__defineSetter__", nativeFunction "__defineSetter__");
    ("hasOwnProperty", nativeFunction "hasOwnProperty");
    ("__lookupGetter__", nativeFunction "__lookupGetter__");
    ("__lookupSetter__", nativeFunction "__lookupSetter__");
    ("isPrototypeOf", nativeFunction "isPrototypeOf");
    ("propertyIsEnumerable", nativeFunction "propertyIsEnumerable");
    ("toString", nativeFunction "toString");
    ("valueOf", nativeFunction "valueOf");
    ("__proto__", "[object Object]");
    ("toLocaleString", nativeFunction "toLocaleString") ]%string.

Fixpoint inheritedFrom (prototype : list (string * string)) (column : string)
    : Value :=
  match prototype with
  | [] => Undefined
  | (k, text) :: rest =>
      if String.eqb k column then Str text else inheritedFrom rest column
  end.

Definition inherited (column : string) : Value :=
  inheritedFrom ObjectPrototype column.

(** [row[column]]: the row's own property, or else the inherited one. *)
Fixpoint get (row : DataRow) (column : string) : Value :=
  match row with
  | [] => inherited column
  | (k, v) :: rest => if String.eqb k column then v else get rest column
  end.

(** [value ?? null]. *)
Definition orNull (value : Value) : Value :=
  match value with Undefined => Null | _ => value end.

(** [Array.from(new Set(keys))]: the keys in first-appearance order. *)
Definition setAdd (seen : list string) (k : string) : list string :=
  if existsb (String.eqb k) seen then seen else seen ++ [k].

Definition arrayFromSet (keys : list string) : list string :=
  fold_left setAdd keys [].

(** [l.filter(p).length]. *)
Definition countIf {A : Type} (p : A -> bool) (l : list A) : nat :=
  List.length (filter p l).

(** [values.filter((value): value is number => value !== null)] after a
    [map] to [number | null]. *)
Fixpoint filterNumbers (l : list (option Js.number)) : list Js.number :=
  match l with
  | [] => []
  | Some x :: rest => x :: filterNumbers rest
  | None :: rest => filterNumbers rest
  end.

(** [points.filter((point) => point.x !== null && point.y !== null)]. *)
Fixpoint filterPoints (l : list (option Js.number * option Js.number))
    : list Point :=
  match l with
  | [] => []
  | (Some x, Some y) :: rest => {| px := x; py := y |} :: filterPoints rest
  | _ :: rest => filterPoints rest
  end.

Definition isSome {A : Type} (o : option A) : bool :=
  match o with Some _ => true | None => false end.

(** The message of the only error, in the encoding of the source file. *)
Definition emptyMessage : string :=
  "El archivo está vacío o no tiene filas válidas."%string.

(** ** A reference runtime

    Concrete conversions on which the engine can be run: decimal literals
    (sign, digits, optional fraction) for the string-to-number conversion,
    calendar dates [YYYY-MM-DD] for the date parser, and integral or
    non-finite numbers for [Number::toString].  Outside these fragments the
    conversions answer NaN and the empty string. *)

Module Reference.

Local Open Scope string_scope.

Definition isDigit (c : ascii) : bool :=
  let n := nat_of_ascii c in (48 <=? n)%nat && (n <=? 57)%nat.

(** The value of a run of digits after [acc], or [None] at another
    character. *)
Fixpoint digitsValue (s : string) (acc : Z) : option Z :=
  match s with
  | EmptyString => Some acc
  | String c rest =>
      if isDigit c
      then digitsValue rest (10 * acc + Z.of_nat (nat_of_ascii c - 48))%Z
      else None
  end.

Fixpoint splitAtDot (s : string) : string * option string :=
  match s with
  | EmptyString => (EmptyString, None)
  | String c rest =>
      if Ascii.eqb c "."
      then (EmptyString, Some rest)
      else let '(a, b) := splitAtDot rest in (String c a, b)
  end.

Definition unsignedDecimal (s : string) : Js.number :=
  let '(whole, fraction) := splitAtDot s in
  let fraction := match fraction with Some f => f | None => EmptyString end in
  if (String.length whole + String.length fraction =? 0)%nat then nan
  else
    match digitsValue (String.append whole fraction) 0 with
    | Some n =>
        (Js.ofZ n / Js.ofZ (10 ^ Z.of_nat (String.length fraction)))%float
    | None => nan
    end.

Definition StringToNumber (s : string) : Js.number :=
  match JsString.trim s with
  | EmptyString => zero
  | String "-" rest => (- unsignedDecimal rest)%float
  | String "+" rest => unsignedDecimal rest
  | t => unsignedDecimal t
  end.

(** Days from 1970-01-01 to a date of the proleptic Gregorian calendar. *)
Definition daysFromCivil (y m d : Z) : Z :=
  let y := if (m <=? 2)%Z then (y - 1)%Z else y in
  let era := Z.div y 400 in
  let yoe := (y - era * 400)%Z in
  let mp := Z.modulo (m + 9) 12 in
  let doy := (Z.div (153 * mp + 2) 5 + d - 1)%Z in
  let doe := (yoe * 365 + Z.div yoe 4 - Z.div yoe 100 + doy)%Z in
  (era * 146097 + doe - 719468)%Z.

Definition DateParse (s : string) : Js.number :=
  match String.length s, String.get 4 s, String.get 7 s with
  | 10%nat, Some "-"%char, Some "-"%char =>
      match digitsValue (substring 0 4 s) 0,
            digitsValue (substring 5 2 s) 0,
            digitsValue (substring 8 2 s) 0 with
      | Some y, Some m, Some d =>
          if ((1 <=? m) && (m <=? 12) && (1 <=? d) && (d <=? 31))%Z
          then Js.ofZ (daysFromCivil y m d * 86400000)
          else nan
      | _, _, _ => nan
      end
  | _, _, _ => nan
  end.

Definition NumberToString (x : Js.number) : string :=
  if Js.isNaN x then "NaN"
  else if (x =? infinity)%float then "Infinity"
  else if (x =? neg_infinity)%float then "-Infinity"
  else
    match Js.arrayIndex (abs x) with
    | Some n =>
        String.append (if (x <? 0)%float then "-" else EmptyString)
          (JsString.digits (Z.to_N n))
    | None => EmptyString
    end.

End Reference.

(** A dataset for the examples: a column of dates, a column that mixes
    numbers (one written with a decimal comma) with text, and a column of
    blank, null and missing cells. *)
Definition sampleRows : list DataRow :=
  [ [ ("fecha", Str "2024-01-01"); ("valor", Str "1,5"); ("nota", Str " ") ];
    [ ("fecha", Str "2024-01-02"); ("valor", Num 2); ("nota", Null) ];
    [ ("fecha", Str "2024-01-03"); ("valor", Str "x") ] ]%string.

(** ** The engine *)

Section Engine.

(** Three conversions of the runtime are left open: the string-to-number
    conversion behind [Number(string)] and the relational operators, the
    date-string parser behind [new Date(string)] (its time value, NaN when
    the string is not recognised), and [Number::toString]. *)
Variable StringToNumber : string -> Js.number.
Variable DateParse : string -> Js.number.
Variable NumberToString : Js.number -> string.

Local Open Scope float_scope.

(** The one fact about them that a theorem below rests on: the number of a string
    that trims to nothing is [+0], since the string-to-number conversion of
    the language strips white space and reads the empty string as zero. *)
Hypothesis StringToNumber_blank :
  forall s, JsString.trim s = EmptyString -> StringToNumber s = 0.

(** *** ValueCoercion *)

Definition toNumber (value : Value) : option Js.number :=
  match value with
  | Undefined | Null => None
  | Num x => if Js.isFinite x then Some x else None
  | Str s =>
      let numericValue := StringToNumber (JsString.replaceCommas s) in
      if Js.isFinite numericValue then Some numericValue else None
  end.

Definition isNullValue (value : Value) : bool :=
  match value with
  | Undefined | Null => true
  | Num _ => false
  | Str s => String.eqb (JsString.trim s) EmptyString
  end.

(** *** OrderDetector *)

(** [ToNumber] and the relational operator [a < b]: two strings are compared
    by code units, anything else numerically ([a > b] is [jsLt b a]). *)
Definition ToNumber (value : Value) : Js.number :=
  match value with
  | Undefined => nan
  | Null => 0
  | Num x => x
  | Str s => StringToNumber s
  end.

Definition jsLt (a b : Value) : bool :=
  match a, b with
  | Str s, Str t => String.ltb s t
  | _, _ => ToNumber a <? ToNumber b
  end.

(** [values[index]]. *)
Definition valueAt (values : list Value) (index : nat) : Value :=
  nth index values Undefined.

Record OrderFlags := { ascending : bool; descending : bool }.

Definition detectOrderStep (values : list Value) (flags : OrderFlags)
    (index : nat) : OrderFlags :=
  let flags :=
    if jsLt (valueAt values index) (valueAt values (index - 1))
    then {| ascending := false; descending := descending flags |}
    else flags in
  if jsLt (valueAt values (index - 1)) (valueAt values index)
  then {| ascending := ascending flags; descending := false |}
  else flags.

Definition detectOrder (values : list Value) : Ordered :=
  if (List.length values <? 2)%nat then sin_orden
  else
    let flags :=
      fold_left (detectOrderStep values)
        (seq 1 (List.length values - 1))
        {| ascending := true; descending := true |} in
    if ascending flags then ascendente
    else if descending flags then descendente
    else sin_orden.

(** *** DateDetector *)

(** [TimeClip]: the time value of [new Date(time)]. *)
Definition TimeClip (time : Js.number) : Js.number :=
  if negb (Js.isFinite time) then nan
  else if 8.64e15 <? abs time then nan
  else if time <? 0 then - Js.Math_floor (- time) + 0
  else Js.Math_floor time + 0.

(** A [Date] is represented by its time value; the result is [None] for
    [null]. *)
Definition parseDateValue (value : Value) : option Js.number :=
  match value with
  | Undefined | Null => None
  | Str EmptyString => None
  | Num x =>
      let time := TimeClip x in
      if Js.isNaN time then None else Some time
  | Str s =>
      let time := TimeClip (DateParse s) in
      if Js.isNaN time then None else Some time
  end.

(** *** HistogramBuilder *)

(** [x.toFixed(2)]. *)
Definition toFixed2 (x : Js.number) : string :=
  if negb (Js.isFinite x) then NumberToString x
  else
    let negative := x <? 0 in
    let s := if negative then "-"%string else EmptyString in
    let x := if negative then - x else x in
    if 1e21 <=? x then String.append s (NumberToString x)
    else
      match Js.exactFraction x with
      | Some (n, k) =>
          let scaled := Z.div (200 * n + 2 ^ k) (2 ^ (k + 1)) in
          let m := JsString.digits (Z.to_N scaled) in
          let m :=
            match String.length m with
            | 1%nat => String.append "00" m
            | 2%nat => String.append "0" m
            | _ => m
            end in
          let k := String.length m in
          String.append s
            (String.append (substring 0 (k - 2) m)
               (String.append "." (substring (k - 2) 2 m)))
      | None => NumberToString x
      end.

(** [counts[index] += 1]: an element is updated when the key is one of the
    array's indices.  A key that is no index (NaN, a negative number) only
    sets a property of the array object, which [counts.map] does not visit.
    An index at or past the length would extend the array; the filling loop
    never produces one, its keys being [Math.min(bins - 1, ...)], and the
    elements are left as they are in that case. *)
Fixpoint incrementAt (counts : list nat) (i : nat) : list nat :=
  match counts, i with
  | [], _ => []
  | c :: rest, O => S c :: rest
  | c :: rest, S i' => c :: incrementAt rest i'
  end.

Definition increment (counts : list nat) (index : Js.number) : list nat :=
  match Js.arrayIndex index with
  | Some i =>
      if (i <? Z.of_nat (List.length counts))%Z
      then incrementAt counts (Z.to_nat i)
      else counts
  | None => counts
  end.

Definition bucketIndex (bins : nat) (min step value : Js.number) : Js.number :=
  Js.min2 (Js.ofNat bins - 1) (Js.Math_floor ((value - min) / step)).

(** [buildHistogram(values, bins)], as it returns: [Math.min(...values)]
    and [Math.max(...values)] are taken on an array that the engine can
    spread into a call.  The [RangeError] of a longer array is in
    [buildHistogramCall] below. *)
Definition buildHistogram (values : list Js.number) (bins : nat)
    : list HistogramBin :=
  if (List.length values =? 0)%nat then []
  else
    let min := Js.Math_min values in
    let max := Js.Math_max values in
    if min =? max
    then [ {| bin := NumberToString min; count := List.length values |} ]
    else
      let step := (max - min) / Js.ofNat bins in
      let counts :=
        fold_left (fun counts value => increment counts (bucketIndex bins min step value))
          values (repeat 0%nat bins) in
      map (fun '(count, index) =>
             let start := toFixed2 (min + step * Js.ofNat index) in
             let end_ := toFixed2 (min + step * Js.ofNat (index + 1)) in
             {| bin := String.append start (String.append " - " end_);
                count := count |})
          (combine counts (seq 0 (List.length counts))).

(** *** CorrelationEngine *)

(** [values[i]] in arithmetic: [undefined] converts to NaN. *)
Definition numberAt (values : list Js.number) (i : nat) : Js.number :=
  nth i values nan.

Record Sums := {
  numerator : Js.number;
  denominatorX : Js.number;
  denominatorY : Js.number
}.

(** One turn of the loop.  [xDiff ** 2] is the square [xDiff * xDiff]. *)
Definition correlationStep (xValues yValues : list Js.number)
    (meanX meanY : Js.number) (sums : Sums) (i : nat) : Sums :=
  let xDiff := numberAt xValues i - meanX in
  let yDiff := numberAt yValues i - meanY in
  {| numerator := numerator sums + xDiff * yDiff;
     denominatorX := denominatorX sums + xDiff * xDiff;
     denominatorY := denominatorY sums + yDiff * yDiff |}.

(** The same turn, on the pair of values that it reads. *)
Definition addProducts (meanX meanY : Js.number) (sums : Sums)
    (xy : Js.number * Js.number) : Sums :=
  let xDiff := fst xy - meanX in
  let yDiff := snd xy - meanY in
  {| numerator := numerator sums + xDiff * yDiff;
     denominatorX := denominatorX sums + xDiff * xDiff;
     denominatorY := denominatorY sums + yDiff * yDiff |}.

Definition calculateCorrelation (xValues yValues : list Js.number) : Js.number :=
  if (List.length xValues =? 0)%nat || (List.length yValues =? 0)%nat
     || negb (List.length xValues =? List.length yValues)%nat
  then 0
  else
    let n := List.length xValues in
    let meanX := fold_left PrimFloat.add xValues 0 / Js.ofNat n in
    let meanY := fold_left PrimFloat.add yValues 0 / Js.ofNat n in
    let sums :=
      fold_left (correlationStep xValues yValues meanX meanY) (seq 0 n)
        {| numerator := 0; denominatorX := 0; denominatorY := 0 |} in
    let denominator := PrimFloat.sqrt (denominatorX sums * denominatorY sums) in
    if denominator =? 0 then 0 else numerator sums / denominator.

(** *** ColumnProfiler and DatasetProfiler *)

(** [typeof value === "number" ? value : String(value)]. *)
Definition comparable (value : Value) : Value :=
  match value with
  | Num x => Num x
  | Str s => Str s
  | Null => Str "null"
  | Undefined => Str "undefined"
  end.

Definition columnsOf (rows : list DataRow) : list string :=
  arrayFromSet (flat_map (fun row => map fst row) rows).

Definition columnStatsOf (rows : list DataRow) (column : string) : ColumnStats :=
  let values := map (fun row => orNull (get row column)) rows in
  let nullCount := countIf isNullValue values in
  let numericValues := filterNumbers (map toNumber values) in
  let positiveCount := countIf (fun value => 0 <? value) numericValues in
  let nonNullValues := filter (fun value => negb (isNullValue value)) values in
  let dataType :=
    if (0 <? List.length nonNullValues)%nat then
      let numericCount :=
        countIf (fun value => isSome (toNumber value)) nonNullValues in
      if (numericCount =? List.length nonNullValues)%nat then numerico
      else if (numericCount =? 0)%nat then texto
      else mixto
    else vacio in
  let comparableValues := map comparable nonNullValues in
  let ordered := detectOrder comparableValues in
  {| name := column;
     totalRows := List.length rows;
     nullCount := nullCount;
     positiveCount := positiveCount;
     dataType := dataType;
     ordered := ordered |}.

Definition isNumerico (t : DataType) : bool :=
  match t with numerico => true | _ => false end.

Definition isDateColumn (rows : list DataRow) (column : string) : bool :=
  let nonNullValues :=
    filter (fun value => negb (isNullValue value))
      (map (fun row => get row column) rows) in
  if (List.length nonNullValues =? 0)%nat then false
  else
    let dateMatches :=
      countIf (fun value => isSome (parseDateValue value))
        (firstn 15 nonNullValues) in
    (Nat.min 5 (List.length nonNullValues) <=? dateMatches)%nat.

Definition analyzeData (rows : list DataRow) : completion AnalysisResult :=
  if (List.length rows =? 0)%nat then Throw (Error emptyMessage)
  else
    let columns := columnsOf rows in
    let columnStats := map (columnStatsOf rows) columns in
    let numericColumns :=
      map name (filter (fun column => isNumerico (dataType column)) columnStats) in
    let dateColumns := filter (isDateColumn rows) columns in
    let columnsWithNulls :=
      countIf (fun column => (0 <? nullCount column)%nat) columnStats in
    let totalPositiveValues :=
      fold_left (fun sum column => (sum + positiveCount column)%nat) columnStats 0%nat in
    (* columns[0] is undefined when there is no column at all, and
       row[undefined] reads the key "undefined" *)
    let firstColumn := nth 0 columns "undefined"%string in
    let firstColumnValues :=
      map comparable
        (filter (fun value => negb (isNullValue value))
           (map (fun row => get row firstColumn) rows)) in
    let orderedByFirstColumn :=
      match detectOrder firstColumnValues with
      | sin_orden => false
      | _ => true
      end in
    Normal
      {| r_totalRows := List.length rows;
         r_totalColumns := List.length columns;
         hasNulls := (0 <? columnsWithNulls)%nat;
         orderedByFirstColumn := orderedByFirstColumn;
         totalPositiveValues := totalPositiveValues;
         columnsWithNulls := columnsWithNulls;
         columnStats := columnStats;
         numericColumns := numericColumns;
         dateColumns := dateColumns;
         rawRows := rows |}.

(** *** Derived computations of the page *)

(** The numbers of a column: [rawRows.map(toNumber(row[column])).filter(...)]. *)
Definition numbersOf (analysis : AnalysisResult) (column : string)
    : list Js.number :=
  filterNumbers (map (fun row => toNumber (get row column)) (rawRows analysis)).

(** The histograms of the page when each of them is returned; see
    [histogramsCall] below. *)
Definition histograms (analysis : AnalysisResult)
    : list (string * list HistogramBin) :=
  map (fun column => (column, buildHistogram (numbersOf analysis column) 8))
    (numericColumns analysis).

Definition correlationMatrix (analysis : AnalysisResult)
    : list (list Js.number) :=
  let columns := numericColumns analysis in
  map (fun column =>
         let columnValues := numbersOf analysis column in
         map (fun otherColumn =>
                let otherValues := numbersOf analysis otherColumn in
                let minLength :=
                  Nat.min (List.length columnValues) (List.length otherValues) in
                calculateCorrelation (firstn minLength columnValues)
                  (firstn minLength otherValues))
           columns)
    columns.

(** [columns[i]] used as a property key. *)
Definition columnAt (columns : list string) (i : nat) : string :=
  nth i columns "undefined"%string.

Definition pointsOf (analysis : AnalysisResult) (xColumn yColumn : string)
    : list Point :=
  filterPoints
    (map (fun row => (toNumber (get row xColumn), toNumber (get row yColumn)))
       (rawRows analysis)).

Definition scatterInner (analysis : AnalysisResult) (columns : list string)
    (i j : nat) (pairs : list ScatterPair) : loop (list ScatterPair) :=
  let xColumn := columnAt columns i in
  let yColumn := columnAt columns j in
  let points := pointsOf analysis xColumn yColumn in
  let pairs :=
    if (0 <? List.length points)%nat
    then pairs ++ [ {| sx := xColumn; sy := yColumn; points := points |} ]
    else pairs in
  if (4 <=? List.length pairs)%nat then Return pairs else Continue pairs.

Definition scatterPairs (analysis : AnalysisResult) : list ScatterPair :=
  let columns := numericColumns analysis in
  let n := List.length columns in
  finish
    (forEach (seq 0 n)
       (fun i pairs =>
          forEach (seq (i + 1) (n - (i + 1)))
            (scatterInner analysis columns i) pairs)
       []).

(** ** The vocabulary of the specification

    Definitions that follow the words of the design document; the theorems
    below compare them with the functions above. *)

(** The raw values of a column, as each row reads it, and the ones among
    them that are not null. *)
Definition rawValues (rows : list DataRow) (column : string) : list Value :=
  map (fun row => get row column) rows.

Definition nonNullRaw (rows : list DataRow) (column : string) : list Value :=
  filter (fun value => negb (isNullValue value)) (rawValues rows column).

(** A value coerces to a number. *)
Definition coerces (value : Value) : bool := isSome (toNumber value).

(** The type of a column from its non-null values. *)
Definition dataTypeOf (nonNull : list Value) : DataType :=
  match nonNull with
  | [] => vacio
  | _ =>
      if forallb coerces nonNull then numerico
      else if forallb (fun value => negb (coerces value)) nonNull then texto
      else mixto
  end.



(** [a <= b] of the language, and a relation holding between every element
    and its successor. *)
Definition jsLe (a b : Value) : bool :=
  match a, b with
  | Str s, Str t => String.leb s t
  | _, _ => ToNumber a <=? ToNumber b
  end.

Fixpoint everyStep (R : Value -> Value -> bool) (values : list Value) : bool :=
  match values with
  | previous :: (current :: _) as rest => R previous current && everyStep R rest
  | _ => true
  end.

(** Two values can be ordered: both are strings, or neither converts to
    NaN. *)
Definition comparablePair (a b : Value) : bool :=
  match a, b with
  | Str _, Str _ => true
  | _, _ => negb (Js.isNaN (ToNumber a)) && negb (Js.isNaN (ToNumber b))
  end.

(** The textbook Pearson formula, evaluated in the arithmetic of numbers
    with sums taken from left to right. *)
Definition sum (values : list Js.number) : Js.number :=
  fold_left PrimFloat.add values 0.

Definition mean (values : list Js.number) : Js.number :=
  sum values / Js.ofNat (List.length values).

Definition centered (values : list Js.number) : list Js.number :=
  map (fun value => value - mean values) values.

Definition sumProducts (xs ys : list Js.number) : Js.number :=
  sum (map (fun '(x, y) => x * y) (combine xs ys)).

Definition pearsonNumerator (xs ys : list Js.number) : Js.number :=
  sumProducts (centered xs) (centered ys).

Definition pearsonDenominator (xs ys : list Js.number) : Js.number :=
  PrimFloat.sqrt (sumProducts (centered xs) (centered xs)
                  * sumProducts (centered ys) (centered ys)).

(** The pairs [(i, j)] with [i < j < n], by rows, and the scatter pair of
    two column positions. *)
Definition indexPairs (n : nat) : list (nat * nat) :=
  flat_map (fun i => map (fun j => (i, j)) (seq (i + 1) (n - (i + 1)))) (seq 0 n).

Definition scatterCandidate (analysis : AnalysisResult) (ij : nat * nat)
    : ScatterPair :=
  let columns := numericColumns analysis in
  let xColumn := columnAt columns (fst ij) in
  let yColumn := columnAt columns (snd ij) in
  {| sx := xColumn; sy := yColumn; points := pointsOf analysis xColumn yColumn |}.

Definition hasPoints (pair : ScatterPair) : bool :=
  (0 <? List.length (points pair))%nat.

(** The rows in which both columns coerce to numbers, as points. *)
Definition bothCoerce (xColumn yColumn : string) (row : DataRow) : bool :=
  coerces (get row xColumn) && coerces (get row yColumn).

(** The total of the bucket counts of a histogram, and the values that the
    filling loop counts: those whose key is an index of the array. *)
Definition totalCount (histogram : list HistogramBin) : nat :=
  list_sum (map count histogram).

Definition landsInBucket (bins : nat) (min step value : Js.number) : bool :=
  match Js.arrayIndex (bucketIndex bins min step value) with
  | Some i => (i <? Z.of_nat bins)%Z
  | None => false
  end.

(** ** Facts about the runtime *)

(** *** Numbers *)

Lemma SFcompare_refl (f : spec_float) :
  f <> S754_nan -> SFcompare f f = Some Eq.
Proof.
  destruct f as [s | s | | s m e]; simpl; try congruence.
  - destruct s; reflexivity.
  - intros _. rewrite Z.compare_refl, Pos.compare_cont_refl.
    destruct s; reflexivity.
Qed.

Lemma SFcompare_antisym (f g : spec_float) :
  SFcompare g f = option_map CompOpp (SFcompare f g).
Proof.
  destruct f as [s | s | | s m e], g as [t | t | | t n k]; simpl;
    try reflexivity; try (destruct s; reflexivity);
    try (destruct t; reflexivity); try (destruct s, t; reflexivity).
  f_equal.
  replace (Pos.compare_cont Eq n m) with (CompOpp (Pos.compare_cont Eq m n))
    by (rewrite Pos.compare_cont_antisym; reflexivity).
  rewrite (Z.compare_antisym e k).
  destruct s, t; simpl; try reflexivity;
    destruct (e ?= k)%Z; simpl; try reflexivity;
    rewrite ?CompOpp_involutive; reflexivity.
Qed.

Lemma isNaN_spec (x : Js.number) :
  Js.isNaN x = true <-> Prim2SF x = S754_nan.
Proof.
  unfold Js.isNaN, is_nan. rewrite eqb_spec. unfold SFeqb.
  split.
  - intros H. destruct (Prim2SF x) eqn:E; try reflexivity;
      rewrite SFcompare_refl in H by congruence; discriminate.
  - intros ->. reflexivity.
Qed.

(** On numbers that are not NaN, [x < y] is the negation of [y <= x]. *)
Lemma ltb_negb_leb (x y : Js.number) :
  Js.isNaN x = false -> Js.isNaN y = false ->
  (x <? y) = negb (y <=? x).
Proof.
  intros Hx Hy. rewrite ltb_spec, leb_spec. unfold SFltb, SFleb.
  rewrite (SFcompare_antisym (Prim2SF x) (Prim2SF y)).
  assert (Nx : Prim2SF x <> S754_nan).
  { intros E. apply isNaN_spec in E. congruence. }
  assert (Ny : Prim2SF y <> S754_nan).
  { intros E. apply isNaN_spec in E. congruence. }
  destruct (SFcompare (Prim2SF x) (Prim2SF y)) as [[ | | ] | ] eqn:E;
    simpl; try reflexivity.
  destruct (Prim2SF x), (Prim2SF y); simpl in E; congruence.
Qed.

Lemma leb_refl (x : Js.number) : Js.isNaN x = false -> (x <=? x) = true.
Proof.
  intros Hx. rewrite leb_spec. unfold SFleb.
  rewrite SFcompare_refl; [reflexivity|].
  intros E. apply isNaN_spec in E. congruence.
Qed.

Lemma SFmul_comm prec emax (f g : spec_float) :
  SFmul prec emax f g = SFmul prec emax g f.
Proof.
  destruct f as [s | s | | s m e], g as [t | t | | t n k]; simpl;
    try reflexivity; rewrite ?(xorb_comm s t); try reflexivity.
  now rewrite (Pos.mul_comm m n), (Z.add_comm e k).
Qed.

(** Multiplication of numbers is commutative, NaN and signed zeros
    included. *)
Lemma mul_comm (x y : Js.number) : x * y = y * x.
Proof.
  apply Prim2SF_inj. rewrite !mul_spec. apply SFmul_comm.
Qed.

(** *** Strings *)

Lemma string_ltb_negb_leb (s t : string) :
  String.ltb s t = negb (String.leb t s).
Proof.
  unfold String.ltb, String.leb. rewrite (String.compare_antisym s t).
  destruct (String.compare t s); reflexivity.
Qed.

Lemma string_leb_refl (s : string) : String.leb s s = true.
Proof.
  unfold String.leb.
  pose proof (String.compare_antisym s s) as E.
  destruct (String.compare s s); simpl in E; congruence.
Qed.

Lemma trimEnd_empty (s : string) :
  JsString.trimEnd s = EmptyString -> JsString.allWhiteSpace s = true.
Proof.
  induction s as [| c rest IH]; simpl; [reflexivity|].
  destruct (JsString.trimEnd rest) eqn:E; [|discriminate].
  destruct (JsString.isWhiteSpace c); [|discriminate].
  intros _. now rewrite IH.
Qed.

Lemma trimStart_white (s : string) :
  JsString.allWhiteSpace (JsString.trimStart s) = true -> JsString.allWhiteSpace s = true.
Proof.
  induction s as [| c rest IH]; simpl; [reflexivity|].
  destruct (JsString.isWhiteSpace c) eqn:E; simpl.
  - exact IH.
  - rewrite E. discriminate.
Qed.

Lemma trim_empty (s : string) :
  JsString.trim s = EmptyString -> JsString.allWhiteSpace s = true.
Proof.
  unfold JsString.trim. intros H.
  now apply trimStart_white, trimEnd_empty.
Qed.

(** White space holds no comma, so the comma replacement leaves it alone. *)
Lemma replaceCommas_white (s : string) :
  JsString.allWhiteSpace s = true -> JsString.replaceCommas s = s.
Proof.
  induction s as [| c rest IH]; simpl; [reflexivity|].
  intros H. apply andb_prop in H as [Hc Hrest].
  rewrite (IH Hrest).
  destruct (Ascii.eqb c ",") eqn:E; [|reflexivity].
  apply Ascii.eqb_eq in E. subst c. discriminate.
Qed.

(** *** Lists *)

Lemma countIf_split {A : Type} (p : A -> bool) (l : list A) :
  (countIf p l + countIf (fun a => negb (p a)) l = List.length l)%nat.
Proof.
  unfold countIf. induction l as [| a l IH]; simpl; [reflexivity|].
  destruct (p a); simpl; lia.
Qed.

Lemma countIf_le {A : Type} (p : A -> bool) (l : list A) :
  (countIf p l <= List.length l)%nat.
Proof.
  pose proof (countIf_split p l). lia.
Qed.

Lemma countIf_all {A : Type} (p : A -> bool) (l : list A) :
  (countIf p l =? List.length l)%nat = forallb p l.
Proof.
  induction l as [| a l IH]; [reflexivity|].
  unfold countIf in *. simpl. destruct (p a); simpl.
  - exact IH.
  - apply Nat.eqb_neq. pose proof (countIf_le p l). unfold countIf in *. lia.
Qed.

Lemma countIf_none {A : Type} (p : A -> bool) (l : list A) :
  (countIf p l =? 0)%nat = forallb (fun a => negb (p a)) l.
Proof.
  induction l as [| a l IH]; [reflexivity|].
  unfold countIf in *. simpl. destruct (p a); simpl; [reflexivity | exact IH].
Qed.

Lemma countIf_map {A B : Type} (f : A -> B) (p : B -> bool) (l : list A) :
  countIf p (map f l) = countIf (fun a => p (f a)) l.
Proof.
  unfold countIf. induction l as [| a l IH]; simpl; [reflexivity|].
  destruct (p (f a)); simpl; now rewrite IH.
Qed.

Lemma isNullValue_orNull (value : Value) :
  isNullValue (orNull value) = isNullValue value.
Proof. destruct value; reflexivity. Qed.

(** [?? null] changes [undefined] only, which is dropped with [null]. *)
Lemma nonNull_orNull (l : list Value) :
  filter (fun value => negb (isNullValue value)) (map orNull l)
  = filter (fun value => negb (isNullValue value)) l.
Proof.
  induction l as [| v l IH]; simpl; [reflexivity|].
  rewrite isNullValue_orNull, IH. destruct v; reflexivity.
Qed.

Lemma get_missing (row : DataRow) (column : string) :
  ~ In column (map fst row) -> get row column = inherited column.
Proof.
  induction row as [| [k v] rest IH]; simpl; [reflexivity|].
  intros H. destruct (String.eqb_spec k column) as [-> | _].
  - exfalso. apply H. now left.
  - apply IH. intros Hin. apply H. now right.
Qed.

(** A name is one that every row inherits. *)
Definition isInherited (column : string) : bool :=
  match inherited column with Undefined => false | _ => true end.

(** What a row inherits is the text of a function or of an object, never
    blank: it is not null. *)
Lemma inherited_cases (column : string) :
  inherited column = Undefined
  \/ exists text,
       inherited column = Str text /\ isNullValue (Str text) = false.
Proof.
  unfold inherited, ObjectPrototype. cbn [inheritedFrom].
  repeat (destruct (String.eqb _ column);
          [right; eexists; split; [reflexivity | vm_compute; reflexivity]|]).
  now left.
Qed.

Lemma isNullValue_inherited (column : string) :
  isNullValue (inherited column) = negb (isInherited column).
Proof.
  unfold isInherited.
  destruct (inherited_cases column) as [-> | (text & -> & Htext)];
    [reflexivity | exact Htext].
Qed.

Lemma length_zero_eqb {A : Type} (l : list A) :
  (List.length l =? 0)%nat = match l with [] => true | _ => false end.
Proof. destruct l; reflexivity. Qed.

(** *** The profile of a column *)

Lemma columnStatsOf_nonNull (rows : list DataRow) (column : string) :
  filter (fun value => negb (isNullValue value))
    (map (fun row => orNull (get row column)) rows)
  = nonNullRaw rows column.
Proof.
  unfold nonNullRaw, rawValues.
  rewrite <- (map_map (fun row => get row column) orNull).
  apply nonNull_orNull.
Qed.

Lemma columnStatsOf_dataType (rows : list DataRow) (column : string) :
  dataType (columnStatsOf rows column) = dataTypeOf (nonNullRaw rows column).
Proof.
  unfold columnStatsOf. simpl. rewrite columnStatsOf_nonNull.
  unfold dataTypeOf.
  destruct (nonNullRaw rows column) as [| v l] eqn:E; [reflexivity|].
  rewrite <- E. replace (0 <? List.length (nonNullRaw rows column))%nat with true
    by (rewrite E; reflexivity).
  fold coerces. change (fun value => isSome (toNumber value)) with coerces.
  rewrite countIf_all, countIf_none. reflexivity.
Qed.

Lemma analyzeData_normal (rows : list DataRow) (result : AnalysisResult) :
  analyzeData rows = Normal result ->
  rows <> [] /\ columnStats result = map (columnStatsOf rows) (columnsOf rows)
  /\ dateColumns result = filter (isDateColumn rows) (columnsOf rows)
  /\ rawRows result = rows.
Proof.
  unfold analyzeData. destruct rows as [| row rows]; simpl; [discriminate|].
  intros H. injection H as <-. simpl. repeat split. discriminate.
Qed.

Lemma profile_of_column (rows : list DataRow) (result : AnalysisResult)
    (profile : ColumnStats) :
  analyzeData rows = Normal result -> In profile (columnStats result) ->
  exists column, In column (columnsOf rows)
                 /\ profile = columnStatsOf rows column.
Proof.
  intros H Hin. apply analyzeData_normal in H as (_ & Hstats & _).
  rewrite Hstats in Hin. apply in_map_iff in Hin as (column & <- & Hc).
  now exists column.
Qed.

(** *** The date detector *)


(** *** The order detector *)

Lemma detectOrder_flags (values : list Value) (indices : list nat)
    (flags : OrderFlags) :
  fold_left (detectOrderStep values) indices flags
  = {| ascending :=
         ascending flags
         && forallb (fun i => negb (jsLt (valueAt values i)
                                      (valueAt values (i - 1)))) indices;
       descending :=
         descending flags
         && forallb (fun i => negb (jsLt (valueAt values (i - 1))
                                      (valueAt values i))) indices |}.
Proof.
  revert flags. induction indices as [| i indices IH]; intros [asc desc]; simpl.
  - now rewrite !andb_true_r.
  - rewrite IH. unfold detectOrderStep.
    destruct (jsLt (valueAt values i) (valueAt values (i - 1)));
      destruct (jsLt (valueAt values (i - 1)) (valueAt values i)); simpl;
      rewrite ?andb_false_r, ?andb_true_r; reflexivity.
Qed.

Lemma forallb_ext_in {A : Type} (f g : A -> bool) (l : list A) :
  (forall a, In a l -> f a = g a) -> forallb f l = forallb g l.
Proof.
  induction l as [| a l IH]; simpl; intros H; [reflexivity|].
  rewrite (H a) by now left. rewrite IH; [reflexivity|].
  intros b Hb. apply H. now right.
Qed.

Lemma forallb_map {A B : Type} (f : A -> B) (p : B -> bool) (l : list A) :
  forallb p (map f l) = forallb (fun a => p (f a)) l.
Proof.
  induction l as [| a l IH]; simpl; [reflexivity | now rewrite IH].
Qed.

(** The loop over the positions 1, 2, ... visits every element together
    with its predecessor. *)
Lemma everyStep_by_index (R : Value -> Value -> bool) (values : list Value) :
  forallb (fun i => R (valueAt values (i - 1)) (valueAt values i))
    (seq 1 (List.length values - 1))
  = everyStep R values.
Proof.
  induction values as [| a values IH]; [reflexivity|].
  destruct values as [| b rest]; [reflexivity|].
  change (List.length (a :: b :: rest) - 1)%nat with (S (List.length rest)).
  change (seq 1 (S (List.length rest))) with (1%nat :: seq 2 (List.length rest)).
  change (everyStep R (a :: b :: rest)) with (R a b && everyStep R (b :: rest)).
  cbn [forallb]. f_equal.
  rewrite <- IH.
  change (List.length (b :: rest) - 1)%nat with (List.length rest - 0)%nat.
  rewrite Nat.sub_0_r, <- (seq_shift (List.length rest) 1), forallb_map.
  apply forallb_ext_in. intros i Hi. apply in_seq in Hi.
  unfold valueAt. destruct i as [| i]; [lia|].
  cbn [Nat.sub nth]. now rewrite Nat.sub_0_r.
Qed.

Lemma comparablePair_sym (a b : Value) :
  comparablePair a b = comparablePair b a.
Proof.
  destruct a, b; try reflexivity; unfold comparablePair; cbv iota beta;
    apply andb_comm.
Qed.

(** Between values that can be ordered, "not below" is "at or above". *)
Lemma not_jsLt_jsLe (a b : Value) :
  comparablePair a b = true -> negb (jsLt b a) = jsLe a b.
Proof.
  intros H.
  assert (Hnum : negb (Js.isNaN (ToNumber a)) && negb (Js.isNaN (ToNumber b)) = true ->
                 negb (ToNumber b <? ToNumber a) = (ToNumber a <=? ToNumber b)).
  { intros Hc. apply andb_prop in Hc as [Ha Hb].
    apply negb_true_iff in Ha, Hb.
    rewrite (ltb_negb_leb _ _ Hb Ha). apply negb_involutive. }
  destruct a, b; unfold comparablePair, jsLt, jsLe in *; cbv iota beta in *;
    try (now apply Hnum).
  rewrite string_ltb_negb_leb. apply negb_involutive.
Qed.

Lemma jsLe_refl (a : Value) : comparablePair a a = true -> jsLe a a = true.
Proof.
  destruct a; unfold comparablePair, jsLe; cbv iota beta; intros H;
    try apply string_leb_refl;
    apply leb_refl; apply andb_prop in H as [H _];
    now apply negb_true_iff in H.
Qed.

Lemma everyStep_cons (R : Value -> Value -> bool) (a b : Value)
    (rest : list Value) :
  everyStep R (a :: b :: rest) = R a b && everyStep R (b :: rest).
Proof. reflexivity. Qed.

Lemma everyStep_ext (C R1 R2 : Value -> Value -> bool) (values : list Value) :
  (forall a b, C a b = true -> R1 a b = R2 a b) ->
  everyStep C values = true ->
  everyStep R1 values = everyStep R2 values.
Proof.
  intros Hext. induction values as [| a values IH]; [reflexivity|].
  destruct values as [| b rest]; [reflexivity|].
  rewrite !everyStep_cons. intros H. apply andb_prop in H as [Hab Hrest].
  now rewrite (Hext a b Hab), (IH Hrest).
Qed.

Lemma detectOrder_by_steps (values : list Value) :
  (2 <= List.length values)%nat ->
  detectOrder values
  = if everyStep (fun previous current => negb (jsLt current previous)) values
    then ascendente
    else if everyStep (fun previous current => negb (jsLt previous current)) values
         then descendente
         else sin_orden.
Proof.
  intros Hlen. unfold detectOrder.
  replace (List.length values <? 2)%nat with false
    by (symmetry; apply Nat.ltb_ge; exact Hlen).
  rewrite detectOrder_flags. cbn [ascending descending andb].
  rewrite (everyStep_by_index
             (fun previous current => negb (jsLt current previous))).
  rewrite (everyStep_by_index
             (fun previous current => negb (jsLt previous current))).
  reflexivity.
Qed.

(** *** The correlation loop *)

(** A loop over the positions of a list that reads the element at each
    position is a fold over the list. *)
Lemma fold_left_positions {S A : Type} (f : S -> A -> S) (d : A)
    (prefix l : list A) (s : S) :
  fold_left (fun s i => f s (nth i (prefix ++ l) d))
    (seq (List.length prefix) (List.length l)) s
  = fold_left f l s.
Proof.
  revert prefix s. induction l as [| a l IH]; intros prefix s; [reflexivity|].
  cbn [List.length seq fold_left].
  rewrite app_nth2, Nat.sub_diag by lia. cbn [nth].
  specialize (IH (prefix ++ [a]) (f s a)).
  rewrite <- app_assoc, length_app in IH. cbn [List.length app] in IH.
  rewrite Nat.add_1_r in IH. exact IH.
Qed.

Lemma fold_left_ext_in {S A : Type} (f g : S -> A -> S) (l : list A) (s : S) :
  (forall s a, In a l -> f s a = g s a) -> fold_left f l s = fold_left g l s.
Proof.
  revert s. induction l as [| a l IH]; intros s H; [reflexivity|].
  cbn [fold_left]. rewrite (H s a) by now left.
  apply IH. intros s' b Hb. apply H. now right.
Qed.

Lemma correlation_loop (xValues yValues : list Js.number)
    (meanX meanY : Js.number) (sums : Sums) :
  List.length xValues = List.length yValues ->
  fold_left (correlationStep xValues yValues meanX meanY)
    (seq 0 (List.length xValues)) sums
  = fold_left (addProducts meanX meanY) (combine xValues yValues) sums.
Proof.
  intros Hlen.
  rewrite <- (fold_left_positions (addProducts meanX meanY) (nan, nan) []
                (combine xValues yValues) sums).
  rewrite length_combine, <- Hlen, Nat.min_id. cbn [List.length app].
  apply fold_left_ext_in. intros s i Hi. apply in_seq in Hi.
  unfold correlationStep, addProducts, numberAt. cbn [app].
  rewrite (combine_nth xValues yValues i nan nan Hlen). reflexivity.
Qed.

Lemma addProducts_fold (meanX meanY : Js.number)
    (pairs : list (Js.number * Js.number)) (sums : Sums) :
  fold_left (addProducts meanX meanY) pairs sums
  = {| numerator :=
         fold_left PrimFloat.add
           (map (fun xy => (fst xy - meanX) * (snd xy - meanY)) pairs)
           (numerator sums);
       denominatorX :=
         fold_left PrimFloat.add
           (map (fun xy => (fst xy - meanX) * (fst xy - meanX)) pairs)
           (denominatorX sums);
       denominatorY :=
         fold_left PrimFloat.add
           (map (fun xy => (snd xy - meanY) * (snd xy - meanY)) pairs)
           (denominatorY sums) |}.
Proof.
  revert sums. induction pairs as [| xy pairs IH]; intros [n dx dy];
    [reflexivity|].
  cbn [fold_left map]. rewrite IH. reflexivity.
Qed.

Lemma combine_map {A B C D : Type} (f : A -> C) (g : B -> D)
    (l : list A) (l' : list B) :
  combine (map f l) (map g l')
  = map (fun ab => (f (fst ab), g (snd ab))) (combine l l').
Proof.
  revert l'. induction l as [| a l IH]; intros [| b l']; simpl;
    try reflexivity. now rewrite IH.
Qed.

Lemma map_combine_fst {A B C : Type} (f : A -> C) (l : list A) (l' : list B) :
  List.length l = List.length l' ->
  map (fun ab => f (fst ab)) (combine l l') = map f l.
Proof.
  revert l'. induction l as [| a l IH]; intros [| b l'] H; simpl in *;
    try reflexivity; try discriminate. rewrite IH; [reflexivity | lia].
Qed.

Lemma map_combine_snd {A B C : Type} (f : B -> C) (l : list A) (l' : list B) :
  List.length l = List.length l' ->
  map (fun ab => f (snd ab)) (combine l l') = map f l'.
Proof.
  revert l'. induction l as [| a l IH]; intros [| b l'] H; simpl in *;
    try reflexivity; try discriminate. rewrite IH; [reflexivity | lia].
Qed.

Lemma map_combine_diag {A C : Type} (f : A -> A -> C) (l : list A) :
  map (fun ab => f (fst ab) (snd ab)) (combine l l) = map (fun a => f a a) l.
Proof.
  induction l as [| a l IH]; simpl; [reflexivity | now rewrite IH].
Qed.

Lemma sumProducts_centered (xs ys : list Js.number) :
  sumProducts (centered xs) (centered ys)
  = fold_left PrimFloat.add
      (map (fun xy => (fst xy - mean xs) * (snd xy - mean ys)) (combine xs ys)) 0.
Proof.
  unfold sumProducts, sum, centered. rewrite combine_map, map_map.
  reflexivity.
Qed.

Lemma sumProducts_square (xs : list Js.number) :
  sumProducts (centered xs) (centered xs)
  = fold_left PrimFloat.add
      (map (fun x => (x - mean xs) * (x - mean xs)) xs) 0.
Proof.
  rewrite sumProducts_centered.
  now rewrite (map_combine_diag (fun x y => (x - mean xs) * (y - mean xs))).
Qed.

(** What the function computes on two series of one length: the textbook
    formula, with 0 in place of a division by 0. *)
Lemma calculateCorrelation_formula (xs ys : list Js.number) :
  xs <> [] -> List.length xs = List.length ys ->
  calculateCorrelation xs ys
  = if pearsonDenominator xs ys =? 0 then 0
    else pearsonNumerator xs ys / pearsonDenominator xs ys.
Proof.
  intros Hne Hlen. unfold calculateCorrelation.
  rewrite <- Hlen, Nat.eqb_refl, orb_diag, length_zero_eqb.
  destruct xs as [| x xs']; [congruence|]. cbn [negb orb].
  set (xs := x :: xs') in *.
  rewrite (correlation_loop xs ys _ _ _ Hlen), addProducts_fold.
  cbn [numerator denominatorX denominatorY].
  rewrite (map_combine_fst (fun x => (x - _) * (x - _)) xs ys Hlen).
  rewrite (map_combine_snd (fun y => (y - _) * (y - _)) xs ys Hlen).
  unfold pearsonNumerator, pearsonDenominator.
  rewrite !sumProducts_square, sumProducts_centered.
  unfold mean, sum. rewrite <- Hlen. reflexivity.
Qed.

Lemma calculateCorrelation_sentinel (xs ys : list Js.number) :
  xs = [] \/ ys = [] \/ List.length xs <> List.length ys ->
  calculateCorrelation xs ys = 0.
Proof.
  unfold calculateCorrelation. intros [-> | [-> | Hlen]].
  - reflexivity.
  - now rewrite orb_true_r.
  - apply Nat.eqb_neq in Hlen. rewrite Hlen. now rewrite orb_true_r.
Qed.

Lemma sumProducts_comm (xs ys : list Js.number) :
  sumProducts xs ys = sumProducts ys xs.
Proof.
  unfold sumProducts. f_equal.
  revert ys. induction xs as [| x xs IH]; intros [| y ys]; simpl;
    try reflexivity.
  now rewrite IH, mul_comm.
Qed.

Lemma calculateCorrelation_comm (xs ys : list Js.number) :
  calculateCorrelation xs ys = calculateCorrelation ys xs.
Proof.
  destruct (Nat.eq_dec (List.length xs) (List.length ys)) as [Hlen | Hlen].
  - destruct xs as [| x xs'].
    + now rewrite !calculateCorrelation_sentinel by auto.
    + assert (Hys : ys <> []) by (destruct ys; simpl in *; congruence).
      assert (Hxs : x :: xs' <> []) by discriminate.
      rewrite (calculateCorrelation_formula _ _ Hxs Hlen).
      rewrite (calculateCorrelation_formula _ _ Hys (eq_sym Hlen)).
      unfold pearsonNumerator, pearsonDenominator.
      now rewrite (sumProducts_comm (centered (x :: xs')) (centered ys)),
        (mul_comm (sumProducts (centered (x :: xs')) (centered (x :: xs')))).
  - rewrite !calculateCorrelation_sentinel; auto.
Qed.

Lemma nth_map_in {A B : Type} (f : A -> B) (l : list A) (i : nat)
    (d : B) (d' : A) :
  (i < List.length l)%nat -> nth i (map f l) d = f (nth i l d').
Proof.
  intros Hi. rewrite (nth_indep _ d (f d')) by now rewrite length_map.
  apply map_nth.
Qed.

Lemma nth_nil {A : Type} (i : nat) (d : A) : nth i [] d = d.
Proof. destruct i; reflexivity. Qed.

(** *** Loops that may return *)

Lemma forEach_app {I A : Type} (l1 l2 : list I) (body : I -> A -> loop A)
    (acc : A) :
  forEach (l1 ++ l2) body acc
  = match forEach l1 body acc with
    | Continue acc' => forEach l2 body acc'
    | Return res => Return res
    end.
Proof.
  revert acc. induction l1 as [| i l1 IH]; intros acc; [reflexivity|].
  simpl. destruct (body i acc); [apply IH | reflexivity].
Qed.

Lemma forEach_map {I J A : Type} (f : I -> J) (l : list I)
    (body : J -> A -> loop A) (acc : A) :
  forEach (map f l) body acc = forEach l (fun i => body (f i)) acc.
Proof.
  revert acc. induction l as [| i l IH]; intros acc; [reflexivity|].
  simpl. destruct (body (f i) acc); [apply IH | reflexivity].
Qed.

(** Two nested loops are one loop over the pairs of their indices. *)
Lemma forEach_nested {I J A : Type} (outer : list I) (inner : I -> list J)
    (body : I -> J -> A -> loop A) (acc : A) :
  forEach outer (fun i acc => forEach (inner i) (body i) acc) acc
  = forEach (flat_map (fun i => map (fun j => (i, j)) (inner i)) outer)
      (fun ij => body (fst ij) (snd ij)) acc.
Proof.
  revert acc. induction outer as [| i outer IH]; intros acc; [reflexivity|].
  cbn [forEach flat_map]. rewrite forEach_app, forEach_map. cbn [fst snd].
  destruct (forEach (inner i) (body i) acc); [apply IH | reflexivity].
Qed.

(** A loop that appends the candidates having points and returns at the
    fourth one computes the first four of them. *)
Lemma scatter_loop (analysis : AnalysisResult) (pairs : list (nat * nat))
    (acc : list ScatterPair) :
  (List.length acc < 4)%nat ->
  finish (forEach pairs
            (fun ij => scatterInner analysis (numericColumns analysis)
                         (fst ij) (snd ij)) acc)
  = firstn 4 (acc ++ filter hasPoints (map (scatterCandidate analysis) pairs)).
Proof.
  revert acc. induction pairs as [| ij pairs IH]; intros acc Hacc.
  - cbn [forEach finish map filter]. rewrite app_nil_r. symmetry.
    apply firstn_all2. lia.
  - cbn [forEach map filter]. unfold scatterInner at 1.
    change (hasPoints (scatterCandidate analysis ij))
      with (0 <? List.length
                   (pointsOf analysis
                      (columnAt (numericColumns analysis) (fst ij))
                      (columnAt (numericColumns analysis) (snd ij))))%nat.
    destruct (0 <? List.length _)%nat eqn:Epoints.
    + fold (scatterCandidate analysis ij).
      replace (acc ++ scatterCandidate analysis ij
                 :: filter hasPoints (map (scatterCandidate analysis) pairs))
        with ((acc ++ [scatterCandidate analysis ij])
                ++ filter hasPoints (map (scatterCandidate analysis) pairs))
        by (now rewrite <- app_assoc).
      destruct (4 <=? List.length (acc ++ [scatterCandidate analysis ij]))%nat
        eqn:Efull.
      * apply Nat.leb_le in Efull. rewrite length_app in Efull.
        cbn [List.length] in Efull. cbn [finish].
        rewrite firstn_app.
        replace (4 - List.length (acc ++ [scatterCandidate analysis ij]))%nat
          with 0%nat by (rewrite length_app; cbn [List.length]; lia).
        rewrite firstn_all2 by (rewrite length_app; cbn [List.length]; lia).
        now rewrite firstn_O, app_nil_r.
      * apply Nat.leb_gt in Efull. apply IH. exact Efull.
    + replace (4 <=? List.length acc)%nat with false
        by (symmetry; apply Nat.leb_gt; exact Hacc).
      apply IH. exact Hacc.
Qed.

Lemma filterPoints_length (analysis : AnalysisResult) (xColumn yColumn : string) :
  List.length (pointsOf analysis xColumn yColumn)
  = countIf (bothCoerce xColumn yColumn) (rawRows analysis).
Proof.
  unfold pointsOf, countIf, bothCoerce, coerces.
  induction (rawRows analysis) as [| row rows IH]; [reflexivity|].
  cbn [map filterPoints filter].
  destruct (toNumber (get row xColumn)), (toNumber (get row yColumn));
    simpl; now rewrite IH.
Qed.

Lemma countIf_positive {A : Type} (p : A -> bool) (l : list A) :
  (0 <? countIf p l)%nat = existsb p l.
Proof.
  unfold countIf. induction l as [| a l IH]; [reflexivity|].
  simpl. destruct (p a); [reflexivity | exact IH].
Qed.

Lemma In_firstn {A : Type} (n : nat) (l : list A) (a : A) :
  In a (firstn n l) -> In a l.
Proof.
  intros H. rewrite <- (firstn_skipn n l). apply in_or_app. now left.
Qed.

Lemma indexPairs_In (n i j : nat) :
  In (i, j) (indexPairs n) <-> (i < j < n)%nat.
Proof.
  unfold indexPairs. rewrite in_flat_map. split.
  - intros (i' & Hi' & Hin). apply in_map_iff in Hin as (j' & E & Hj').
    injection E as -> ->. apply in_seq in Hi', Hj'. lia.
  - intros H. exists i. split; [apply in_seq; lia|].
    apply in_map_iff. exists j. split; [reflexivity | apply in_seq; lia].
Qed.

(** *** The histogram *)

Lemma incrementAt_length (counts : list nat) (i : nat) :
  List.length (incrementAt counts i) = List.length counts.
Proof.
  revert i. induction counts as [| c counts IH]; intros [| i]; simpl;
    try reflexivity. now rewrite IH.
Qed.

Lemma incrementAt_sum (counts : list nat) (i : nat) :
  (i < List.length counts)%nat ->
  list_sum (incrementAt counts i) = S (list_sum counts).
Proof.
  revert i. induction counts as [| c counts IH]; intros [| i] Hi; simpl in *;
    try lia. rewrite IH; lia.
Qed.

Lemma increment_length (counts : list nat) (index : Js.number) :
  List.length (increment counts index) = List.length counts.
Proof.
  unfold increment. destruct (Js.arrayIndex index) as [i |]; [|reflexivity].
  destruct (i <? Z.of_nat (List.length counts))%Z; [|reflexivity].
  apply incrementAt_length.
Qed.

Lemma arrayIndex_nonneg (x : Js.number) (i : Z) :
  Js.arrayIndex x = Some i -> (0 <= i)%Z.
Proof.
  unfold Js.arrayIndex.
  destruct (Prim2SF x) as [s | s | | [|] m e]; try discriminate.
  - intros H. injection H as <-. lia.
  - destruct (0 <=? e)%Z eqn:E.
    + intros H. injection H as <-. apply Z.shiftl_nonneg. lia.
    + destruct (_ =? _)%Z; [|discriminate].
      intros H. injection H as <-. apply Z.shiftr_nonneg. lia.
Qed.

Lemma fill_length (bins : nat) (min step : Js.number)
    (values : list Js.number) (counts : list nat) :
  List.length
    (fold_left (fun counts value =>
                  increment counts (bucketIndex bins min step value))
       values counts)
  = List.length counts.
Proof.
  revert counts. induction values as [| v values IH]; intros counts;
    [reflexivity|].
  cbn [fold_left]. now rewrite IH, increment_length.
Qed.

Lemma fill_sum (bins : nat) (min step : Js.number)
    (values : list Js.number) (counts : list nat) :
  List.length counts = bins ->
  list_sum
    (fold_left (fun counts value =>
                  increment counts (bucketIndex bins min step value))
       values counts)
  = (list_sum counts + countIf (landsInBucket bins min step) values)%nat.
Proof.
  revert counts. induction values as [| v values IH]; intros counts Hlen.
  - unfold countIf. simpl. lia.
  - cbn [fold_left]. rewrite IH by now rewrite increment_length.
    unfold countIf, landsInBucket, increment. cbn [filter].
    destruct (Js.arrayIndex (bucketIndex bins min step v)) as [i |] eqn:E;
      [|reflexivity].
    rewrite Hlen. destruct (i <? Z.of_nat bins)%Z eqn:Ei; [|reflexivity].
    apply Z.ltb_lt in Ei. apply arrayIndex_nonneg in E.
    rewrite incrementAt_sum by lia. cbn [List.length]. lia.
Qed.

Lemma map_fst_combine_seq {A : Type} (l : list A) (start : nat) :
  map fst (combine l (seq start (List.length l))) = l.
Proof.
  revert start. induction l as [| a l IH]; intros start; [reflexivity|].
  simpl. now rewrite IH.
Qed.

Lemma list_sum_repeat_0 (n : nat) : list_sum (repeat 0%nat n) = 0%nat.
Proof. induction n; simpl; auto. Qed.

(** The three cases of the builder. *)
Lemma buildHistogram_empty (bins : nat) : buildHistogram [] bins = [].
Proof. reflexivity. Qed.

Lemma buildHistogram_single (values : list Js.number) (bins : nat) :
  values <> [] ->
  (Js.Math_min values =? Js.Math_max values) = true ->
  buildHistogram values bins
  = [ {| bin := NumberToString (Js.Math_min values);
         count := List.length values |} ].
Proof.
  intros Hne Heq. unfold buildHistogram. rewrite length_zero_eqb.
  destruct values; [congruence|]. now rewrite Heq.
Qed.

Lemma buildHistogram_counts (values : list Js.number) (bins : nat) :
  values <> [] ->
  (Js.Math_min values =? Js.Math_max values) = false ->
  map count (buildHistogram values bins)
  = fold_left
      (fun counts value =>
         increment counts
           (bucketIndex bins (Js.Math_min values)
              ((Js.Math_max values - Js.Math_min values) / Js.ofNat bins)
              value))
      values (repeat 0%nat bins).
Proof.
  intros Hne Heq. unfold buildHistogram. rewrite length_zero_eqb.
  destruct values as [| v values']; [congruence|]. rewrite Heq.
  rewrite map_map.
  rewrite (map_ext _ fst) by (intros [c i]; reflexivity).
  apply map_fst_combine_seq.
Qed.

(** With several distinct values there are [bins] buckets, and their counts
    add up to the number of values whose key is an index of the array. *)
Lemma buildHistogram_buckets (values : list Js.number) (bins : nat) :
  values <> [] ->
  (Js.Math_min values =? Js.Math_max values) = false ->
  List.length (buildHistogram values bins) = bins
  /\ totalCount (buildHistogram values bins)
     = countIf
         (landsInBucket bins (Js.Math_min values)
            ((Js.Math_max values - Js.Math_min values) / Js.ofNat bins))
         values.
Proof.
  intros Hne Heq. unfold totalCount.
  rewrite <- (length_map count), (buildHistogram_counts values bins Hne Heq).
  split.
  - now rewrite fill_length, repeat_length.
  - rewrite fill_sum by apply repeat_length. now rewrite list_sum_repeat_0.
Qed.

(** The label of a bucket is made of its two boundaries, each printed with
    two decimals. *)
Lemma buildHistogram_labels (values : list Js.number) (bins k : nat)
    (d : HistogramBin) :
  values <> [] ->
  (Js.Math_min values =? Js.Math_max values) = false ->
  (k < bins)%nat ->
  bin (nth k (buildHistogram values bins) d)
  = String.append
      (toFixed2 (Js.Math_min values
                 + (Js.Math_max values - Js.Math_min values) / Js.ofNat bins
                   * Js.ofNat k))
      (String.append " - "
         (toFixed2 (Js.Math_min values
                    + (Js.Math_max values - Js.Math_min values) / Js.ofNat bins
                      * Js.ofNat (k + 1)))).
Proof.
  intros Hne Heq Hk. unfold buildHistogram. rewrite length_zero_eqb.
  destruct values as [| v values']; [congruence|]. rewrite Heq.
  set (counts := fold_left _ (v :: values') (repeat 0%nat bins)).
  assert (Hlen : List.length counts = bins)
    by (unfold counts; now rewrite fill_length, repeat_length).
  rewrite (nth_map_in _ _ k d (0%nat, 0%nat))
    by (rewrite length_combine, length_seq, Nat.min_id; lia).
  rewrite (combine_nth counts (seq 0 (List.length counts)) k 0%nat 0%nat)
    by now rewrite length_seq.
  rewrite seq_nth by lia. reflexivity.
Qed.

(** ** The main theorems *)

(** C1.  [analyzeData] throws exactly when the dataset has no row, the
    exception being the empty-dataset error; on every other dataset it
    returns a result, whose row count, column count, profiles and retained
    rows are those of the dataset. *)
Theorem analyzeData_fails_iff_empty (rows : list DataRow) :
  (analyzeData rows = Throw (Error emptyMessage) <-> List.length rows = 0%nat)
  /\ (forall e, analyzeData rows = Throw e -> e = Error emptyMessage)
  /\ (List.length rows <> 0%nat <->
      exists result,
        analyzeData rows = Normal result
        /\ r_totalRows result = List.length rows
        /\ r_totalColumns result = List.length (columnsOf rows)
        /\ map name (columnStats result) = columnsOf rows
        /\ rawRows result = rows).
Proof.
  unfold analyzeData. destruct rows as [| row rows]; simpl.
  - split; [tauto|]. split; [intros e H; now injection H as <-|].
    split; [congruence|]. intros (result & H & _). discriminate.
  - split; [split; discriminate|]. split; [discriminate|].
    split; [intros _ | discriminate].
    eexists. split; [reflexivity|]. simpl. repeat split.
    rewrite map_map. simpl. apply map_id.
Qed.

(** X26.  In every profile that [analyzeData] produces, the null count and
    the number of non-null raw values of the column add up to the total, the
    total is the number of rows of the dataset, and the null count is at
    most the total.  The null count counts the rows in which the column
    reads as null; a row that lacks the key is among them exactly when the
    name is none that every row inherits. *)
Theorem nullCount_complements_nonNull (rows : list DataRow)
    (result : AnalysisResult) (profile : ColumnStats) :
  analyzeData rows = Normal result ->
  In profile (columnStats result) ->
  (nullCount profile + List.length (nonNullRaw rows (name profile))
   = totalRows profile)%nat
  /\ totalRows profile = List.length rows
  /\ (nullCount profile <= totalRows profile)%nat
  /\ nullCount profile
     = countIf (fun row => isNullValue (get row (name profile))) rows
  /\ (forall row, In row rows -> ~ In (name profile) (map fst row) ->
      isNullValue (get row (name profile))
      = negb (isInherited (name profile))).
Proof.
  intros H Hin.
  destruct (profile_of_column rows result profile H Hin) as (column & _ & ->).
  unfold columnStatsOf. simpl.
  pose proof (countIf_split isNullValue
                (map (fun row => orNull (get row column)) rows)) as Hsplit.
  unfold countIf at 2 in Hsplit.
  rewrite columnStatsOf_nonNull, length_map in Hsplit.
  repeat split.
  - exact Hsplit.
  - lia.
  - rewrite countIf_map. unfold countIf. f_equal. apply filter_ext.
    intros row. apply isNullValue_orNull.
  - intros row _ Hmiss. rewrite get_missing by exact Hmiss.
    apply isNullValue_inherited.
Qed.

(** A dataset of two rows, each of which lacks the key of the other; the
    second key is a name that every row inherits. *)
Definition inheritedNameRows : list DataRow :=
  [ [ ("a", Num 1) ]; [ ("constructor", Str "x") ] ]%string.

(** C2.  A missing key does not always count as null.  In the dataset
    [{a: 1}, {constructor: "x"}] each row lacks the key of the other; the
    profile of [a] counts one null, the second row, but the profile of
    [constructor] counts none: the first row reads the column as the
    function that it inherits under that name. *)
Theorem nullCount_overlooks_inherited_key :
  ~ In "constructor"%string (map fst (nth 0%nat inheritedNameRows []))
  /\ get (nth 0%nat inheritedNameRows []) "constructor"
     = Str "function Object() { [native code] }"
  /\ exists result,
       analyzeData inheritedNameRows = Normal result
       /\ map (fun profile =>
                 (name profile, nullCount profile, totalRows profile))
            (columnStats result)
          = [ ("a"%string, 1%nat, 2%nat);
              ("constructor"%string, 0%nat, 2%nat) ].
Proof.
  split; [cbn; intros [H | []]; discriminate|].
  split; [reflexivity|].
  eexists. split; [reflexivity|]. vm_compute. reflexivity.
Qed.



(** X27.  A sequence shorter than 2 is [sin_orden].  On a longer one the
    detector answers [ascendente] when no element is below its predecessor,
    otherwise [descendente] when no element is above its predecessor,
    otherwise [sin_orden].  On values that can be ordered (two neighbours
    are both texts, or neither converts to NaN) that is: [ascendente] when
    every element is at or above its predecessor, otherwise [descendente]
    when every element is at or below its predecessor, otherwise
    [sin_orden]; a sequence of equal values is [ascendente].  The four
    examples of the design document are answered as it says. *)
Theorem detectOrder_classifies (values : list Value) :
  ((List.length values < 2)%nat -> detectOrder values = sin_orden)
  /\ ((2 <= List.length values)%nat ->
      detectOrder values
      = if everyStep (fun previous current => negb (jsLt current previous))
             values
        then ascendente
        else if everyStep (fun previous current =>
                             negb (jsLt previous current)) values
             then descendente
             else sin_orden)
  /\ ((2 <= List.length values)%nat ->
      everyStep comparablePair values = true ->
      detectOrder values
      = if everyStep (fun previous current => jsLe previous current) values
        then ascendente
        else if everyStep (fun previous current => jsLe current previous) values
             then descendente
             else sin_orden)
  /\ ((2 <= List.length values)%nat ->
      everyStep comparablePair values = true ->
      forall v, Forall (eq v) values -> detectOrder values = ascendente)
  /\ detectOrder [Num 1; Num 2; Num 2; Num 3] = ascendente
  /\ detectOrder [Num 3; Num 2; Num 2; Num 1] = descendente
  /\ detectOrder [Num 1; Num 3; Num 2] = sin_orden
  /\ detectOrder [Num 5; Num 5; Num 5] = ascendente.
Proof.
  assert (Hsteps : (2 <= List.length values)%nat ->
                   everyStep comparablePair values = true ->
                   detectOrder values
                   = if everyStep (fun previous current => jsLe previous current) values
                     then ascendente
                     else if everyStep (fun previous current => jsLe current previous) values
                          then descendente
                          else sin_orden).
  { intros Hlen Hcmp. rewrite (detectOrder_by_steps values Hlen).
    rewrite (everyStep_ext comparablePair
               (fun previous current => negb (jsLt current previous))
               (fun previous current => jsLe previous current) values
               not_jsLt_jsLe Hcmp).
    rewrite (everyStep_ext comparablePair
               (fun previous current => negb (jsLt previous current))
               (fun previous current => jsLe current previous) values); auto.
    intros a b Hab. apply not_jsLt_jsLe. now rewrite comparablePair_sym. }
  split; [| split; [apply detectOrder_by_steps | split; [exact Hsteps | split]]].
  - intros Hlen. unfold detectOrder.
    now replace (List.length values <? 2)%nat with true
      by (symmetry; apply Nat.ltb_lt; exact Hlen).
  - intros Hlen Hcmp v Hall. rewrite (Hsteps Hlen Hcmp).
    replace (everyStep (fun previous current => jsLe previous current) values)
      with true; [reflexivity|].
    symmetry. clear Hsteps Hlen.
    induction Hall as [| a rest <- Hrest IH]; [reflexivity|].
    destruct Hrest as [| b rest <- Hrest]; [reflexivity|].
    rewrite everyStep_cons in *. apply andb_prop in Hcmp as [Hvv Hcmp].
    rewrite (jsLe_refl v Hvv). apply IH, Hcmp.
  - repeat split; vm_compute; reflexivity.
Qed.

(** X28.  The correlation is a total function on two series of numbers.  It
    is the sentinel 0 when a series is empty or the lengths differ, and when
    the denominator of the Pearson formula, as the arithmetic of numbers
    computes it, is 0; otherwise it is the sum of the products of the
    mean-centred values divided by the square root of the product of the two
    sums of squares.  The examples of the design document give 1, -1, 0 and
    0 as it says, and a series of three times 1 gives 0. *)
Theorem calculateCorrelation_pearson (xs ys : list Js.number) :
  (xs = [] \/ ys = [] \/ List.length xs <> List.length ys ->
   calculateCorrelation xs ys = 0)
  /\ (xs <> [] -> List.length xs = List.length ys ->
      (pearsonDenominator xs ys =? 0) = true ->
      calculateCorrelation xs ys = 0)
  /\ (xs <> [] -> List.length xs = List.length ys ->
      (pearsonDenominator xs ys =? 0) = false ->
      calculateCorrelation xs ys
      = pearsonNumerator xs ys / pearsonDenominator xs ys)
  /\ calculateCorrelation [1; 2; 3] [2; 4; 6] = 1
  /\ calculateCorrelation [1; 2; 3] [3; 2; 1] = -1
  /\ calculateCorrelation [] [] = 0
  /\ calculateCorrelation [1; 2] [1; 2; 3] = 0
  /\ calculateCorrelation [1; 1; 1] [1; 2; 3] = 0.
Proof.
  split; [apply calculateCorrelation_sentinel|].
  split; [|split].
  - intros Hne Hlen Hden.
    now rewrite (calculateCorrelation_formula xs ys Hne Hlen), Hden.
  - intros Hne Hlen Hden.
    now rewrite (calculateCorrelation_formula xs ys Hne Hlen), Hden.
  - repeat split; vm_compute; reflexivity.
Qed.

(** C9.  The correlation of two series does not depend on their order, and
    the correlation matrix, built on the two columns' numbers cut to the
    shorter length, is symmetric: the entries at [i], [j] and at [j], [i]
    are the same number. *)
Theorem correlationMatrix_symmetric (analysis : AnalysisResult) (i j : nat)
    (d : Js.number) :
  (forall xs ys, calculateCorrelation xs ys = calculateCorrelation ys xs)
  /\ nth j (nth i (correlationMatrix analysis) []) d
     = nth i (nth j (correlationMatrix analysis) []) d.
Proof.
  split; [exact calculateCorrelation_comm|].
  unfold correlationMatrix.
  set (columns := numericColumns analysis).
  set (entry := fun column otherColumn =>
         calculateCorrelation
           (firstn (Nat.min (List.length (numbersOf analysis column))
                      (List.length (numbersOf analysis otherColumn)))
              (numbersOf analysis column))
           (firstn (Nat.min (List.length (numbersOf analysis column))
                      (List.length (numbersOf analysis otherColumn)))
              (numbersOf analysis otherColumn))).
  change (nth j (nth i (map (fun c => map (entry c) columns) columns) []) d
          = nth i (nth j (map (fun c => map (entry c) columns) columns) []) d).
  assert (Hsym : forall c o, entry c o = entry o c).
  { intros c o. unfold entry.
    rewrite (Nat.min_comm (List.length (numbersOf analysis o))).
    apply calculateCorrelation_comm. }
  destruct (Nat.lt_ge_cases i (List.length columns)) as [Hi | Hi];
    destruct (Nat.lt_ge_cases j (List.length columns)) as [Hj | Hj].
  - rewrite (nth_map_in _ columns i [] EmptyString Hi).
    rewrite (nth_map_in _ columns j [] EmptyString Hj).
    rewrite (nth_map_in _ columns j d EmptyString Hj).
    rewrite (nth_map_in _ columns i d EmptyString Hi).
    apply Hsym.
  - rewrite (nth_map_in _ columns i [] EmptyString Hi).
    rewrite (nth_overflow (map _ columns) d) by now rewrite length_map.
    rewrite (nth_overflow (map _ columns) []) by now rewrite length_map.
    now rewrite nth_nil.
  - rewrite (nth_overflow (map _ columns) []) by now rewrite length_map.
    rewrite (nth_map_in _ columns j [] EmptyString Hj).
    rewrite (nth_overflow (map _ columns) d) by now rewrite length_map.
    now rewrite nth_nil.
  - rewrite !(nth_overflow (map _ columns) []) by now rewrite length_map.
    now rewrite !nth_nil.
Qed.

(** C8.  The scatter pairs are the first four, in the enumeration of the
    positions [i < j] of the numeric columns by rows, of the pairs of
    columns that have a point, a point being a row in which both columns
    coerce to numbers.  So there are at most four, none without points. *)
Theorem scatterPairs_first_four (analysis : AnalysisResult) :
  scatterPairs analysis
  = firstn 4
      (filter hasPoints
         (map (scatterCandidate analysis)
            (indexPairs (List.length (numericColumns analysis)))))
  /\ (List.length (scatterPairs analysis) <= 4)%nat
  /\ Forall (fun pair => points pair <> []) (scatterPairs analysis)
  /\ (forall i j,
        In (i, j) (indexPairs (List.length (numericColumns analysis)))
        <-> (i < j < List.length (numericColumns analysis))%nat)
  /\ (forall ij,
        hasPoints (scatterCandidate analysis ij)
        = existsb (bothCoerce (columnAt (numericColumns analysis) (fst ij))
                     (columnAt (numericColumns analysis) (snd ij)))
            (rawRows analysis)).
Proof.
  assert (E : scatterPairs analysis
              = firstn 4
                  (filter hasPoints
                     (map (scatterCandidate analysis)
                        (indexPairs (List.length (numericColumns analysis)))))).
  { unfold scatterPairs. rewrite forEach_nested.
    fold (indexPairs (List.length (numericColumns analysis))).
    rewrite (scatter_loop analysis _ []); [reflexivity | simpl; lia]. }
  split; [exact E|]. rewrite E. split; [|split; [|split]].
  - rewrite length_firstn. lia.
  - apply Forall_forall. intros pair Hin. apply In_firstn in Hin.
    apply filter_In in Hin as [_ Hpts]. unfold hasPoints in Hpts.
    intros Hnil. rewrite Hnil in Hpts. discriminate.
  - intros i j. apply indexPairs_In.
  - intros ij. unfold hasPoints, scatterCandidate. cbn [points].
    rewrite filterPoints_length. apply countIf_positive.
Qed.

(** C6, at an input on which the builder loses a value.  The range of
    [-1e308; 1e308] is not a finite number, so the bucket width is infinite
    and the key of the maximum is NaN, which is not an index: of the two
    values only one is counted, and no bucket holds the maximum. *)
Theorem buildHistogram_drops_value_on_overflow :
  map count (buildHistogram [-1e308; 1e308] 8)
  = [1; 0; 0; 0; 0; 0; 0; 0]%nat
  /\ totalCount (buildHistogram [-1e308; 1e308] 8) = 1%nat
  /\ List.length [-1e308; 1e308] = 2%nat
  /\ (Js.Math_max [-1e308; 1e308] - Js.Math_min [-1e308; 1e308]) / Js.ofNat 8
     = infinity
  /\ bucketIndex 8 (-1e308) infinity 1e308 = nan.
Proof.
  repeat split; vm_compute; reflexivity.
Qed.

(** C10.  A null value coerces to nothing or to the number 0: a text of
    white space only is null and still coerces to 0.  So a null value can be
    among the numeric values of a column, but it is never counted as
    positive: the positive count, over all the values of a column, is the
    number of positive numbers among its non-null values. *)
Theorem null_value_coerces_to_none_or_zero :
  (forall value,
     isNullValue value = true ->
     toNumber value = None \/ toNumber value = Some 0)
  /\ (isNullValue (Str " ") = true /\ toNumber (Str " ") = Some 0)
  /\ (forall values,
        countIf (fun x => 0 <? x) (filterNumbers (map toNumber values))
        = countIf (fun x => 0 <? x)
            (filterNumbers
               (map toNumber
                  (filter (fun value => negb (isNullValue value)) values))))
  /\ (forall rows column,
        positiveCount (columnStatsOf rows column)
        = countIf (fun x => 0 <? x)
            (filterNumbers (map toNumber (nonNullRaw rows column)))).
Proof using StringToNumber_blank.
  assert (Hnull : forall value,
             isNullValue value = true ->
             toNumber value = None \/ toNumber value = Some 0).
  { intros [| | x | s]; simpl; intros H; try (now left); try discriminate.
    apply String.eqb_eq in H. right.
    rewrite (replaceCommas_white s (trim_empty s H)).
    now rewrite (StringToNumber_blank s H). }
  assert (Hcount : forall values,
             countIf (fun x => 0 <? x) (filterNumbers (map toNumber values))
             = countIf (fun x => 0 <? x)
                 (filterNumbers
                    (map toNumber
                       (filter (fun value => negb (isNullValue value)) values)))).
  { intros values. induction values as [| v values IH]; [reflexivity|].
    cbn [map filter]. destruct (isNullValue v) eqn:Ev; cbn [negb].
    - destruct (Hnull v Ev) as [H | H]; rewrite H; cbn [filterNumbers];
        [exact IH|].
      unfold countIf in *. cbn [filter].
      replace (0 <? 0) with false by reflexivity. exact IH.
    - cbn [map]. destruct (toNumber v) as [x |]; cbn [filterNumbers];
        [|exact IH].
      unfold countIf in *. cbn [filter].
      destruct (0 <? x); simpl; now rewrite IH. }
  split; [exact Hnull|]. split; [|split; [exact Hcount|]].
  - split; [reflexivity|].
    destruct (Hnull (Str " ") eq_refl) as [H | H]; [|exact H].
    simpl in H. rewrite (StringToNumber_blank " " eq_refl) in H. discriminate.
  - intros rows column. unfold columnStatsOf. cbn [positiveCount].
    now rewrite Hcount, columnStatsOf_nonNull.
Qed.

End Engine.

(** ** The engine on the reference runtime *)

Lemma Reference_StringToNumber_blank (s : string) :
  JsString.trim s = EmptyString -> Reference.StringToNumber s = 0%float.
Proof.
  unfold Reference.StringToNumber. intros ->. reflexivity.
Qed.

(** The profile of the sample dataset. *)
Example analyzeData_sample :
  exists result,
    analyzeData Reference.StringToNumber Reference.DateParse sampleRows
    = Normal result
    /\ map (fun profile => (name profile, nullCount profile, dataType profile))
         (columnStats result)
       = [ ("fecha", 0, texto); ("valor", 0, mixto); ("nota", 3, vacio) ]%string
    /\ dateColumns result = [ "fecha"%string ]
    /\ numericColumns result = [].
Proof.
  eexists. split; [vm_compute; reflexivity|].
  repeat split; reflexivity.
Qed.

(** The histogram of the design document: eleven values spread over
    [0, 10] in two buckets. *)
Example buildHistogram_two_buckets :
  buildHistogram Reference.NumberToString
    [0; 1; 2; 3; 4; 5; 6; 7; 8; 9; 10]%float 2
  = [ {| bin := "0.00 - 5.00"; count := 5 |};
      {| bin := "5.00 - 10.00"; count := 6 |} ]%string
  /\ buildHistogram Reference.NumberToString [1; 1; 1]%float 8
     = [ {| bin := "1"; count := 3 |} ]%string.
Proof.
  split; vm_compute; reflexivity.
Qed.

(** C5.  The detector does not answer [sin_orden] on every sequence that is
    neither ascending nor descending.  In ["abc", 5] the number is neither
    at or above the text nor at or below it, and the detector answers
    [ascendente]; so it does on the column ["1,5", 2, "x"] of the sample
    dataset, where no element is at or above its predecessor and none is at
    or below it. *)
Theorem detectOrder_orders_incomparable_values :
  jsLe Reference.StringToNumber (Str "abc") (Num 5) = false
  /\ jsLe Reference.StringToNumber (Num 5) (Str "abc") = false
  /\ comparablePair Reference.StringToNumber (Str "abc") (Num 5) = false
  /\ detectOrder Reference.StringToNumber [Str "abc"; Num 5] = ascendente
  /\ everyStep (fun previous current =>
                  jsLe Reference.StringToNumber previous current)
       [Str "1,5"; Num 2; Str "x"] = false
  /\ everyStep (fun previous current =>
                  jsLe Reference.StringToNumber current previous)
       [Str "1,5"; Num 2; Str "x"] = false
  /\ detectOrder Reference.StringToNumber [Str "1,5"; Num 2; Str "x"]
     = ascendente.
Proof.
  repeat split; vm_compute; reflexivity.
Qed.

(** X26 on the sample dataset, for the column of blank and null cells. *)
Lemma nullCount_complements_nonNull_sample :
  exists result profile,
    analyzeData Reference.StringToNumber Reference.DateParse sampleRows
    = Normal result
    /\ In profile (columnStats result)
    /\ name profile = "nota"%string
    /\ (nullCount profile + List.length (nonNullRaw sampleRows (name profile))
        = totalRows profile)%nat
    /\ totalRows profile = List.length sampleRows
    /\ (nullCount profile <= totalRows profile)%nat.
Proof.
  destruct (analyzeData Reference.StringToNumber Reference.DateParse sampleRows)
    as [result | e] eqn:Hrun; [| vm_compute in Hrun; discriminate].
  exists result, (columnStatsOf Reference.StringToNumber sampleRows "nota").
  assert (Hin : In (columnStatsOf Reference.StringToNumber sampleRows "nota")
                  (columnStats result)).
  { destruct (analyzeData_normal _ _ _ _ Hrun) as (_ & -> & _).
    apply in_map. vm_compute. auto. }
  split; [reflexivity|]. split; [exact Hin|]. split; [reflexivity|].
  destruct (nullCount_complements_nonNull Reference.StringToNumber
              Reference.DateParse sampleRows _ _ Hrun Hin)
    as (Hsum & Htotal & Hle & _).
  repeat split; assumption.
Defined.




(** X27 on a column that mixes numbers with texts that read as numbers. *)
Lemma detectOrder_classifies_sample :
  (2 <= List.length [Str "10"; Num 9; Str "8.5"; Num 8.5])%nat
  /\ everyStep (comparablePair Reference.StringToNumber)
       [Str "10"; Num 9; Str "8.5"; Num 8.5] = true
  /\ detectOrder Reference.StringToNumber [Str "10"; Num 9; Str "8.5"; Num 8.5]
     = descendente.
Proof.
  assert (Hlen : (2 <= List.length [Str "10"; Num 9; Str "8.5"; Num 8.5])%nat)
    by (simpl; lia).
  assert (Hcmp : everyStep (comparablePair Reference.StringToNumber)
                   [Str "10"; Num 9; Str "8.5"; Num 8.5] = true)
    by (vm_compute; reflexivity).
  split; [exact Hlen|]. split; [exact Hcmp|].
  destruct (detectOrder_classifies Reference.StringToNumber
              [Str "10"; Num 9; Str "8.5"; Num 8.5]) as (_ & _ & Hsteps & _).
  rewrite (Hsteps Hlen Hcmp). vm_compute. reflexivity.
Defined.

(** X28 on two series of one length whose denominator is not 0. *)
Lemma calculateCorrelation_pearson_sample :
  [1; 2; 3]%float <> []
  /\ List.length [1; 2; 3]%float = List.length [1; 2; 4]%float
  /\ (pearsonDenominator [1; 2; 3]%float [1; 2; 4]%float =? 0)%float = false
  /\ calculateCorrelation [1; 2; 3]%float [1; 2; 4]%float
     = (pearsonNumerator [1; 2; 3]%float [1; 2; 4]%float
        / pearsonDenominator [1; 2; 3]%float [1; 2; 4]%float)%float.
Proof.
  assert (Hne : [1; 2; 3]%float <> []) by discriminate.
  assert (Hden : (pearsonDenominator [1; 2; 3]%float [1; 2; 4]%float =? 0)%float = false)
    by (vm_compute; reflexivity).
  split; [exact Hne|]. split; [reflexivity|]. split; [exact Hden|].
  destruct (calculateCorrelation_pearson [1; 2; 3]%float [1; 2; 4]%float)
    as (_ & _ & Hformula & _).
  exact (Hformula Hne eq_refl Hden).
Defined.

(** C10 on the reference runtime. *)
Lemma null_value_coerces_to_none_or_zero_reference :
  (forall value,
     isNullValue value = true ->
     toNumber Reference.StringToNumber value = None
     \/ toNumber Reference.StringToNumber value = Some 0%float)
  /\ isNullValue (Str " ") = true
  /\ toNumber Reference.StringToNumber (Str " ") = Some 0%float.
Proof.
  destruct (null_value_coerces_to_none_or_zero Reference.StringToNumber
              Reference_StringToNumber_blank)
    as (Hnull & (Hblank & Hzero) & _).
  split; [exact Hnull|]. split; [exact Hblank | exact Hzero].
Defined.

(** The scenarios of the design document.  The texts "x", "y", "z" are in
    ascending order of code units, and the detector says so. *)
Example analyzeData_scenarios :
  (exists result,
     analyzeData Reference.StringToNumber Reference.DateParse
       [ [ ("a", Str "1"); ("b", Str "x") ];
         [ ("a", Str "2"); ("b", Str "y") ];
         [ ("a", Str "3"); ("b", Str "z") ] ]%string
     = Normal result
     /\ columnStats result
        = [ {| name := "a"; totalRows := 3; nullCount := 0; positiveCount := 3;
               dataType := numerico; ordered := ascendente |};
            {| name := "b"; totalRows := 3; nullCount := 0; positiveCount := 0;
               dataType := texto; ordered := ascendente |} ]%string
     /\ orderedByFirstColumn result = true
     /\ numericColumns result = [ "a"%string ])
  /\ (exists result,
        analyzeData Reference.StringToNumber Reference.DateParse
          [ [ ("a"%string, Null) ]; [ ("a"%string, Null) ] ]
        = Normal result
        /\ columnStats result
           = [ {| name := "a"; totalRows := 2; nullCount := 2;
                  positiveCount := 0; dataType := vacio;
                  ordered := sin_orden |} ]%string
        /\ hasNulls result = true
        /\ columnsWithNulls result = 1%nat).
Proof.
  split; eexists; (split; [vm_compute; reflexivity|]); repeat split.
Qed.

(** C7.  A constant series does not always give the sentinel.  In the
    arithmetic of numbers the mean of three times 0.1 is not 0.1, so the
    sums of squares of this constant series are not 0 and the formula, not
    the sentinel, gives the result: a number that is not 0 against another
    series, and 1 against itself.  The constant series of three times 5,
    whose mean is exact, gives the sentinel. *)
Theorem calculateCorrelation_misses_constant_series :
  (mean [0.1; 0.1; 0.1] =? 0.1)%float = false
  /\ (pearsonDenominator [0.1; 0.1; 0.1] [1; 2; 4] =? 0)%float = false
  /\ (calculateCorrelation [0.1; 0.1; 0.1] [1; 2; 4] =? 0)%float = false
  /\ calculateCorrelation [0.1; 0.1; 0.1]%float [0.1; 0.1; 0.1]%float
     = 1%float
  /\ calculateCorrelation [5; 5; 5]%float [1; 2; 4]%float = 0%float.
Proof.
  repeat split; vm_compute; reflexivity.
Qed.

(** Two more inputs on which the builder departs from an even binning: a
    width that rounds to 0 loses the minimum, and a width rounded up in the
    subnormal range leaves the maximum in the sixth bucket of eight. *)
Example buildHistogram_tiny_ranges :
  map count (buildHistogram Reference.NumberToString [0; 5e-324]%float 8)
  = [0; 0; 0; 0; 0; 0; 0; 1]%nat
  /\ map count (buildHistogram Reference.NumberToString [0; 2.5e-323]%float 8)
     = [1; 0; 0; 0; 0; 1; 0; 0]%nat.
Proof.
  split; vm_compute; reflexivity.
Qed.

(** * More of the page: the rest of the profile and the derived series *)

(** ** Column discovery *)

(** [set.has(k)]. *)
Definition has (set : list string) (k : string) : bool :=
  existsb (String.eqb k) set.

Lemma has_In (set : list string) (k : string) :
  has set k = true <-> In k set.
Proof.
  unfold has. rewrite existsb_exists. split.
  - intros (x & Hx & E). apply String.eqb_eq in E. now subst.
  - intros H. exists k. split; [exact H | apply String.eqb_refl].
Qed.

Lemma has_app (s1 s2 : list string) (k : string) :
  has (s1 ++ s2) k = has s1 k || has s2 k.
Proof. apply existsb_app. Qed.

Lemma setAdd_In (seen : list string) (k c : string) :
  In c (setAdd seen k) <-> In c seen \/ c = k.
Proof.
  unfold setAdd. fold (has seen k). destruct (has seen k) eqn:E.
  - apply has_In in E. split; [now left | intros [H | ->]; assumption].
  - rewrite in_app_iff. simpl. intuition auto.
Qed.

Lemma setAdd_NoDup (seen : list string) (k : string) :
  NoDup seen -> NoDup (setAdd seen k).
Proof.
  intros H. unfold setAdd. fold (has seen k). destruct (has seen k) eqn:E;
    [exact H|].
  apply NoDup_app; [exact H | repeat constructor; intros [] |].
  intros c Hc [<- | []]. apply has_In in Hc. congruence.
Qed.

Lemma fold_setAdd_In (keys seen : list string) (c : string) :
  In c (fold_left setAdd keys seen) <-> In c seen \/ In c keys.
Proof.
  revert seen. induction keys as [| k keys IH]; intros seen; simpl.
  - tauto.
  - rewrite IH, setAdd_In. split; intros H; repeat destruct H as [H | H]; auto.
Qed.

Lemma fold_setAdd_NoDup (keys seen : list string) :
  NoDup seen -> NoDup (fold_left setAdd keys seen).
Proof.
  revert seen. induction keys as [| k keys IH]; intros seen H; simpl;
    [exact H|]. apply IH, setAdd_NoDup, H.
Qed.

(** Adding keys to a set that holds some already appends the new ones, as
    the empty set would collect them. *)
Lemma fold_setAdd_seen (keys seen : list string) :
  fold_left setAdd keys seen
  = seen ++ arrayFromSet (filter (fun k => negb (has seen k)) keys).
Proof.
  unfold arrayFromSet.
  induction keys as [| k keys IH] using rev_ind; simpl.
  - now rewrite app_nil_r.
  - rewrite fold_left_app, filter_app, fold_left_app. simpl. rewrite IH.
    set (fresh := fold_left setAdd (filter (fun k => negb (has seen k)) keys) []).
    unfold setAdd at 1. fold (has (seen ++ fresh) k). rewrite has_app.
    destruct (has seen k) eqn:Eseen; simpl; [reflexivity|].
    unfold setAdd. fold (has fresh k).
    destruct (has fresh k); [reflexivity | now rewrite app_assoc].
Qed.

Lemma has_filter (p : string -> bool) (set : list string) (k : string) :
  p k = true -> has (filter p set) k = has set k.
Proof.
  intros Hp. induction set as [| c set IH]; [reflexivity|].
  simpl. destruct (p c) eqn:Ec; simpl.
  - now rewrite IH.
  - rewrite IH. destruct (String.eqb_spec k c) as [-> | _]; [congruence|].
    reflexivity.
Qed.

Lemma filter_setAdd (p : string -> bool) (set : list string) (k : string) :
  filter p (setAdd set k)
  = if p k then setAdd (filter p set) k else filter p set.
Proof.
  unfold setAdd. fold (has set k). fold (has (filter p set) k).
  destruct (p k) eqn:Ek.
  - rewrite (has_filter p set k Ek). destruct (has set k); [reflexivity|].
    rewrite filter_app. cbn [filter]. now rewrite Ek.
  - destruct (has set k); [reflexivity|].
    rewrite filter_app. cbn [filter]. rewrite Ek. apply app_nil_r.
Qed.

Lemma arrayFromSet_filter (p : string -> bool) (keys : list string) :
  arrayFromSet (filter p keys) = filter p (arrayFromSet keys).
Proof.
  unfold arrayFromSet.
  induction keys as [| k keys IH] using rev_ind; [reflexivity|].
  rewrite filter_app, !fold_left_app. cbn [filter fold_left].
  rewrite filter_setAdd, <- IH.
  destruct (p k); reflexivity.
Qed.

Lemma columnsOf_In (rows : list DataRow) (column : string) :
  In column (columnsOf rows)
  <-> exists row, In row rows /\ In column (map fst row).
Proof.
  unfold columnsOf, arrayFromSet. rewrite fold_setAdd_In, in_flat_map.
  simpl. tauto.
Qed.

Lemma get_own_or_inherited (row : DataRow) (column : string) :
  In column (map fst row) \/ get row column = inherited column.
Proof.
  induction row as [| [k v] rest IH]; simpl; [now right|].
  destruct (String.eqb_spec k column) as [-> | _]; [left; now left|].
  destruct IH as [IH | IH]; [left; now right | now right].
Qed.

(** X1.  The columns of a dataset are the keys of its rows, each once: a name
    is a column exactly when some row has it as a key.  A name that is no
    column reads in every row as what every row inherits under that name:
    a function or an object for the names of [Object.prototype], and
    [undefined] for any other. *)
Theorem columnsOf_keys_once (rows : list DataRow) :
  NoDup (columnsOf rows)
  /\ (forall column,
        In column (columnsOf rows)
        <-> exists row, In row rows /\ In column (map fst row))
  /\ (forall column row,
        ~ In column (columnsOf rows) -> In row rows ->
        get row column = inherited column
        /\ (isInherited column = false -> get row column = Undefined)).
Proof.
  split; [apply fold_setAdd_NoDup; constructor|]. split.
  - apply columnsOf_In.
  - intros column row Hc Hrow.
    assert (Hget : get row column = inherited column).
    { apply get_missing. intros Hkey. apply Hc, columnsOf_In. now exists row. }
    split; [exact Hget|]. rewrite Hget. unfold isInherited.
    destruct (inherited column); [reflexivity | discriminate ..].
Qed.

(** X2.  The columns are in the order of first appearance: the columns of a
    dataset followed by more rows are the columns of the dataset, followed
    by the columns of the new rows that the dataset did not have. *)
Theorem columnsOf_first_appearance (rows more : list DataRow) :
  columnsOf (rows ++ more)
  = columnsOf rows
    ++ filter (fun column => negb (has (columnsOf rows) column))
         (columnsOf more).
Proof.
  unfold columnsOf at 1. rewrite flat_map_app. unfold arrayFromSet.
  rewrite fold_left_app. fold (arrayFromSet (flat_map (fun row => map fst row) rows)).
  fold (columnsOf rows). rewrite fold_setAdd_seen, arrayFromSet_filter.
  reflexivity.
Qed.

Lemma existsb_map_orNull (rows : list DataRow) (column : string) :
  existsb isNullValue (map (fun row => orNull (get row column)) rows)
  = existsb (fun row => isNullValue (get row column)) rows.
Proof.
  induction rows as [| row rows IH]; [reflexivity|].
  cbn [map existsb]. now rewrite isNullValue_orNull, IH.
Qed.

(** ** The profile *)

Section Profile.

Variable StringToNumber : string -> Js.number.
Variable DateParse : string -> Js.number.

Local Abbreviation analyze := (analyzeData StringToNumber DateParse).
Local Abbreviation profileOf := (columnStatsOf StringToNumber).

(** Every field of a result, from the dataset. *)
Lemma analyzeData_fields (rows : list DataRow) (result : AnalysisResult) :
  analyze rows = Normal result ->
  r_totalRows result = List.length rows
  /\ r_totalColumns result = List.length (columnsOf rows)
  /\ columnStats result = map (profileOf rows) (columnsOf rows)
  /\ numericColumns result
     = map name (filter (fun profile => isNumerico (dataType profile))
                   (columnStats result))
  /\ columnsWithNulls result
     = countIf (fun profile => (0 <? nullCount profile)%nat) (columnStats result)
  /\ hasNulls result = (0 <? columnsWithNulls result)%nat
  /\ totalPositiveValues result
     = fold_left (fun sum profile => (sum + positiveCount profile)%nat)
         (columnStats result) 0%nat
  /\ orderedByFirstColumn result
     = match detectOrder StringToNumber
               (map comparable
                  (nonNullRaw rows (nth 0 (columnsOf rows) "undefined"%string)))
       with
       | sin_orden => false
       | _ => true
       end.
Proof.
  unfold analyzeData. destruct rows as [| row rows]; [discriminate|].
  cbn [List.length Nat.eqb]. intros H. injection H as <-. cbn.
  repeat split.
Qed.

Lemma map_name_profiles (rows : list DataRow) (columns : list string) :
  map name (map (profileOf rows) columns) = columns.
Proof.
  rewrite map_map. apply map_id.
Qed.

Lemma map_filter_name (rows : list DataRow) (p : ColumnStats -> bool)
    (columns : list string) :
  map name (filter p (map (profileOf rows) columns))
  = filter (fun column => p (profileOf rows column)) columns.
Proof.
  induction columns as [| c columns IH]; [reflexivity|].
  cbn [map filter]. destruct (p (profileOf rows c)); cbn [map];
    now rewrite IH.
Qed.

Lemma NoDup_filter {A : Type} (p : A -> bool) (l : list A) :
  NoDup l -> NoDup (filter p l).
Proof.
  induction 1 as [| a l Ha Hl IH]; simpl; [constructor|].
  destruct (p a); [|exact IH].
  constructor; [|exact IH]. intros Hin. apply filter_In in Hin. tauto.
Qed.

Lemma fold_left_sum {A : Type} (f : A -> nat) (l : list A) (start : nat) :
  fold_left (fun sum a => (sum + f a)%nat) l start
  = (start + list_sum (map f l))%nat.
Proof.
  revert start. induction l as [| a l IH]; intros start; simpl;
    [now rewrite Nat.add_0_r|]. rewrite IH. apply eq_sym, Nat.add_assoc.
Qed.

Lemma filterNumbers_length (l : list (option Js.number)) :
  (List.length (filterNumbers l) <= List.length l)%nat.
Proof.
  induction l as [| [x |] l IH]; simpl; auto using le_n_S, le_S.
Qed.

Lemma list_sum_bound {A : Type} (f : A -> nat) (l : list A) (bound : nat) :
  (forall a, In a l -> (f a <= bound)%nat) ->
  (list_sum (map f l) <= List.length l * bound)%nat.
Proof.
  induction l as [| a l IH]; intros H; simpl; [apply le_n|].
  apply Nat.add_le_mono; [apply H; now left|].
  apply IH. intros b Hb. apply H. now right.
Qed.

Lemma positiveCount_bound (rows : list DataRow) (column : string) :
  (positiveCount (profileOf rows column) <= List.length rows)%nat.
Proof.
  unfold columnStatsOf. cbn [positiveCount].
  eapply Nat.le_trans; [apply countIf_le|].
  eapply Nat.le_trans; [apply filterNumbers_length|].
  now rewrite !length_map.
Qed.

Lemma nullCount_positive (rows : list DataRow) (column : string) :
  (0 <? nullCount (profileOf rows column))%nat
  = existsb (fun row => isNullValue (get row column)) rows.
Proof.
  unfold columnStatsOf. cbn [nullCount].
  rewrite countIf_positive, existsb_map_orNull.
  reflexivity.
Qed.

Lemma profile_ordered (rows : list DataRow) (column : string) :
  ordered (profileOf rows column)
  = detectOrder StringToNumber (map comparable (nonNullRaw rows column)).
Proof.
  unfold columnStatsOf. cbn [ordered]. now rewrite columnStatsOf_nonNull.
Qed.

Lemma nonNullRaw_no_column (rows : list DataRow) (column : string) :
  isInherited column = false ->
  ~ In column (columnsOf rows) -> nonNullRaw rows column = [].
Proof.
  intros Hinherited Hc. unfold nonNullRaw, rawValues.
  induction rows as [| row rows IH]; [reflexivity|].
  cbn [map filter].
  rewrite get_missing.
  - rewrite isNullValue_inherited, Hinherited. cbn [negb]. apply IH. intros H. apply Hc. apply columnsOf_In.
    apply columnsOf_In in H as (r & Hr & Hk). exists r. split; [now right | exact Hk].
  - intros Hk. apply Hc, columnsOf_In. exists row. split; [now left | exact Hk].
Qed.


(** X4.  A result has nulls exactly when some column reads as null in some
    row.  The columns with nulls are at most the columns; and in a result
    without nulls every row has every column as a key of its own, but for
    the columns whose name every row inherits. *)
Theorem hasNulls_iff_null_cell (rows : list DataRow) (result : AnalysisResult) :
  analyze rows = Normal result ->
  (hasNulls result = true
   <-> exists column row,
         In column (columnsOf rows) /\ In row rows
         /\ isNullValue (get row column) = true)
  /\ (columnsWithNulls result <= r_totalColumns result)%nat
  /\ (hasNulls result = false ->
      forall column row,
        In column (columnsOf rows) -> In row rows ->
        In column (map fst row) \/ isInherited column = true).
Proof.
  intros H. destruct (analyzeData_fields rows result H)
    as (_ & Hcols & Hstats & _ & Hwith & Hhas & _).
  assert (Hiff : hasNulls result = true
                 <-> exists column row,
                       In column (columnsOf rows) /\ In row rows
                       /\ isNullValue (get row column) = true).
  { rewrite Hhas, Hwith, countIf_positive, Hstats, existsb_exists. split.
    - intros (profile & Hin & Hpos). apply in_map_iff in Hin as (column & <- & Hc).
      rewrite nullCount_positive in Hpos.
      apply existsb_exists in Hpos as (row & Hrow & Hnull).
      now exists column, row.
    - intros (column & row & Hc & Hrow & Hnull).
      exists (profileOf rows column). split; [now apply in_map|].
      rewrite nullCount_positive. apply existsb_exists. now exists row. }
  split; [exact Hiff|]. split.
  - rewrite Hwith, Hcols, Hstats.
    eapply Nat.le_trans; [apply countIf_le|]. now rewrite length_map.
  - intros Hnone column row Hc Hrow.
    destruct (get_own_or_inherited row column) as [Hown | Hget];
      [now left | right].
    destruct (isInherited column) eqn:Hinherited; [reflexivity|].
    assert (Htrue : hasNulls result = true).
    { apply Hiff. exists column, row.
      rewrite Hget, isNullValue_inherited, Hinherited. auto. }
    congruence.
Qed.

(** X5.  The positive values of a result are the sum of the positive counts
    of its profiles; a profile counts at most one per row, so the total is
    at most rows times columns. *)
Theorem totalPositiveValues_sum (rows : list DataRow) (result : AnalysisResult) :
  analyze rows = Normal result ->
  totalPositiveValues result = list_sum (map positiveCount (columnStats result))
  /\ Forall (fun profile => (positiveCount profile <= r_totalRows result)%nat)
       (columnStats result)
  /\ (totalPositiveValues result
      <= r_totalColumns result * r_totalRows result)%nat.
Proof.
  intros H. destruct (analyzeData_fields rows result H)
    as (Hrows & Hcols & Hstats & _ & _ & _ & Htotal & _).
  assert (Hall : Forall (fun profile =>
                           (positiveCount profile <= r_totalRows result)%nat)
                   (columnStats result)).
  { rewrite Hstats, Hrows. apply Forall_forall. intros profile Hin.
    apply in_map_iff in Hin as (column & <- & _). apply positiveCount_bound. }
  rewrite Htotal, fold_left_sum. cbn [Nat.add].
  split; [reflexivity|]. split; [exact Hall|].
  rewrite Hcols, <- (length_map (profileOf rows)), <- Hstats.
  apply list_sum_bound. now apply Forall_forall.
Qed.

(** X6.  The flag of the dataset being ordered by its first column is the
    order of the first profile being other than [sin_orden]; a dataset
    whose rows have no key at all is not ordered. *)
Theorem orderedByFirstColumn_first_profile (rows : list DataRow)
    (result : AnalysisResult) :
  analyze rows = Normal result ->
  match columnStats result with
  | [] => orderedByFirstColumn result = false
  | first :: _ =>
      orderedByFirstColumn result
      = match ordered first with sin_orden => false | _ => true end
  end.
Proof.
  intros H. destruct (analyzeData_fields rows result H)
    as (_ & _ & Hstats & _ & _ & _ & _ & Hord).
  rewrite Hstats, Hord.
  destruct (columnsOf rows) as [| column columns] eqn:E; cbn [map nth].
  - rewrite nonNullRaw_no_column; [reflexivity | reflexivity|].
    rewrite E. intros [].
  - now rewrite profile_ordered.
Qed.

(** X7.  The order of a profile is the order of the values that the rows
    read in the column, those that read as null being skipped; with fewer
    than two values that are not null it is [sin_orden]. *)
Theorem ordered_from_nonNull_values (rows : list DataRow)
    (result : AnalysisResult) (profile : ColumnStats) :
  analyze rows = Normal result ->
  In profile (columnStats result) ->
  ordered profile
  = detectOrder StringToNumber
      (map comparable (nonNullRaw rows (name profile)))
  /\ ((List.length (nonNullRaw rows (name profile)) < 2)%nat ->
      ordered profile = sin_orden).
Proof.
  intros H Hin.
  destruct (profile_of_column _ _ rows result profile H Hin)
    as (column & _ & ->).
  change (name (profileOf rows column)) with column.
  rewrite profile_ordered. split; [reflexivity|].
  intros Hlen. unfold detectOrder. rewrite length_map.
  now replace (List.length (nonNullRaw rows column) <? 2)%nat with true
    by (symmetry; apply Nat.ltb_lt; exact Hlen).
Qed.

End Profile.

(** ** The order detector on a reversed sequence *)

Lemma everyStep_app (R : Value -> Value -> bool) (l1 l2 : list Value)
    (a : Value) :
  everyStep R (l1 ++ a :: l2)
  = everyStep R (l1 ++ [a]) && everyStep R (a :: l2).
Proof.
  induction l1 as [| b l1 IH]; [reflexivity|].
  destruct l1 as [| c l1].
  - cbn [app]. rewrite !everyStep_cons. cbn [everyStep].
    now rewrite andb_true_r.
  - cbn [app] in *. rewrite !everyStep_cons, IH. apply andb_assoc.
Qed.

Lemma everyStep_rev (R : Value -> Value -> bool) (values : list Value) :
  everyStep R (rev values) = everyStep (fun a b => R b a) values.
Proof.
  induction values as [| a values IH]; [reflexivity|].
  destruct values as [| b rest]; [reflexivity|].
  rewrite everyStep_cons, <- IH. cbn [rev].
  rewrite <- app_assoc. cbn [app].
  rewrite everyStep_app. cbn [everyStep].
  rewrite andb_true_r. apply andb_comm.
Qed.

Lemma filterNumbers_count {A : Type} (f : A -> option Js.number) (l : list A) :
  List.length (filterNumbers (map f l)) = countIf (fun a => isSome (f a)) l.
Proof.
  unfold countIf. induction l as [| a l IH]; [reflexivity|].
  cbn [map filterNumbers filter]. destruct (f a); cbn; now rewrite IH.
Qed.

Lemma filterNumbers_In (l : list (option Js.number)) (x : Js.number) :
  In x (filterNumbers l) <-> In (Some x) l.
Proof.
  induction l as [| [y |] l IH]; cbn; [tauto | |].
  - rewrite IH. split; intros [H | H]; auto; left; congruence.
  - rewrite IH. split; [auto | intros [H | H]; [discriminate | exact H]].
Qed.

Lemma countIf_filter_le {A : Type} (p q : A -> bool) (l : list A) :
  (countIf p (filter q l) <= countIf p l)%nat.
Proof.
  unfold countIf. induction l as [| a l IH]; [apply le_n|].
  cbn [filter]. destruct (q a), (p a) eqn:Ep; cbn [filter List.length];
    rewrite ?Ep; cbn [List.length]; auto using le_n_S, le_S.
Qed.

Lemma columnAt_In (columns : list string) (i : nat) :
  (i < List.length columns)%nat -> In (columnAt columns i) columns.
Proof. intros Hi. now apply nth_In. Qed.

(** A call that spreads an array into its arguments returns, or throws a
    [RangeError] when the engine does not take that many arguments. *)
Inductive spread (A : Type) : Type :=
  | Returned (a : A)
  | RangeError.
Arguments Returned {A} a.
Arguments RangeError {A}.

Section Derived.

Variable StringToNumber : string -> Js.number.
Variable DateParse : string -> Js.number.
Variable NumberToString : Js.number -> string.

Local Abbreviation analyze := (analyzeData StringToNumber DateParse).

(** X8.  Reading a sequence backwards exchanges the two orders: a sequence
    without order has none backwards, and a descending sequence is ascending
    backwards.  An ascending one is descending backwards unless it is
    descending as well (its values then compare equal), in which case the
    ascending check, which comes first, wins both ways. *)
Theorem detectOrder_reversed (values : list Value) :
  (detectOrder StringToNumber (rev values) = sin_orden
   <-> detectOrder StringToNumber values = sin_orden)
  /\ (detectOrder StringToNumber values = descendente ->
      detectOrder StringToNumber (rev values) = ascendente)
  /\ (detectOrder StringToNumber values = ascendente ->
      detectOrder StringToNumber (rev values)
      = if everyStep (fun previous current =>
                        negb (jsLt StringToNumber previous current)) values
        then ascendente else descendente).
Proof.
  destruct (Nat.lt_ge_cases (List.length values) 2) as [Hlen | Hlen].
  - assert (E : detectOrder StringToNumber values = sin_orden).
    { unfold detectOrder.
      now replace (List.length values <? 2)%nat with true
        by (symmetry; apply Nat.ltb_lt; exact Hlen). }
    assert (E' : detectOrder StringToNumber (rev values) = sin_orden).
    { unfold detectOrder. rewrite length_rev.
      now replace (List.length values <? 2)%nat with true
        by (symmetry; apply Nat.ltb_lt; exact Hlen). }
    rewrite E, E'. repeat split; congruence.
  - rewrite (detectOrder_by_steps StringToNumber (rev values))
      by (rewrite length_rev; exact Hlen).
    rewrite (detectOrder_by_steps StringToNumber values Hlen).
    rewrite !everyStep_rev.
    destruct (everyStep (fun previous current =>
                           negb (jsLt StringToNumber current previous)) values);
      destruct (everyStep (fun previous current =>
                             negb (jsLt StringToNumber previous current)) values);
      repeat split; congruence.
Qed.

(** ** The histograms of a result *)

Lemma buildHistogram_cases (values : list Js.number) (bins : nat) :
  (values = [] /\ buildHistogram NumberToString values bins = [])
  \/ (values <> []
      /\ (Js.Math_min values =? Js.Math_max values)%float = true
      /\ List.length (buildHistogram NumberToString values bins) = 1%nat
      /\ totalCount (buildHistogram NumberToString values bins)
         = List.length values)
  \/ (values <> []
      /\ (Js.Math_min values =? Js.Math_max values)%float = false
      /\ List.length (buildHistogram NumberToString values bins) = bins
      /\ (totalCount (buildHistogram NumberToString values bins)
          <= List.length values)%nat).
Proof.
  destruct values as [| v values']; [left; split; reflexivity|].
  right. set (values := v :: values').
  assert (Hne : values <> []) by discriminate.
  destruct (Js.Math_min values =? Js.Math_max values)%float eqn:E.
  - left. rewrite (buildHistogram_single NumberToString values bins Hne E).
    repeat split; [exact Hne|].
    unfold totalCount. cbn [map list_sum count]. apply Nat.add_0_r.
  - right. destruct (buildHistogram_buckets NumberToString values bins Hne E)
      as [Hlen Htotal].
    repeat split; [exact Hne | exact Hlen |].
    rewrite Htotal. apply countIf_le.
Qed.

(** The lengths and the counts of a histogram that is returned. *)
Lemma buildHistogram_lengths (values : list Js.number) (bins : nat) :
  (List.length (buildHistogram NumberToString values bins) = 0%nat
   \/ List.length (buildHistogram NumberToString values bins) = 1%nat
   \/ List.length (buildHistogram NumberToString values bins) = bins)
  /\ (totalCount (buildHistogram NumberToString values bins)
      <= List.length values)%nat
  /\ (buildHistogram NumberToString values bins = []
      <-> values = []
          \/ (bins = 0%nat
              /\ (Js.Math_min values =? Js.Math_max values)%float = false))
  /\ (List.length (buildHistogram NumberToString values bins) = 1%nat ->
      bins <> 1%nat ->
      totalCount (buildHistogram NumberToString values bins)
      = List.length values).
Proof.
  destruct (buildHistogram_cases values bins)
    as [[-> E] | [(Hne & Heq & Hlen & Htotal) | (Hne & Heq & Hlen & Htotal)]].
  - rewrite E. split; [now left|]. split; [apply le_n|].
    split; [split; auto|]. intros H. discriminate.
  - rewrite Hlen, Htotal. split; [right; now left|]. split; [apply le_n|].
    split; [|reflexivity]. split.
    + intros E. rewrite E in Hlen. discriminate.
    + intros [E | [_ E]]; congruence.
  - rewrite Hlen. split; [right; now right|]. split; [exact Htotal|].
    split; [|congruence]. split.
    + intros E. rewrite E in Hlen. right. split; [now symmetry | exact Heq].
    + intros [E | [E _]]; [congruence|].
      apply length_zero_iff_nil. now rewrite Hlen.
Qed.

Lemma toNumber_finite (value : Value) (x : Js.number) :
  toNumber StringToNumber value = Some x -> Js.isFinite x = true.
Proof.
  destruct value as [| | y | s]; cbn; try discriminate.
  - destruct (Js.isFinite y) eqn:E; [|discriminate].
    intros H. injection H as <-. exact E.
  - destruct (Js.isFinite (StringToNumber (JsString.replaceCommas s))) eqn:E;
      [|discriminate].
    intros H. injection H as <-. exact E.
Qed.

Lemma numbersOf_finite (analysis : AnalysisResult) (column : string) :
  Forall (fun x => Js.isFinite x = true)
    (numbersOf StringToNumber analysis column).
Proof.
  apply Forall_forall. intros x Hx. unfold numbersOf in Hx.
  apply filterNumbers_In, in_map_iff in Hx as (row & Hrow & _).
  exact (toNumber_finite _ _ Hrow).
Qed.

Lemma dataTypeOf_numerico (nonNull : list Value) :
  dataTypeOf StringToNumber nonNull = numerico ->
  nonNull <> [] /\ forallb (coerces StringToNumber) nonNull = true.
Proof.
  unfold dataTypeOf. destruct nonNull as [| v l]; [discriminate|].
  destruct (forallb (coerces StringToNumber) (v :: l)).
  - intros _. split; [discriminate | reflexivity].
  - destruct (forallb _ (v :: l)); discriminate.
Qed.

Lemma numeric_column (rows : list DataRow) (result : AnalysisResult)
    (column : string) :
  analyze rows = Normal result ->
  In column (numericColumns result) ->
  In column (columnsOf rows)
  /\ dataTypeOf StringToNumber (nonNullRaw rows column) = numerico.
Proof.
  intros H Hin.
  destruct (analyzeData_fields _ _ rows result H)
    as (_ & _ & Hstats & Hnum & _).
  rewrite Hnum, Hstats, map_filter_name in Hin.
  apply filter_In in Hin as [Hc Htype]. split; [exact Hc|].
  rewrite columnStatsOf_dataType in Htype.
  destruct (dataTypeOf StringToNumber (nonNullRaw rows column));
    simpl in Htype; congruence.
Qed.

Lemma numbersOf_bounds (rows : list DataRow) (result : AnalysisResult)
    (column : string) :
  analyze rows = Normal result ->
  In column (numericColumns result) ->
  (0 < List.length (nonNullRaw rows column))%nat
  /\ (List.length (nonNullRaw rows column)
      <= List.length (numbersOf StringToNumber result column))%nat
  /\ (List.length (numbersOf StringToNumber result column)
      <= List.length rows)%nat.
Proof.
  intros H Hin.
  destruct (numeric_column rows result column H Hin) as [_ Htype].
  apply dataTypeOf_numerico in Htype as [Hne Hall].
  destruct (analyzeData_normal _ _ rows result H) as (_ & _ & _ & Hraw).
  unfold numbersOf. rewrite Hraw, filterNumbers_count.
  change (fun row => isSome (toNumber StringToNumber (get row column)))
    with (fun row => coerces StringToNumber (get row column)).
  rewrite <- (countIf_map (fun row => get row column) (coerces StringToNumber)).
  fold (rawValues rows column).
  split; [destruct (nonNullRaw rows column); [congruence | cbn; apply Nat.lt_0_succ]|].
  split.
  - rewrite <- countIf_all in Hall. apply Nat.eqb_eq in Hall.
    rewrite <- Hall. apply countIf_filter_le.
  - eapply Nat.le_trans; [apply countIf_le|].
    unfold rawValues. now rewrite length_map.
Qed.

(** X10.  The numbers drawn from a numeric column of a result are finite.
    Every non-null cell of the column gives one, so there is at least one;
    a null cell may give one too (a blank text reads as a number), and there
    are at most as many as rows. *)
Theorem numbersOf_numeric_column (rows : list DataRow)
    (result : AnalysisResult) (column : string) :
  analyze rows = Normal result ->
  In column (numericColumns result) ->
  Forall (fun x => Js.isFinite x = true)
    (numbersOf StringToNumber result column)
  /\ (0 < List.length (nonNullRaw rows column))%nat
  /\ (List.length (nonNullRaw rows column)
      <= List.length (numbersOf StringToNumber result column))%nat
  /\ (List.length (numbersOf StringToNumber result column)
      <= List.length rows)%nat.
Proof.
  intros H Hin. split; [apply numbersOf_finite|].
  exact (numbersOf_bounds rows result column H Hin).
Qed.

(** The histograms of a result, when every one of them is returned. *)
Lemma histograms_returned (rows : list DataRow) (result : AnalysisResult) :
  analyze rows = Normal result ->
  map fst (histograms StringToNumber NumberToString result)
  = numericColumns result
  /\ Forall (fun histogram =>
               (List.length (snd histogram) = 1%nat
                \/ List.length (snd histogram) = 8%nat)
               /\ (totalCount (snd histogram) <= List.length rows)%nat)
       (histograms StringToNumber NumberToString result).
Proof.
  intros H. unfold histograms. split.
  - rewrite map_map. apply map_id.
  - apply Forall_forall. intros histogram Hin.
    apply in_map_iff in Hin as (column & <- & Hc). cbn [snd].
    destruct (numbersOf_bounds rows result column H Hc)
      as (Hpos & Hlow & Hup).
    destruct (buildHistogram_cases (numbersOf StringToNumber result column) 8)
      as [[E _] | [(_ & _ & Hlen & Htotal) | (_ & _ & Hlen & Htotal)]].
    + rewrite E in Hlow. cbn in Hlow.
      exfalso. exact (Nat.lt_irrefl _ (Nat.lt_le_trans _ _ _ Hpos Hlow)).
    + split; [now left|]. rewrite Htotal. exact Hup.
    + split; [now right|]. exact (Nat.le_trans _ _ _ Htotal Hup).
Qed.

(** X12.  The correlation matrix is square: it has one row for each numeric
    column, and each row has one entry for each numeric column. *)
Theorem correlationMatrix_square (analysis : AnalysisResult) :
  List.length (correlationMatrix StringToNumber analysis)
  = List.length (numericColumns analysis)
  /\ Forall (fun row =>
               List.length row = List.length (numericColumns analysis))
       (correlationMatrix StringToNumber analysis).
Proof.
  unfold correlationMatrix. split; [apply length_map|].
  apply Forall_forall. intros row Hin.
  apply in_map_iff in Hin as (column & <- & _). apply length_map.
Qed.

(** X13.  In a result, each scatter pair joins two different numeric
    columns, the first of which comes before the second among the numeric
    columns. *)
Theorem scatterPairs_of_result (rows : list DataRow) (result : AnalysisResult) :
  analyze rows = Normal result ->
  Forall (fun pair =>
            sx pair <> sy pair
            /\ exists i j,
                 (i < j < List.length (numericColumns result))%nat
                 /\ sx pair = columnAt (numericColumns result) i
                 /\ sy pair = columnAt (numericColumns result) j
                 /\ points pair = pointsOf StringToNumber result (sx pair) (sy pair))
    (scatterPairs StringToNumber result).
Proof.
  intros H.
  assert (Hnodup : NoDup (numericColumns result)).
  { destruct (analyzeData_fields _ _ rows result H)
      as (_ & _ & Hstats & Hnum & _).
    rewrite Hnum, Hstats, map_filter_name.
    apply NoDup_filter, fold_setAdd_NoDup. constructor. }
  assert (E : scatterPairs StringToNumber result
              = firstn 4
                  (filter hasPoints
                     (map (scatterCandidate StringToNumber result)
                        (indexPairs (List.length (numericColumns result)))))).
  { unfold scatterPairs. rewrite forEach_nested.
    fold (indexPairs (List.length (numericColumns result))).
    rewrite (scatter_loop StringToNumber result _ []); [reflexivity|].
    cbn. repeat constructor. }
  rewrite E. apply Forall_forall. intros pair Hin.
  apply In_firstn, filter_In in Hin as [Hin _].
  apply in_map_iff in Hin as ([i j] & <- & Hij).
  apply indexPairs_In in Hij. cbn [scatterCandidate sx sy points fst snd].
  split.
  - unfold columnAt. intros Heq.
    apply (proj1 (NoDup_nth _ "undefined"%string) Hnodup) in Heq;
      [ | apply (Nat.lt_trans _ j); apply Hij | apply Hij].
    destruct Hij as [Hlt _]. rewrite Heq in Hlt. exact (Nat.lt_irrefl _ Hlt).
  - exists i, j. repeat split; apply Hij.
Qed.

(** ** Arrays spread into a call

    [buildHistogram] passes its array to [Math.min] and to [Math.max] as
    their arguments, [Math.min(...values)].  An engine takes so many
    arguments in a call and no more; past that the call throws a
    [RangeError], and so does the histogram of a column that long. *)

(** The most arguments that the engine takes in one call. *)
Variable maxArguments : nat.

(** [f(...values)]. *)
Definition spreadInto {A : Type} (f : list Js.number -> A)
    (values : list Js.number) : spread A :=
  if (maxArguments <? List.length values)%nat then RangeError
  else Returned (f values).

(** [buildHistogram(values, bins)] as the call that it is: the empty array
    is answered before anything is spread; otherwise the least and the
    greatest value are taken first, and the rest of the function is as in
    [buildHistogram] above. *)
Definition buildHistogramCall (values : list Js.number) (bins : nat)
    : spread (list HistogramBin) :=
  if (List.length values =? 0)%nat then Returned []
  else
    match spreadInto Js.Math_min values with
    | RangeError => RangeError
    | Returned _ =>
        match spreadInto Js.Math_max values with
        | RangeError => RangeError
        | Returned _ => Returned (buildHistogram NumberToString values bins)
        end
    end.

(** [columns.map(f)] where [f] may throw: the first throw ends the map. *)
Fixpoint mapSpread {A B : Type} (f : A -> spread B) (l : list A)
    : spread (list B) :=
  match l with
  | [] => Returned []
  | a :: rest =>
      match f a with
      | RangeError => RangeError
      | Returned b =>
          match mapSpread f rest with
          | RangeError => RangeError
          | Returned bs => Returned (b :: bs)
          end
      end
  end.

(** The histograms of the page, as they are computed. *)
Definition histogramsCall (analysis : AnalysisResult)
    : spread (list (string * list HistogramBin)) :=
  mapSpread
    (fun column =>
       match buildHistogramCall (numbersOf StringToNumber analysis column) 8 with
       | RangeError => RangeError
       | Returned histogram => Returned (column, histogram)
       end)
    (numericColumns analysis).

Lemma buildHistogramCall_cases (values : list Js.number) (bins : nat) :
  buildHistogramCall values bins
  = if (0 <? List.length values)%nat
       && (maxArguments <? List.length values)%nat
    then RangeError
    else Returned (buildHistogram NumberToString values bins).
Proof.
  unfold buildHistogramCall, spreadInto.
  destruct values as [| v values']; [reflexivity|].
  change (List.length (v :: values') =? 0)%nat with false.
  change (0 <? List.length (v :: values'))%nat with true.
  cbn [andb].
  now destruct (maxArguments <? List.length (v :: values'))%nat.
Qed.

Lemma mapSpread_returned {A B : Type} (f : A -> spread B) (g : A -> B)
    (l : list A) :
  (forall a, In a l -> f a = Returned (g a)) ->
  mapSpread f l = Returned (map g l).
Proof.
  induction l as [| a l IH]; intros H; [reflexivity|].
  cbn [mapSpread map]. rewrite (H a (or_introl eq_refl)).
  rewrite IH; [reflexivity|]. intros b Hb. apply H. now right.
Qed.

Lemma mapSpread_throws {A B : Type} (f : A -> spread B) (l : list A) :
  mapSpread f l = RangeError <-> exists a, In a l /\ f a = RangeError.
Proof.
  induction l as [| a l IH]; cbn [mapSpread].
  - split; [discriminate | intros (a & [] & _)].
  - destruct (f a) as [b |] eqn:Ea.
    + destruct (mapSpread f l) as [bs |].
      * split; [discriminate|].
        intros (c & [<- | Hc] & Hthrow); [congruence|].
        destruct IH as [_ IH]. discriminate IH. now exists c.
      * split; [|reflexivity]. intros _.
        destruct IH as [IH _]. destruct (IH eq_refl) as (c & Hc & Hthrow).
        exists c. split; [now right | exact Hthrow].
    + split; [|reflexivity]. intros _. exists a. split; [now left | exact Ea].
Qed.

(** X9.  The histogram of no value has no bucket.  Of an array longer than
    the engine takes as arguments there is no histogram: the call throws a
    [RangeError].  Otherwise the histogram is returned, and never counts
    more values than it is given: it is a single bucket, labelled with the
    value and counting every value, when the least and the greatest value
    are equal; and when they are not it has [bins] buckets, which count
    together the values whose key is an index of the array. *)
Theorem buildHistogram_shape (values : list Js.number) (bins : nat) :
  (values = [] -> buildHistogramCall values bins = Returned [])
  /\ (values <> [] -> (maxArguments < List.length values)%nat ->
      buildHistogramCall values bins = RangeError)
  /\ (values <> [] -> (List.length values <= maxArguments)%nat ->
      exists histogram,
        buildHistogramCall values bins = Returned histogram
        /\ (totalCount histogram <= List.length values)%nat
        /\ ((Js.Math_min values =? Js.Math_max values)%float = true ->
            histogram
            = [ {| bin := NumberToString (Js.Math_min values);
                   count := List.length values |} ])
        /\ ((Js.Math_min values =? Js.Math_max values)%float = false ->
            List.length histogram = bins
            /\ totalCount histogram
               = countIf
                   (landsInBucket bins (Js.Math_min values)
                      ((Js.Math_max values - Js.Math_min values)
                       / Js.ofNat bins)%float)
                   values)).
Proof.
  rewrite buildHistogramCall_cases. split; [intros ->; reflexivity|]. split.
  - intros Hne Hlong. destruct values as [| v values']; [congruence|].
    apply Nat.ltb_lt in Hlong. now rewrite Hlong.
  - intros Hne Hfits. apply Nat.ltb_ge in Hfits. rewrite Hfits, andb_false_r.
    eexists. split; [reflexivity|].
    split; [apply buildHistogram_lengths|]. split.
    + intros Heq. now apply buildHistogram_single.
    + intros Heq. now apply buildHistogram_buckets.
Qed.

Lemma histogramCall_throws (analysis : AnalysisResult) (column : string) :
  match buildHistogramCall (numbersOf StringToNumber analysis column) 8 with
  | RangeError => RangeError
  | Returned histogram => Returned (column, histogram)
  end = RangeError
  <-> (maxArguments
       < List.length (numbersOf StringToNumber analysis column))%nat.
Proof.
  rewrite buildHistogramCall_cases.
  destruct ((0 <? List.length (numbersOf StringToNumber analysis column))%nat
            && (maxArguments
                <? List.length (numbersOf StringToNumber analysis column))%nat)
    eqn:E.
  - apply andb_prop in E as [_ E]. apply Nat.ltb_lt in E.
    split; [intros _; exact E | reflexivity].
  - split; [discriminate|]. intros Hlong. exfalso.
    apply andb_false_iff in E as [E | E].
    + apply Nat.ltb_ge in E.
      exact (Nat.lt_irrefl _
               (Nat.le_lt_trans _ _ _ (Nat.le_0_l maxArguments)
                  (Nat.lt_le_trans _ _ _ Hlong E))).
    + apply Nat.ltb_ge in E.
      exact (Nat.lt_irrefl _ (Nat.lt_le_trans _ _ _ Hlong E)).
Qed.

Lemma histogramsCall_throws (analysis : AnalysisResult) :
  histogramsCall analysis = RangeError
  <-> exists column,
        In column (numericColumns analysis)
        /\ (maxArguments
            < List.length (numbersOf StringToNumber analysis column))%nat.
Proof.
  unfold histogramsCall. rewrite mapSpread_throws.
  split; intros (column & Hc & H); exists column; (split; [exact Hc|]);
    now apply histogramCall_throws.
Qed.

Lemma histogramsCall_returned (analysis : AnalysisResult)
    (computed : list (string * list HistogramBin)) :
  histogramsCall analysis = Returned computed ->
  computed = histograms StringToNumber NumberToString analysis.
Proof.
  intros H.
  assert (Hall : forall column,
            In column (numericColumns analysis) ->
            match buildHistogramCall
                    (numbersOf StringToNumber analysis column) 8 with
            | RangeError => RangeError
            | Returned histogram => Returned (column, histogram)
            end
            = Returned
                (column,
                 buildHistogram NumberToString
                   (numbersOf StringToNumber analysis column) 8)).
  { intros column Hc.
    destruct (buildHistogramCall (numbersOf StringToNumber analysis column) 8)
      as [histogram |] eqn:E.
    - rewrite buildHistogramCall_cases in E.
      destruct (_ && _) in E; [discriminate|]. now injection E as <-.
    - exfalso.
      assert (Hthrow : histogramsCall analysis = RangeError).
      { apply histogramsCall_throws. exists column. split; [exact Hc|].
        apply histogramCall_throws. now rewrite E. }
      congruence. }
  unfold histogramsCall in H.
  rewrite (mapSpread_returned _ _ _ Hall) in H. now injection H as <-.
Qed.

(** X11.  The histograms of a result are computed unless some numeric
    column has more numbers than the engine takes as arguments, in which
    case a [RangeError] is thrown; a dataset with no more rows than that is
    always served.  When they are computed there is one for each numeric
    column, in their order, and none is empty: each has one bucket or
    eight, and counts at most as many values as the dataset has rows. *)
Theorem histograms_of_result (rows : list DataRow) (result : AnalysisResult) :
  analyze rows = Normal result ->
  (histogramsCall result = RangeError
   <-> exists column,
         In column (numericColumns result)
         /\ (maxArguments
             < List.length (numbersOf StringToNumber result column))%nat)
  /\ ((List.length rows <= maxArguments)%nat ->
      exists computed, histogramsCall result = Returned computed)
  /\ (forall computed,
        histogramsCall result = Returned computed ->
        map fst computed = numericColumns result
        /\ Forall (fun histogram =>
                     (List.length (snd histogram) = 1%nat
                      \/ List.length (snd histogram) = 8%nat)
                     /\ (totalCount (snd histogram) <= List.length rows)%nat)
             computed).
Proof.
  intros H. split; [apply histogramsCall_throws|]. split.
  - intros Hfits.
    destruct (histogramsCall result) as [computed |] eqn:E;
      [now exists computed|].
    exfalso. apply histogramsCall_throws in E as (column & Hc & Hlong).
    destruct (numbersOf_bounds rows result column H Hc) as (_ & _ & Hup).
    exact (Nat.lt_irrefl _
             (Nat.lt_le_trans _ _ _ Hlong (Nat.le_trans _ _ _ Hup Hfits))).
  - intros computed E. apply histogramsCall_returned in E as ->.
    exact (histograms_returned rows result H).
Qed.

End Derived.

(** * The page: expanded columns, file names, decoding and the upload *)

(** ** The set of expanded columns *)

(** [set.delete(k)] on a set given by its elements. *)
Definition setDelete (set : list string) (k : string) : list string :=
  filter (fun c => negb (String.eqb k c)) set.

(** [toggleColumn], as the function that [setExpandedColumns] is given. *)
Definition toggleColumn (prev : list string) (columnName : string)
    : list string :=
  let next := prev in
  if has next columnName then setDelete next columnName
  else setAdd next columnName.

Lemma has_setDelete (set : list string) (k c : string) :
  has (setDelete set k) c = negb (String.eqb k c) && has set c.
Proof.
  apply Bool.eq_iff_eq_true.
  rewrite has_In, andb_true_iff, has_In. unfold setDelete.
  rewrite filter_In. tauto.
Qed.

Lemma has_setAdd (set : list string) (k c : string) :
  has (setAdd set k) c = String.eqb k c || has set c.
Proof.
  unfold setAdd. fold (has set k). destruct (has set k) eqn:E.
  - destruct (String.eqb_spec k c) as [<- | _]; [now rewrite E | reflexivity].
  - rewrite has_app. unfold has at 2. cbn [existsb].
    rewrite orb_false_r, (String.eqb_sym c k). apply orb_comm.
Qed.

Lemma has_toggleColumn (prev : list string) (columnName c : string) :
  has (toggleColumn prev columnName) c
  = if String.eqb columnName c then negb (has prev c) else has prev c.
Proof.
  unfold toggleColumn. destruct (has prev columnName) eqn:E.
  - rewrite has_setDelete.
    destruct (String.eqb_spec columnName c) as [<- | _]; cbn [negb andb];
      [now rewrite E | reflexivity].
  - rewrite has_setAdd.
    destruct (String.eqb_spec columnName c) as [<- | _]; cbn [orb];
      [now rewrite E | reflexivity].
Qed.

(** X14.  Toggling a column expands it when it is collapsed and collapses it
    when it is expanded, and changes no other column; toggling twice leaves
    every column as it was, and a set without repetition stays so. *)
Theorem toggleColumn_flips_one (prev : list string) (columnName : string) :
  has (toggleColumn prev columnName) columnName = negb (has prev columnName)
  /\ (forall c, c <> columnName ->
        has (toggleColumn prev columnName) c = has prev c)
  /\ (forall c,
        has (toggleColumn (toggleColumn prev columnName) columnName) c
        = has prev c)
  /\ (NoDup prev -> NoDup (toggleColumn prev columnName)).
Proof.
  split; [|split; [|split]].
  - now rewrite has_toggleColumn, String.eqb_refl.
  - intros c Hc. rewrite has_toggleColumn.
    destruct (String.eqb_spec columnName c); [congruence | reflexivity].
  - intros c. rewrite !has_toggleColumn.
    destruct (String.eqb columnName c); [apply negb_involutive | reflexivity].
  - intros H. unfold toggleColumn. destruct (has prev columnName).
    + now apply NoDup_filter.
    + now apply setAdd_NoDup.
Qed.

(** ** File names *)

Module FileName.

Local Open Scope string_scope.

(** [s.split(".")]. *)
Fixpoint split (s : string) : list string :=
  match s with
  | EmptyString => [EmptyString]
  | String c rest =>
      if Ascii.eqb c "." then EmptyString :: split rest
      else
        match split rest with
        | first :: others => String c first :: others
        | [] => [String c EmptyString]
        end
  end.

(** [toLowerCase] on code units below 256: the letters A to Z, and the
    accented capitals from U+00C0 to U+00DE but the sign U+00D7. *)
Definition lowerChar (c : ascii) : ascii :=
  let n := nat_of_ascii c in
  if ((65 <=? n) && (n <=? 90))%nat
     || ((192 <=? n) && (n <=? 222) && negb (n =? 215))%nat
  then ascii_of_nat (n + 32)
  else c.

Fixpoint toLowerCase (s : string) : string :=
  match s with
  | EmptyString => EmptyString
  | String c rest => String (lowerChar c) (toLowerCase rest)
  end.

Fixpoint hasDot (s : string) : bool :=
  match s with
  | EmptyString => false
  | String c rest => Ascii.eqb c "." || hasDot rest
  end.

(** [name.split(".").pop()?.toLowerCase()]: [split] gives at least one
    piece, so [pop] gives a string. *)
Definition extensionOf (name : string) : string :=
  toLowerCase (last (split name) EmptyString).

(** [!extension || !["csv", "xlsx", "xls"].includes(extension)]. *)
Definition unsupported (extension : string) : bool :=
  String.eqb extension EmptyString
  || negb (existsb (String.eqb extension) ["csv"; "xlsx"; "xls"]).

End FileName.

Lemma split_not_nil (s : string) : FileName.split s <> [].
Proof.
  induction s as [| c rest IH]; cbn; [discriminate|].
  destruct (Ascii.eqb c "."); [discriminate|].
  destruct (FileName.split rest); [congruence | discriminate].
Qed.

Lemma split_no_dot (s : string) :
  FileName.hasDot s = false -> FileName.split s = [s].
Proof.
  induction s as [| c rest IH]; cbn; [reflexivity|].
  destruct (Ascii.eqb c "."); cbn; [discriminate|].
  intros H. now rewrite (IH H).
Qed.

(** The pieces of two texts joined by a dot are the pieces of the one
    followed by the pieces of the other. *)
Lemma split_app (base ext : string) :
  FileName.split (String.append base (String "." ext))
  = FileName.split base ++ FileName.split ext.
Proof.
  induction base as [| c base IH]; cbn [String.append FileName.split].
  - now rewrite Ascii.eqb_refl.
  - rewrite IH. destruct (Ascii.eqb c "."); [reflexivity|].
    destruct (FileName.split base) eqn:E; [now apply split_not_nil in E|].
    reflexivity.
Qed.

Lemma last_app_not_nil {A : Type} (l1 l2 : list A) (d : A) :
  l2 <> [] -> last (l1 ++ l2) d = last l2 d.
Proof.
  intros H. induction l1 as [| a l1 IH]; [reflexivity|].
  cbn [app]. rewrite <- IH.
  destruct (l1 ++ l2) eqn:E; [|reflexivity].
  apply app_eq_nil in E as [_ E]. congruence.
Qed.

Lemma last_split_app (base ext : string) :
  last (FileName.split (String.append base (String "." ext))) EmptyString
  = last (FileName.split ext) EmptyString.
Proof.
  rewrite split_app. apply last_app_not_nil, split_not_nil.
Qed.

(** X15.  The extension of a file name is the text after its last dot, in
    lower case; a name without a dot is its own extension. *)
Theorem extensionOf_after_last_dot (base ext : string) :
  FileName.hasDot ext = false ->
  FileName.extensionOf (String.append base (String "." ext))
  = FileName.toLowerCase ext
  /\ FileName.extensionOf ext = FileName.toLowerCase ext.
Proof.
  intros H. unfold FileName.extensionOf.
  now rewrite last_split_app, (split_no_dot ext H).
Qed.

Lemma extensionOf_after_last_dot_sample :
  FileName.hasDot "CSV" = false
  /\ FileName.extensionOf "Ventas.2024.CSV" = "csv"%string
  /\ FileName.unsupported (FileName.extensionOf "Ventas.2024.CSV") = false
  /\ FileName.extensionOf "csv" = "csv"%string.
Proof.
  split; [reflexivity|].
  destruct (extensionOf_after_last_dot "Ventas.2024" "CSV" eq_refl)
    as [Hext Hself].
  split; [exact Hext|]. split; [reflexivity | exact Hself].
Defined.

(** ** Decoding: the rows that [parseFile] hands to the engine *)

(** [value === "" ? null : value]. *)
Definition emptyToNull (value : Value) : Value :=
  match value with
  | Str EmptyString => Null
  | _ => value
  end.

(** [Object.fromEntries(Object.entries(row).map(([key, value]) => ...))]:
    the keys of an object are distinct, so the entries are rebuilt one for
    one. *)
Definition normalizeRow (row : DataRow) : DataRow :=
  map (fun '(key, value) => (key, emptyToNull value)) row.

Lemma keys_normalizeRow (row : DataRow) :
  map fst (normalizeRow row) = map fst row.
Proof.
  unfold normalizeRow. rewrite map_map. apply map_ext. now intros [k v].
Qed.

Lemma emptyToNull_inherited (column : string) :
  emptyToNull (inherited column) = inherited column.
Proof.
  destruct (inherited_cases column) as [-> | (text & -> & Htext)];
    [reflexivity|].
  destruct text; [discriminate | reflexivity].
Qed.

Lemma get_normalizeRow (row : DataRow) (column : string) :
  get (normalizeRow row) column = emptyToNull (get row column).
Proof.
  induction row as [| [k v] rest IH];
    [symmetry; apply emptyToNull_inherited|].
  cbn [normalizeRow map get] in *. now destruct (String.eqb k column).
Qed.

Lemma isNullValue_emptyToNull (value : Value) :
  isNullValue (emptyToNull value) = isNullValue value.
Proof. destruct value as [| | x | [| c s]]; reflexivity. Qed.

Lemma emptyToNull_nonNull (value : Value) :
  isNullValue value = false -> emptyToNull value = value.
Proof. destruct value as [| | x | [| c s]]; cbn; congruence. Qed.

Lemma nonNull_emptyToNull (l : list Value) :
  filter (fun value => negb (isNullValue value)) (map emptyToNull l)
  = filter (fun value => negb (isNullValue value)) l.
Proof.
  induction l as [| v l IH]; [reflexivity|].
  cbn [map filter]. rewrite isNullValue_emptyToNull, IH.
  destruct (isNullValue v) eqn:E; cbn [negb]; [reflexivity|].
  now rewrite (emptyToNull_nonNull v E).
Qed.

Lemma nonNullRaw_normalized (rows : list DataRow) (column : string) :
  nonNullRaw (map normalizeRow rows) column = nonNullRaw rows column.
Proof.
  unfold nonNullRaw, rawValues. rewrite map_map.
  rewrite (map_ext _ (fun row => emptyToNull (get row column)))
    by (intros row; apply get_normalizeRow).
  rewrite <- (map_map (fun row => get row column) emptyToNull).
  apply nonNull_emptyToNull.
Qed.

Lemma columnsOf_normalized (rows : list DataRow) :
  columnsOf (map normalizeRow rows) = columnsOf rows.
Proof.
  unfold columnsOf. f_equal.
  induction rows as [| row rows IH]; [reflexivity|].
  cbn [map flat_map]. now rewrite keys_normalizeRow, IH.
Qed.

Section Decoding.

Variable StringToNumber : string -> Js.number.
Variable DateParse : string -> Js.number.

Local Abbreviation profileOf := (columnStatsOf StringToNumber).

Lemma isDateColumn_nonNull (rows : list DataRow) (column : string) :
  isDateColumn DateParse rows column
  = if (List.length (nonNullRaw rows column) =? 0)%nat then false
    else (Nat.min 5 (List.length (nonNullRaw rows column))
          <=? countIf (fun value => isSome (parseDateValue DateParse value))
                (firstn 15 (nonNullRaw rows column)))%nat.
Proof. reflexivity. Qed.

Hypothesis StringToNumber_blank :
  forall s, JsString.trim s = EmptyString -> StringToNumber s = 0%float.

Lemma toNumber_null (value : Value) :
  isNullValue value = true ->
  toNumber StringToNumber value = None
  \/ toNumber StringToNumber value = Some 0%float.
Proof using StringToNumber_blank.
  destruct value as [| | x | s]; cbn; intros H; try (now left);
    try discriminate.
  apply String.eqb_eq in H. right.
  rewrite (replaceCommas_white s (trim_empty s H)).
  now rewrite (StringToNumber_blank s H).
Qed.

(** Null values are never counted as positive. *)
Lemma positive_nonNull (values : list Value) :
  countIf (fun x => (0 <? x)%float)
    (filterNumbers (map (toNumber StringToNumber) values))
  = countIf (fun x => (0 <? x)%float)
      (filterNumbers
         (map (toNumber StringToNumber)
            (filter (fun value => negb (isNullValue value)) values))).
Proof using StringToNumber_blank.
  induction values as [| v values IH]; [reflexivity|].
  cbn [map filter]. destruct (isNullValue v) eqn:Ev; cbn [negb].
  - destruct (toNumber_null v Ev) as [H | H]; rewrite H; cbn [filterNumbers];
      [exact IH|].
    unfold countIf in *. cbn [filter].
    replace (0 <? 0)%float with false by reflexivity. exact IH.
  - cbn [map]. destruct (toNumber StringToNumber v) as [x |];
      cbn [filterNumbers]; [|exact IH].
    unfold countIf in *. cbn [filter].
    destruct (0 <? x)%float; cbn [List.length]; now rewrite IH.
Qed.

(** X16.  Replacing the empty texts of a dataset by null, as the decoding
    does, changes nothing in what the engine makes of it: the columns, the
    profile of every column and the date columns are the same.  No cell of
    a replaced row is the empty text. *)
Theorem normalizeRow_keeps_profile (rows : list DataRow) :
  columnsOf (map normalizeRow rows) = columnsOf rows
  /\ (forall column,
        profileOf (map normalizeRow rows) column = profileOf rows column
        /\ isDateColumn DateParse (map normalizeRow rows) column
           = isDateColumn DateParse rows column)
  /\ (forall row column, get (normalizeRow row) column <> Str EmptyString).
Proof using StringToNumber_blank.
  split; [apply columnsOf_normalized|]. split.
  - intros column. split.
    + assert (Hnull : nullCount (profileOf (map normalizeRow rows) column)
                      = nullCount (profileOf rows column)).
      { unfold columnStatsOf. cbn [nullCount]. rewrite !countIf_map.
        unfold countIf. f_equal. apply filter_ext. intros row.
        now rewrite get_normalizeRow, !isNullValue_orNull,
          isNullValue_emptyToNull. }
      assert (Hpos : positiveCount (profileOf (map normalizeRow rows) column)
                     = positiveCount (profileOf rows column)).
      { unfold columnStatsOf. cbn [positiveCount].
        rewrite (positive_nonNull (map _ (map normalizeRow rows))).
        rewrite (positive_nonNull (map _ rows)).
        now rewrite !columnStatsOf_nonNull, nonNullRaw_normalized. }
      assert (Htype : dataType (profileOf (map normalizeRow rows) column)
                      = dataType (profileOf rows column))
        by now rewrite !columnStatsOf_dataType, nonNullRaw_normalized.
      assert (Hord : ordered (profileOf (map normalizeRow rows) column)
                     = ordered (profileOf rows column))
        by now rewrite !profile_ordered, nonNullRaw_normalized.
      destruct (profileOf (map normalizeRow rows) column) eqn:E1.
      destruct (profileOf rows column) eqn:E2.
      cbn in Hnull, Hpos, Htype, Hord. subst.
      unfold columnStatsOf in E1, E2.
      injection E1 as <- <- _ _ _ _. injection E2 as <- <- _ _ _ _.
      now rewrite length_map.
    + now rewrite !isDateColumn_nonNull, nonNullRaw_normalized.
  - intros row column. rewrite get_normalizeRow.
    destruct (get row column) as [| | x | [| c s]]; discriminate.
Qed.

End Decoding.

(** ** The upload *)

(** A thrown value is an [Error] with its message, or something else; a
    call into a library returns or throws. *)
Inductive thrown :=
  | ErrorObject (message : string)
  | OtherValue.

Inductive outcome (A : Type) :=
  | Returns (a : A)
  | Rejects (e : thrown).
Arguments Returns {A} a.
Arguments Rejects {A} e.

(** The result of [Papa.parse]: its [data] and the length of its
    [errors]. *)
Record ParseResult := { data : list DataRow; errors : nat }.

Definition unsupportedMessage : string :=
  "Formato de archivo no soportado. Usa CSV o Excel."%string.
Definition csvErrorsMessage : string :=
  "El archivo CSV contiene errores de formato."%string.
Definition unknownErrorMessage : string :=
  "No se pudo procesar el archivo."%string.
Definition noFileMessage : string :=
  "Primero selecciona un archivo para analizar."%string.

Section Upload.

Variable StringToNumber : string -> Js.number.
Variable DateParse : string -> Js.number.

(** The content of a file, and the two decoders of the libraries: reading
    the text and parsing it as CSV with a header line, and reading the first
    sheet of a workbook as rows with [null] for the cells left out. *)
Variable Blob : Type.
Variable PapaParse : Blob -> outcome ParseResult.
Variable XLSXRows : Blob -> outcome (list DataRow).

Record File := { file_name : string; file_content : Blob }.

(** The state of the page: one field for each [useState]. *)
Record PageState := {
  fileName : option string;
  analysis : option AnalysisResult;
  isLoading : bool;
  errorMessage : option string;
  isDragging : bool;
  expandedColumns : list string;
  selectedFile : option File
}.

Definition setFileName (v : option string) (s : PageState) : PageState :=
  {| fileName := v; analysis := analysis s; isLoading := isLoading s;
     errorMessage := errorMessage s; isDragging := isDragging s;
     expandedColumns := expandedColumns s; selectedFile := selectedFile s |}.

Definition setAnalysis (v : option AnalysisResult) (s : PageState) : PageState :=
  {| fileName := fileName s; analysis := v; isLoading := isLoading s;
     errorMessage := errorMessage s; isDragging := isDragging s;
     expandedColumns := expandedColumns s; selectedFile := selectedFile s |}.

Definition setIsLoading (v : bool) (s : PageState) : PageState :=
  {| fileName := fileName s; analysis := analysis s; isLoading := v;
     errorMessage := errorMessage s; isDragging := isDragging s;
     expandedColumns := expandedColumns s; selectedFile := selectedFile s |}.

Definition setErrorMessage (v : option string) (s : PageState) : PageState :=
  {| fileName := fileName s; analysis := analysis s; isLoading := isLoading s;
     errorMessage := v; isDragging := isDragging s;
     expandedColumns := expandedColumns s; selectedFile := selectedFile s |}.

Definition setExpandedColumns (v : list string) (s : PageState) : PageState :=
  {| fileName := fileName s; analysis := analysis s; isLoading := isLoading s;
     errorMessage := errorMessage s; isDragging := isDragging s;
     expandedColumns := v; selectedFile := selectedFile s |}.

Definition setSelectedFile (v : option File) (s : PageState) : PageState :=
  {| fileName := fileName s; analysis := analysis s; isLoading := isLoading s;
     errorMessage := errorMessage s; isDragging := isDragging s;
     expandedColumns := expandedColumns s; selectedFile := v |}.

Definition resetState (s : PageState) : PageState :=
  setSelectedFile None
    (setExpandedColumns []
       (setErrorMessage None (setAnalysis None (setFileName None s)))).

(** [parseFile(file, extension)]. *)
Definition parseFile (file : File) (extension : string)
    : outcome (list DataRow) :=
  if String.eqb extension "csv" then
    match PapaParse (file_content file) with
    | Rejects e => Rejects e
    | Returns parsed =>
        if (0 <? errors parsed)%nat
        then Rejects (ErrorObject csvErrorsMessage)
        else Returns (map normalizeRow (data parsed))
    end
  else
    match XLSXRows (file_content file) with
    | Rejects e => Rejects e
    | Returns jsonData => Returns (map normalizeRow jsonData)
    end.

(** The [try] block of [handleFile]: the state that its setters leave, and
    what it threw, if it did. *)
Definition handleFileTry (s : PageState) (file : File)
    : PageState * option thrown :=
  let extension := FileName.extensionOf (file_name file) in
  if FileName.unsupported extension
  then (s, Some (ErrorObject unsupportedMessage))
  else
    let s := setFileName (Some (file_name file)) s in
    match parseFile file extension with
    | Rejects e => (s, Some e)
    | Returns rows =>
        match analyzeData StringToNumber DateParse rows with
        | Throw (Error message) => (s, Some (ErrorObject message))
        | Normal result => (setAnalysis (Some result) s, None)
        end
    end.

(** [handleFile(file)], from its first setter to the end of [finally]. *)
Definition handleFile (s : PageState) (file : File) : PageState :=
  let s := setErrorMessage None s in
  let s := setIsLoading true s in
  let '(s, caught) := handleFileTry s file in
  let s :=
    match caught with
    | Some (ErrorObject message) => setErrorMessage (Some message) s
    | Some OtherValue => setErrorMessage (Some unknownErrorMessage) s
    | None => s
    end in
  setIsLoading false s.

(** [onFileChange] and [onDrop], when the event carries a file. *)
Definition onFile (s : PageState) (file : File) : PageState :=
  handleFile (setSelectedFile (Some file) s) file.

(** The button that analyses the selected file. *)
Definition onAnalyzeClick (s : PageState) : PageState :=
  match selectedFile s with
  | Some file => handleFile s file
  | None => setErrorMessage (Some noFileMessage) s
  end.

(** A click on a column. *)
Definition onToggleColumn (s : PageState) (columnName : string) : PageState :=
  setExpandedColumns (toggleColumn (expandedColumns s) columnName) s.

Local Abbreviation analyze := (analyzeData StringToNumber DateParse).

(** The three ways in which the [try] block ends. *)
Lemma handleFileTry_cases (s : PageState) (file : File) :
  (FileName.unsupported (FileName.extensionOf (file_name file)) = true
   /\ handleFileTry s file = (s, Some (ErrorObject unsupportedMessage)))
  \/ (FileName.unsupported (FileName.extensionOf (file_name file)) = false
      /\ exists e,
           handleFileTry s file
           = (setFileName (Some (file_name file)) s, Some e)
           /\ (parseFile file (FileName.extensionOf (file_name file))
               = Rejects e
               \/ exists rows message,
                    parseFile file (FileName.extensionOf (file_name file))
                    = Returns rows
                    /\ analyze rows = Throw (Error message)
                    /\ e = ErrorObject message))
  \/ (FileName.unsupported (FileName.extensionOf (file_name file)) = false
      /\ exists rows result,
           parseFile file (FileName.extensionOf (file_name file)) = Returns rows
           /\ analyze rows = Normal result
           /\ handleFileTry s file
              = (setAnalysis (Some result)
                   (setFileName (Some (file_name file)) s), None)).
Proof.
  unfold handleFileTry.
  destruct (FileName.unsupported (FileName.extensionOf (file_name file)));
    [left; split; reflexivity|].
  right.
  destruct (parseFile file (FileName.extensionOf (file_name file)))
    as [rows | e] eqn:Eparse.
  - destruct (analyze rows) as [result | [message]] eqn:Erun.
    + right. split; [reflexivity|]. exists rows, result.
      split; [reflexivity|]. split; [exact Erun | reflexivity].
    + left. split; [reflexivity|]. exists (ErrorObject message).
      split; [reflexivity|]. right. exists rows, message.
      split; [reflexivity|]. split; [exact Erun | reflexivity].
  - left. split; [reflexivity|]. exists e. split; [reflexivity | now left].
Qed.

(** X17.  Whatever happens to a file, handling it ends with the loading flag
    off and leaves the selection, the drag flag and the expanded columns as
    they were.  No error message is left exactly when the extension is
    supported and the file was decoded and analysed, and then the analysis
    and the file name are those of the file; when a message is left, the
    analysis is still the previous one. *)
Theorem handleFile_outcome (s : PageState) (file : File) :
  isLoading (handleFile s file) = false
  /\ selectedFile (handleFile s file) = selectedFile s
  /\ isDragging (handleFile s file) = isDragging s
  /\ expandedColumns (handleFile s file) = expandedColumns s
  /\ (errorMessage (handleFile s file) = None
      <-> exists rows result,
            FileName.unsupported (FileName.extensionOf (file_name file)) = false
            /\ parseFile file (FileName.extensionOf (file_name file))
               = Returns rows
            /\ analyze rows = Normal result
            /\ analysis (handleFile s file) = Some result
            /\ fileName (handleFile s file) = Some (file_name file))
  /\ (errorMessage (handleFile s file) <> None ->
      analysis (handleFile s file) = analysis s).
Proof.
  unfold handleFile.
  destruct (handleFileTry_cases (setIsLoading true (setErrorMessage None s)) file)
    as [[Hno E] | [(_ & e & E & Hwhy) | (Hyes & rows & result & Hparse & Hrun & E)]];
    rewrite E.
  - cbn. repeat split; try discriminate.
    intros (rows & result & H & _). congruence.
  - destruct e as [message |]; cbn; repeat split; try discriminate;
      intros (rows & result & _ & Hparse & Hrun & _);
      destruct Hwhy as [Hrej | (rows' & message' & Hparse' & Hrun' & _)];
      congruence.
  - cbn. repeat split; try congruence.
    intros _. exists rows, result. repeat split; assumption.
Qed.

(** X18.  A file whose extension is not among csv, xlsx and xls, in any
    letter case, is refused before any decoding: the message says so, and
    the file name and the analysis on the page stay as they were. *)
Theorem handleFile_unsupported (s : PageState) (file : File) :
  FileName.unsupported (FileName.extensionOf (file_name file)) = true ->
  handleFile s file
  = setIsLoading false (setErrorMessage (Some unsupportedMessage) s).
Proof.
  intros H. unfold handleFile, handleFileTry. rewrite H. reflexivity.
Qed.

(** X19.  For a csv file that the parser reads: with parse errors the
    message is the one of a malformed CSV, without rows it is the one of the
    empty dataset, and in both cases the previous analysis stays under the
    new file name; otherwise the analysis is the one of the rows with their
    empty texts replaced by null. *)
Theorem handleFile_csv (s : PageState) (file : File) (parsed : ParseResult) :
  FileName.extensionOf (file_name file) = "csv"%string ->
  PapaParse (file_content file) = Returns parsed ->
  fileName (handleFile s file) = Some (file_name file)
  /\ ((0 < errors parsed)%nat ->
      errorMessage (handleFile s file) = Some csvErrorsMessage
      /\ analysis (handleFile s file) = analysis s)
  /\ (errors parsed = 0%nat -> data parsed = [] ->
      errorMessage (handleFile s file) = Some emptyMessage
      /\ analysis (handleFile s file) = analysis s)
  /\ (errors parsed = 0%nat -> data parsed <> [] ->
      errorMessage (handleFile s file) = None
      /\ exists result,
           analyze (map normalizeRow (data parsed)) = Normal result
           /\ analysis (handleFile s file) = Some result).
Proof.
  intros Hext Hparse. unfold handleFile, handleFileTry, parseFile.
  rewrite Hext, Hparse.
  change (FileName.unsupported "csv") with false.
  change (String.eqb "csv" "csv") with true. cbv iota.
  destruct (errors parsed) as [| n] eqn:Eerr.
  - change (0 <? 0)%nat with false. cbv iota.
    destruct (data parsed) as [| row rows] eqn:Edata.
    + cbn. split; [reflexivity|]. split; [intros Hlt; inversion Hlt|].
      split; [intros _ _; split; reflexivity|]. intros _ Hne. congruence.
    + cbn [map]. set (rows' := normalizeRow row :: map normalizeRow rows).
      destruct (analyze rows') as [result | [message]] eqn:Erun.
      * cbn. split; [reflexivity|]. split; [intros Hlt; inversion Hlt|].
        split; [intros _ Hnil; discriminate|]. intros _ _.
        split; [reflexivity|]. exists result. split; reflexivity.
      * exfalso. unfold analyzeData, rows' in Erun. cbn in Erun. discriminate.
  - change (0 <? S n)%nat with true. cbn.
    split; [reflexivity|]. split; [intros _; split; reflexivity|].
    split; intros Hzero; discriminate.
Qed.

(** X20.  Handling a file a second time changes nothing: the state after
    the second time is the state after the first.  So the button that
    analyses the selected file, pressed after an upload, leaves the page as
    the upload left it. *)
Theorem handleFile_idempotent (s : PageState) (file : File) :
  handleFile (handleFile s file) file = handleFile s file
  /\ onAnalyzeClick (onFile s file) = onFile s file.
Proof.
  assert (Hidem : forall s, handleFile (handleFile s file) file = handleFile s file).
  { intros s0. unfold handleFile, handleFileTry.
    destruct (FileName.unsupported (FileName.extensionOf (file_name file)));
      [reflexivity|].
    destruct (parseFile file (FileName.extensionOf (file_name file)))
      as [rows | [message |]]; try reflexivity.
    destruct (analyze rows) as [result | [message]]; reflexivity. }
  split; [apply Hidem|].
  unfold onAnalyzeClick, onFile.
  replace (selectedFile (handleFile (setSelectedFile (Some file) s) file))
    with (Some file); [apply Hidem|].
  unfold handleFile, handleFileTry.
  destruct (FileName.unsupported (FileName.extensionOf (file_name file)));
    [reflexivity|].
  destruct (parseFile file (FileName.extensionOf (file_name file)))
    as [rows | [message |]]; try reflexivity.
  destruct (analyze rows) as [result | [message]]; reflexivity.
Qed.

End Upload.

Arguments Build_File {Blob} file_name file_content.
Arguments file_name {Blob} f.
Arguments file_content {Blob} f.
Arguments Build_PageState {Blob} fileName analysis isLoading errorMessage
  isDragging expandedColumns selectedFile.
Arguments fileName {Blob} p.
Arguments analysis {Blob} p.
Arguments isLoading {Blob} p.
Arguments errorMessage {Blob} p.
Arguments isDragging {Blob} p.
Arguments expandedColumns {Blob} p.
Arguments selectedFile {Blob} p.
Arguments setErrorMessage {Blob} v s.
Arguments setIsLoading {Blob} v s.
Arguments handleFile StringToNumber DateParse {Blob} PapaParse XLSXRows s file.

(** ** The time series *)

From Stdlib Require Import Permutation Sorted.

(** A row of the series before it is formatted: the time value of its date
    and its number. *)
Record SeriesItem := { fecha : Js.number; valor : Js.number }.

(** The comparator of the sort, [a.fecha.getTime() - b.fecha.getTime()],
    being positive: [a] comes after [b]. *)
Definition comesAfter (a b : SeriesItem) : bool :=
  (0 <? fecha a - fecha b)%float.

(** [items.sort(comparator)].  The sort of the language is stable, and the
    comparator orders the time values of valid dates; the sorted array is
    then the one that a stable insertion builds. *)
Fixpoint insertByDate (item : SeriesItem) (sorted : list SeriesItem)
    : list SeriesItem :=
  match sorted with
  | [] => [item]
  | first :: rest =>
      if comesAfter item first then first :: insertByDate item rest
      else item :: sorted
  end.

Definition sortByDate (items : list SeriesItem) : list SeriesItem :=
  fold_right insertByDate [] items.

(** The [filter] that drops the rows mapped to [null]. *)
Fixpoint filterItems (l : list (option SeriesItem)) : list SeriesItem :=
  match l with
  | [] => []
  | Some item :: rest => item :: filterItems rest
  | None :: rest => filterItems rest
  end.

Lemma insertByDate_perm (item : SeriesItem) (sorted : list SeriesItem) :
  Permutation (item :: sorted) (insertByDate item sorted).
Proof.
  induction sorted as [| first rest IH]; cbn [insertByDate]; [reflexivity|].
  destruct (comesAfter item first); [|reflexivity].
  rewrite perm_swap. now apply perm_skip.
Qed.

Lemma sortByDate_perm (items : list SeriesItem) :
  Permutation items (sortByDate items).
Proof.
  induction items as [| item items IH]; cbn [sortByDate fold_right];
    [reflexivity|].
  rewrite <- insertByDate_perm. now apply perm_skip.
Qed.

Lemma filterItems_length {A : Type} (f : A -> option SeriesItem) (l : list A) :
  List.length (filterItems (map f l)) = countIf (fun a => isSome (f a)) l.
Proof.
  unfold countIf. induction l as [| a l IH]; [reflexivity|].
  cbn [map filterItems filter]. destruct (f a); cbn; now rewrite IH.
Qed.

Section TimeSeries.

Variable StringToNumber : string -> Js.number.
Variable DateParse : string -> Js.number.

(** [date.toLocaleDateString("es-ES")], from the time value of the date. *)
Variable toLocaleDateString : Js.number -> string.

(** The item of a row, or [null]. *)
Definition seriesItem (dateColumn numericColumn : string) (row : DataRow)
    : option SeriesItem :=
  match parseDateValue DateParse (get row dateColumn),
        toNumber StringToNumber (get row numericColumn) with
  | Some dateValue, Some numericValue =>
      Some {| fecha := dateValue; valor := numericValue |}
  | _, _ => None
  end.

Definition timeSeriesData (analysis : AnalysisResult)
    : option (list (string * Js.number)) :=
  if (List.length (dateColumns analysis) =? 0)%nat
     || (List.length (numericColumns analysis) =? 0)%nat
  then None
  else
    let dateColumn := columnAt (dateColumns analysis) 0 in
    let numericColumn := columnAt (numericColumns analysis) 0 in
    let series :=
      sortByDate
        (filterItems (map (seriesItem dateColumn numericColumn)
                        (rawRows analysis))) in
    Some (map (fun item => (toLocaleDateString (fecha item), valor item))
            series).

(** X21.  There is a time series exactly when the result has a date column
    and a numeric column.  It is built on the first of each: it has one
    point for each row whose date parses and whose number coerces, and its
    values are the numbers of those rows, rearranged. *)
Theorem timeSeriesData_points (analysis : AnalysisResult) :
  (timeSeriesData analysis = None
   <-> dateColumns analysis = [] \/ numericColumns analysis = [])
  /\ (forall series,
        timeSeriesData analysis = Some series ->
        List.length series
        = countIf (fun row =>
                     isSome (parseDateValue DateParse
                               (get row (columnAt (dateColumns analysis) 0)))
                     && isSome (toNumber StringToNumber
                                  (get row (columnAt (numericColumns analysis) 0))))
            (rawRows analysis)
        /\ Permutation
             (map valor
                (filterItems
                   (map (seriesItem (columnAt (dateColumns analysis) 0)
                           (columnAt (numericColumns analysis) 0))
                      (rawRows analysis))))
             (map snd series)).
Proof.
  unfold timeSeriesData. rewrite !length_zero_eqb.
  destruct (dateColumns analysis) as [| d ds].
  - cbn [orb]. split; [split; auto | discriminate].
  - destruct (numericColumns analysis) as [| n ns].
    + cbn [orb]. split; [split; auto | discriminate].
    + cbn [orb]. split.
      * split; [discriminate | intros [H | H]; discriminate].
      * intros series H. injection H as <-. split.
        -- rewrite length_map, <- (Permutation_length (sortByDate_perm _)).
           rewrite filterItems_length. unfold countIf. f_equal.
           apply filter_ext. intros row. unfold seriesItem.
           destruct (parseDateValue DateParse _), (toNumber StringToNumber _);
             reflexivity.
        -- rewrite map_map. cbn [snd].
           apply Permutation_map, sortByDate_perm.
Qed.

End TimeSeries.

(** ** The page on the reference runtime *)

(** A dataset with a column of dates and two numeric columns, one of which
    has a blank cell and the other an empty one. *)
Definition salesRows : list DataRow :=
  [ [ ("dia", Str "2024-01-03"); ("unidades", Str "3"); ("precio", Str "1,5") ];
    [ ("dia", Str "2024-01-01"); ("unidades", Str " "); ("precio", Num 2) ];
    [ ("dia", Str "2024-01-02"); ("unidades", Num 5); ("precio", Str "") ]
  ]%string.

(** Files whose content is their rows, already decoded. *)
Definition decodedCsv (content : list DataRow) : outcome ParseResult :=
  Returns {| data := content; errors := 0 |}.
Definition decodedSheet (content : list DataRow) : outcome (list DataRow) :=
  Returns content.

(** A page on which nothing was done yet, and two files. *)
Definition emptyPage : PageState (list DataRow) :=
  {| fileName := None; analysis := None; isLoading := false;
     errorMessage := None; isDragging := false;
     expandedColumns := []; selectedFile := None |}.
Definition notesFile : File (list DataRow) :=
  {| file_name := "notas.txt"; file_content := salesRows |}.
Definition salesFile : File (list DataRow) :=
  {| file_name := "Ventas.2024.CSV"; file_content := salesRows |}.

Ltac run_reference Hrun :=
  match goal with
  | |- context [analyzeData ?S ?D ?rows] =>
      let result := fresh "result" in
      let e := fresh "e" in
      destruct (analyzeData S D rows) as [result | e] eqn:Hrun;
      [ exists result | vm_compute in Hrun; discriminate ]
  end.

Ltac numeric_column_of Hrun :=
  let Hfields := fresh "Hfields" in
  pose proof (analyzeData_fields _ _ _ _ Hrun) as Hfields;
  destruct Hfields as (_ & _ & Hstats & Hnum & _);
  rewrite Hnum, Hstats; vm_compute; tauto.


Lemma hasNulls_iff_null_cell_sample :
  exists result,
    analyzeData Reference.StringToNumber Reference.DateParse salesRows
    = Normal result
    /\ hasNulls result = true
    /\ (columnsWithNulls result <= r_totalColumns result)%nat.
Proof.
  run_reference Hrun. split; [reflexivity|].
  destruct (hasNulls_iff_null_cell Reference.StringToNumber Reference.DateParse
              salesRows result Hrun) as (Hiff & Hle & _).
  split; [|exact Hle]. apply Hiff.
  exists "precio"%string, (nth 2 salesRows []).
  split; [vm_compute; tauto|]. split; [vm_compute; tauto | reflexivity].
Defined.

Lemma totalPositiveValues_sum_sample :
  exists result,
    analyzeData Reference.StringToNumber Reference.DateParse salesRows
    = Normal result
    /\ totalPositiveValues result
       = list_sum (map positiveCount (columnStats result))
    /\ (totalPositiveValues result
        <= r_totalColumns result * r_totalRows result)%nat.
Proof.
  run_reference Hrun. split; [reflexivity|].
  destruct (totalPositiveValues_sum Reference.StringToNumber
              Reference.DateParse salesRows result Hrun)
    as (Hsum & _ & Hbound).
  split; assumption.
Defined.

Lemma orderedByFirstColumn_first_profile_sample :
  exists result,
    analyzeData Reference.StringToNumber Reference.DateParse salesRows
    = Normal result
    /\ match columnStats result with
       | [] => orderedByFirstColumn result = false
       | first :: _ =>
           orderedByFirstColumn result
           = match ordered first with sin_orden => false | _ => true end
       end.
Proof.
  run_reference Hrun. split; [reflexivity|].
  exact (orderedByFirstColumn_first_profile Reference.StringToNumber
           Reference.DateParse salesRows result Hrun).
Defined.

Lemma ordered_from_nonNull_values_sample :
  exists result profile,
    analyzeData Reference.StringToNumber Reference.DateParse salesRows
    = Normal result
    /\ In profile (columnStats result)
    /\ name profile = "unidades"%string
    /\ ordered profile
       = detectOrder Reference.StringToNumber
           (map comparable (nonNullRaw salesRows (name profile)))
    /\ ordered profile = ascendente.
Proof.
  run_reference Hrun.
  exists (columnStatsOf Reference.StringToNumber salesRows "unidades").
  assert (Hin : In (columnStatsOf Reference.StringToNumber salesRows "unidades")
                  (columnStats result)).
  { destruct (analyzeData_normal _ _ _ _ Hrun) as (_ & -> & _).
    apply in_map. vm_compute. tauto. }
  split; [reflexivity|]. split; [exact Hin|]. split; [reflexivity|].
  destruct (ordered_from_nonNull_values Reference.StringToNumber
              Reference.DateParse salesRows result _ Hrun Hin) as [Hord _].
  split; [exact Hord|]. vm_compute. reflexivity.
Defined.

Lemma numbersOf_numeric_column_sample :
  exists result,
    analyzeData Reference.StringToNumber Reference.DateParse salesRows
    = Normal result
    /\ In "unidades"%string (numericColumns result)
    /\ numbersOf Reference.StringToNumber result "unidades" = [3; 0; 5]%float
    /\ List.length (nonNullRaw salesRows "unidades") = 2%nat
    /\ Forall (fun x => Js.isFinite x = true)
         (numbersOf Reference.StringToNumber result "unidades").
Proof.
  run_reference Hrun.
  assert (Hin : In "unidades"%string (numericColumns result))
    by numeric_column_of Hrun.
  split; [reflexivity|]. split; [exact Hin|].
  destruct (numbersOf_numeric_column Reference.StringToNumber
              Reference.DateParse salesRows result "unidades" Hrun Hin)
    as (Hfinite & _).
  destruct (analyzeData_normal _ _ _ _ Hrun) as (_ & _ & _ & Hraw).
  split; [unfold numbersOf; rewrite Hraw; vm_compute; reflexivity|].
  split; [vm_compute; reflexivity | exact Hfinite].
Defined.

Set Warnings "-abstract-large-number".

Lemma histograms_of_result_sample :
  exists result,
    analyzeData Reference.StringToNumber Reference.DateParse salesRows
    = Normal result
    /\ (List.length salesRows <= 65535)%nat
    /\ exists computed,
         histogramsCall Reference.StringToNumber Reference.NumberToString
           65535 result
         = Returned computed
         /\ map fst computed = numericColumns result
         /\ Forall (fun histogram =>
                      (List.length (snd histogram) = 1%nat
                       \/ List.length (snd histogram) = 8%nat)
                      /\ (totalCount (snd histogram)
                          <= List.length salesRows)%nat)
              computed.
Proof.
  run_reference Hrun. split; [reflexivity|].
  assert (Hfits : (List.length salesRows <= 65535)%nat)
    by (apply Nat.leb_le; reflexivity).
  split; [exact Hfits|].
  destruct (histograms_of_result Reference.StringToNumber Reference.DateParse
              Reference.NumberToString 65535 salesRows result Hrun)
    as (_ & Hserved & Hshape).
  destruct (Hserved Hfits) as (computed & Hcomputed).
  exists computed. split; [exact Hcomputed|]. exact (Hshape computed Hcomputed).
Defined.

Lemma scatterPairs_of_result_sample :
  exists result,
    analyzeData Reference.StringToNumber Reference.DateParse salesRows
    = Normal result
    /\ map (fun pair => (sx pair, sy pair))
         (scatterPairs Reference.StringToNumber result)
       = [ ("unidades", "precio") ]%string
    /\ Forall (fun pair => sx pair <> sy pair)
         (scatterPairs Reference.StringToNumber result).
Proof.
  run_reference Hrun. split; [reflexivity|].
  pose proof (scatterPairs_of_result Reference.StringToNumber
                Reference.DateParse salesRows result Hrun) as Hpairs.
  split.
  - assert (Hresult := Hrun). vm_compute in Hresult.
    injection Hresult as <-. vm_compute. reflexivity.
  - apply Forall_forall. intros pair Hin.
    rewrite Forall_forall in Hpairs. exact (proj1 (Hpairs pair Hin)).
Defined.

Lemma normalizeRow_keeps_profile_sample :
  columnsOf (map normalizeRow salesRows) = columnsOf salesRows
  /\ columnStatsOf Reference.StringToNumber (map normalizeRow salesRows) "precio"
     = columnStatsOf Reference.StringToNumber salesRows "precio"
  /\ get (normalizeRow (nth 2 salesRows [])) "precio" = Null.
Proof.
  destruct (normalizeRow_keeps_profile Reference.StringToNumber
              Reference.DateParse Reference_StringToNumber_blank salesRows)
    as (Hcolumns & Hprofile & _).
  split; [exact Hcolumns|]. split; [apply Hprofile | reflexivity].
Defined.

Lemma handleFile_unsupported_sample :
  FileName.unsupported (FileName.extensionOf (file_name notesFile)) = true
  /\ errorMessage
       (handleFile Reference.StringToNumber Reference.DateParse
          decodedCsv decodedSheet emptyPage notesFile)
     = Some unsupportedMessage
  /\ fileName
       (handleFile Reference.StringToNumber Reference.DateParse
          decodedCsv decodedSheet emptyPage notesFile)
     = None.
Proof.
  split; [reflexivity|].
  rewrite (handleFile_unsupported Reference.StringToNumber
             Reference.DateParse (list DataRow) decodedCsv decodedSheet
             emptyPage notesFile eq_refl).
  split; reflexivity.
Defined.

Lemma handleFile_csv_sample :
  FileName.extensionOf (file_name salesFile) = "csv"%string
  /\ decodedCsv (file_content salesFile)
     = Returns {| data := salesRows; errors := 0 |}
  /\ errorMessage
       (handleFile Reference.StringToNumber Reference.DateParse
          decodedCsv decodedSheet emptyPage salesFile)
     = None
  /\ fileName
       (handleFile Reference.StringToNumber Reference.DateParse
          decodedCsv decodedSheet emptyPage salesFile)
     = Some "Ventas.2024.CSV"%string.
Proof.
  split; [reflexivity|]. split; [reflexivity|].
  destruct (handleFile_csv Reference.StringToNumber Reference.DateParse
              (list DataRow) decodedCsv decodedSheet emptyPage salesFile
              {| data := salesRows; errors := 0 |} eq_refl eq_refl)
    as (Hname & _ & _ & Hok).
  split; [|exact Hname].
  apply Hok; [reflexivity | discriminate].
Defined.

(** The time series of the sales: the rows by date, with their units. *)
Example timeSeriesData_sales :
  exists result,
    analyzeData Reference.StringToNumber Reference.DateParse salesRows
    = Normal result
    /\ dateColumns result = [ "dia"%string ]
    /\ option_map (map snd)
         (timeSeriesData Reference.StringToNumber Reference.DateParse
            Reference.NumberToString result)
       = Some [0; 5; 3]%float.
Proof.
  eexists. split; [vm_compute; reflexivity|]. split; vm_compute; reflexivity.
Qed.

(** ** The order of texts *)

Definition bothTexts (a b : Value) : bool :=
  match a, b with
  | Str _, Str _ => true
  | _, _ => false
  end.

Lemma everyStep_texts (texts : list string) :
  everyStep bothTexts (map Str texts) = true.
Proof.
  induction texts as [| s texts IH]; [reflexivity|].
  destruct texts as [| t texts]; [reflexivity|].
  cbn [map] in *. rewrite everyStep_cons. cbn [bothTexts andb]. exact IH.
Qed.

(** X22.  Between texts the detector compares code units and nothing else:
    its answer on a sequence of texts does not depend on the numbers that
    the texts spell.  So the texts "9", "10", in ascending order as numbers,
    are in descending order for it. *)
Theorem detectOrder_of_texts
    (StringToNumber StringToNumber' : string -> Js.number)
    (texts : list string) :
  detectOrder StringToNumber (map Str texts)
  = detectOrder StringToNumber' (map Str texts)
  /\ detectOrder StringToNumber [Str "9"; Str "10"] = descendente.
Proof.
  split; [|reflexivity].
  destruct (Nat.lt_ge_cases (List.length (map Str texts)) 2) as [Hlen | Hlen].
  - unfold detectOrder.
    now replace (List.length (map Str texts) <? 2)%nat with true
      by (symmetry; apply Nat.ltb_lt; exact Hlen).
  - rewrite !(detectOrder_by_steps _ _ Hlen).
    rewrite (everyStep_ext bothTexts
               (fun previous current => negb (jsLt StringToNumber current previous))
               (fun previous current => negb (jsLt StringToNumber' current previous))
               (map Str texts))
      by (try apply everyStep_texts; intros [| | x | s] [| | y | t]; cbn;
          congruence).
    rewrite (everyStep_ext bothTexts
               (fun previous current => negb (jsLt StringToNumber previous current))
               (fun previous current => negb (jsLt StringToNumber' previous current))
               (map Str texts))
      by (try apply everyStep_texts; intros [| | x | s] [| | y | t]; cbn;
          congruence).
    reflexivity.
Qed.

(** ** Numbers read as dates *)

(** Rounding a number that is not negative never gives NaN. *)

Definition shr_nonneg (mrs : shr_record) : Prop := (0 <= shr_m mrs)%Z.

Lemma shr_1_nonneg (mrs : shr_record) :
  shr_nonneg mrs -> shr_nonneg (shr_1 mrs).
Proof.
  destruct mrs as [[| [p | p |] | p] r s]; unfold shr_nonneg; cbn; lia.
Qed.

Lemma iter_pos_nonneg (n : positive) (mrs : shr_record) :
  shr_nonneg mrs -> shr_nonneg (iter_pos shr_1 n mrs).
Proof.
  revert mrs. induction n as [n IH | n IH |]; intros mrs H; cbn.
  - apply IH, IH, shr_1_nonneg, H.
  - apply IH, IH, H.
  - apply shr_1_nonneg, H.
Qed.





Lemma isNaN_false (x : float) :
  Js.isNaN x = false <-> Prim2SF x <> S754_nan.
Proof.
  rewrite <- isNaN_spec. destruct (Js.isNaN x); split; congruence.
Qed.








Section NumbersAsDates.

Variable StringToNumber : string -> Js.number.
Variable DateParse : string -> Js.number.

Local Abbreviation analyze := (analyzeData StringToNumber DateParse).






End NumbersAsDates.



(** ** The sign of a difference

    The sort of the time series orders its items by the sign of the
    difference of their time values.  The difference of two numbers is
    rounded; this part shows that the rounding keeps the sign, so that the
    comparator orders the items as their time values are ordered. *)

Section Rounding.

Local Open Scope Z_scope.

(** A mantissa of [d] binary digits lies between [2 ^ (d - 1)] and
    [2 ^ d]. *)
Lemma digits2_pos_bounds (m : positive) :
  2 ^ (Zpos (digits2_pos m) - 1) <= Zpos m < 2 ^ Zpos (digits2_pos m).
Proof.
  induction m as [m IH | m IH |]; cbn [digits2_pos].
  - rewrite Pos2Z.inj_succ. replace (Z.succ (Zpos (digits2_pos m)) - 1) with (Zpos (digits2_pos m)) by lia.
    rewrite Z.pow_succ_r by lia.
    replace (2 ^ Zpos (digits2_pos m)) with (2 * 2 ^ (Zpos (digits2_pos m) - 1)) in *
      by (rewrite <- Z.pow_succ_r by lia; f_equal; lia).
    lia.
  - rewrite Pos2Z.inj_succ. replace (Z.succ (Zpos (digits2_pos m)) - 1) with (Zpos (digits2_pos m)) by lia.
    rewrite Z.pow_succ_r by lia.
    replace (2 ^ Zpos (digits2_pos m)) with (2 * 2 ^ (Zpos (digits2_pos m) - 1)) in *
      by (rewrite <- Z.pow_succ_r by lia; f_equal; lia).
    lia.
  - cbn. lia.
Qed.

Lemma iter_xO (m d : positive) :
  Zpos (Pos.iter xO m d) = Zpos m * 2 ^ Zpos d.
Proof.
  induction d as [| d IH] using Pos.peano_ind.
  - cbn. lia.
  - rewrite Pos.iter_succ, Pos2Z.inj_succ, Z.pow_succ_r by lia.
    rewrite Pos2Z.inj_xO, IH. lia.
Qed.

Lemma shl_align_fst (m : positive) (e e' : Z) :
  e' <= e -> Zpos (fst (shl_align m e e')) = Zpos m * 2 ^ (e - e').
Proof.
  intros H. unfold shl_align.
  destruct (e' - e) as [| d | d] eqn:E; cbn [fst].
  - replace (e - e') with 0 by lia. cbn. lia.
  - lia.
  - rewrite iter_xO. f_equal. f_equal. lia.
Qed.

Lemma shr_1_half (mrs : shr_record) :
  0 <= shr_m mrs -> shr_m (shr_1 mrs) = shr_m mrs / 2.
Proof.
  destruct mrs as [[| [p | p |] | p] r s]; cbn [shr_m shr_1]; intros H.
  - reflexivity.
  - rewrite Pos2Z.inj_xI. apply Z.div_unique with (r := 1); lia.
  - rewrite Pos2Z.inj_xO. apply Z.div_unique with (r := 0); lia.
  - reflexivity.
  - lia.
Qed.

Lemma pow_xO (n : positive) : 2 ^ Zpos n~0 = 2 ^ Zpos n * 2 ^ Zpos n.
Proof.
  replace (Zpos n~0) with (Zpos n + Zpos n) by lia.
  apply Z.pow_add_r; lia.
Qed.

Lemma pow_xI (n : positive) : 2 ^ Zpos n~1 = 2 * (2 ^ Zpos n * 2 ^ Zpos n).
Proof.
  replace (Zpos n~1) with (Z.succ (Zpos n + Zpos n)) by lia.
  rewrite Z.pow_succ_r, Z.pow_add_r by lia. reflexivity.
Qed.

Lemma iter_pos_shr (n : positive) (mrs : shr_record) :
  0 <= shr_m mrs ->
  shr_m (iter_pos shr_1 n mrs) = shr_m mrs / 2 ^ Zpos n.
Proof.
  revert mrs. induction n as [n IH | n IH |]; intros mrs H; cbn [iter_pos].
  - assert (H1 : 0 <= shr_m (shr_1 mrs)) by (now apply shr_1_nonneg).
    assert (H2 : 0 <= shr_m (iter_pos shr_1 n (shr_1 mrs)))
      by (now apply iter_pos_nonneg).
    rewrite (IH _ H2), (IH _ H1), shr_1_half by exact H.
    rewrite !Z.div_div by lia.
    f_equal. rewrite pow_xI. ring.
  - assert (H2 : 0 <= shr_m (iter_pos shr_1 n mrs))
      by (now apply iter_pos_nonneg).
    rewrite (IH _ H2), (IH _ H).
    rewrite !Z.div_div by lia.
    f_equal. rewrite pow_xO. ring.
  - rewrite shr_1_half by exact H. reflexivity.
Qed.

Lemma shr_record_of_loc_m (m : Z) (l : location) :
  shr_m (shr_record_of_loc m l) = m.
Proof. destruct l as [| []]; reflexivity. Qed.

Lemma shr_fexp_positive prec emax (m e : Z) (l : location) :
  0 < prec -> 0 < m -> 3 - emax - prec <= e ->
  0 < shr_m (fst (shr_fexp prec emax m e l))
  /\ 3 - emax - prec <= snd (shr_fexp prec emax m e l).
Proof.
  intros Hprec Hm He. destruct m as [| p | p]; try lia.
  unfold shr_fexp, shr, fexp, emin. cbn [Zdigits2].
  pose proof (digits2_pos_bounds p) as [Hlow _].
  destruct (Z.max (Z.pos (digits2_pos p) + e - prec) (3 - emax - prec) - e)
    as [| n | n] eqn:Hn; cbn [fst snd];
    rewrite ?shr_record_of_loc_m; try (split; lia).
  rewrite iter_pos_shr by (rewrite shr_record_of_loc_m; lia).
  rewrite shr_record_of_loc_m. split; [|lia].
  assert (Hle : 2 ^ Z.pos n <= Z.pos p).
  { apply Z.le_trans with (2 := Hlow). apply Z.pow_le_mono_r; lia. }
  apply Z.div_str_pos. lia.
Qed.

Lemma round_nearest_even_grows (m : Z) (l : location) :
  m <= round_nearest_even m l.
Proof.
  destruct l as [| []]; cbn; try lia. destruct (Z.even m); lia.
Qed.

(** A positive number on the grid at or above the least exponent rounds to a
    positive number or to plus infinity, never to zero. *)
Lemma binary_round_aux_positive prec emax (m e : Z) (l : location) :
  0 < prec -> 0 < m -> 3 - emax - prec <= e ->
  SFltb (S754_zero false) (binary_round_aux prec emax false m e l) = true.
Proof.
  intros Hprec Hm He. unfold binary_round_aux.
  pose proof (shr_fexp_positive prec emax m e l Hprec Hm He) as [H1 H1e].
  destruct (shr_fexp prec emax m e l) as [mrs' e']. cbn [fst snd] in H1, H1e.
  assert (Hr : 0 < round_nearest_even (shr_m mrs') (loc_of_shr_record mrs')).
  { pose proof (round_nearest_even_grows (shr_m mrs') (loc_of_shr_record mrs')).
    lia. }
  pose proof (shr_fexp_positive prec emax _ e' loc_Exact Hprec Hr H1e)
    as [H2 _].
  destruct (shr_fexp prec emax _ e' loc_Exact) as [mrs'' e''].
  cbn [fst] in H2.
  destruct (shr_m mrs''); try lia.
  destruct (e'' <=? emax - prec)%Z; reflexivity.
Qed.

Lemma binary_round_aux_negative prec emax (m e : Z) (l : location) :
  SFltb (S754_zero false) (binary_round_aux prec emax true m e l) = false.
Proof.
  unfold binary_round_aux.
  destruct (shr_fexp prec emax m e l) as [mrs' e'].
  destruct (shr_fexp prec emax _ e' loc_Exact) as [mrs'' e''].
  destruct (shr_m mrs''); try reflexivity.
  destruct (e'' <=? emax - prec)%Z; reflexivity.
Qed.

Lemma shl_align_snd (m : positive) (e e' : Z) :
  snd (shl_align m e e') = Z.min e e'.
Proof.
  unfold shl_align. destruct (e' - e) as [| d | d] eqn:E; cbn [snd]; lia.
Qed.

(** The sign of a normalised number is the sign of the integer. *)
Lemma binary_normalize_positive prec emax (m e : Z) :
  0 < prec -> 3 - emax - prec <= e ->
  SFltb (S754_zero false) (binary_normalize prec emax m e false) = (0 <? m).
Proof.
  intros Hprec He. destruct m as [| p | p]; cbn [binary_normalize].
  - reflexivity.
  - unfold binary_round.
    pose proof (shl_align_snd p e (fexp prec emax (Z.pos (digits2_pos p) + e)))
      as Hs.
    destruct (shl_align _ _ _) as [mz ez]. cbn [snd] in Hs.
    apply binary_round_aux_positive; try lia.
    unfold fexp, emin in Hs. lia.
  - unfold binary_round.
    destruct (shl_align _ _ _) as [mz ez].
    apply binary_round_aux_negative.
Qed.

(** Two numbers of the format, brought to their least exponent, compare as
    their exponents and then their mantissas do. *)
Lemma aligned_compare prec emax (m1 m2 : positive) (e1 e2 : Z) :
  0 < prec ->
  fexp prec emax (Z.pos (digits2_pos m1) + e1) = e1 ->
  fexp prec emax (Z.pos (digits2_pos m2) + e2) = e2 ->
  match e1 ?= e2 with
  | Lt => Lt
  | Gt => Gt
  | Eq => Pos.compare_cont Eq m1 m2
  end
  = (Z.pos (fst (shl_align m1 e1 (Z.min e1 e2)))
     ?= Z.pos (fst (shl_align m2 e2 (Z.min e1 e2)))).
Proof.
  intros Hprec H1 H2. unfold fexp, emin in H1, H2.
  rewrite !shl_align_fst by lia.
  pose proof (digits2_pos_bounds m1) as [L1 U1].
  pose proof (digits2_pos_bounds m2) as [L2 U2].
  assert (Hpow : forall d k, 0 <= d <= prec -> 1 <= k ->
                 2 ^ d <= 2 ^ (prec - 1) * 2 ^ k).
  { intros d k Hd Hk. rewrite <- Z.pow_add_r by lia.
    apply Z.pow_le_mono_r; lia. }
  destruct (Z.compare_spec e1 e2) as [E | E | E].
  - subst e2. rewrite Z.min_id, Z.sub_diag, !Z.mul_1_r. reflexivity.
  - rewrite Z.min_l, Z.sub_diag, Z.mul_1_r by lia.
    symmetry. apply Z.compare_lt_iff.
    assert (D2 : Z.pos (digits2_pos m2) = prec) by lia.
    rewrite D2 in L2.
    pose proof (Hpow (Z.pos (digits2_pos m1)) (e2 - e1)) as P.
    assert (0 < 2 ^ (e2 - e1)) by (apply Z.pow_pos_nonneg; lia).
    nia.
  - rewrite Z.min_r, Z.sub_diag, Z.mul_1_r by lia.
    symmetry. apply Z.compare_gt_iff.
    assert (D1 : Z.pos (digits2_pos m1) = prec) by lia.
    rewrite D1 in L1.
    pose proof (Hpow (Z.pos (digits2_pos m2)) (e1 - e2)) as P.
    assert (0 < 2 ^ (e1 - e2)) by (apply Z.pow_pos_nonneg; lia).
    nia.
Qed.

Lemma valid_binary_canonical prec emax (s : bool) (m : positive) (e : Z) :
  SpecFloat.valid_binary prec emax (S754_finite s m e) = true ->
  fexp prec emax (Z.pos (digits2_pos m) + e) = e.
Proof.
  cbn [SpecFloat.valid_binary]. unfold bounded, canonical_mantissa. intros H.
  apply andb_prop in H as [H _]. now apply Z.eqb_eq in H.
Qed.

(** A difference is positive exactly when what is subtracted is the lesser
    number: rounding the difference never changes its sign. *)
Lemma SFsub_positive prec emax (x y : spec_float) :
  0 < prec ->
  SpecFloat.valid_binary prec emax x = true -> SpecFloat.valid_binary prec emax y = true ->
  SFltb (S754_zero false) (SFsub prec emax x y) = SFltb y x.
Proof.
  intros Hprec Vx Vy.
  destruct x as [sx | sx | | sx mx ex], y as [sy | sy | | sy my ey];
    try reflexivity;
    try (destruct sx; reflexivity); try (destruct sy; reflexivity);
    try (destruct sx, sy; reflexivity).
  apply valid_binary_canonical in Vx, Vy.
  cbn [SFsub]. rewrite binary_normalize_positive;
    [| exact Hprec | unfold fexp, emin in Vx, Vy; lia].
  unfold SFltb, SFcompare.
  pose proof (aligned_compare prec emax my mx ey ex Hprec Vy Vx) as H.
  rewrite (Z.min_comm ey ex) in H.
  set (X := Z.pos (fst (shl_align mx ex (Z.min ex ey)))) in *.
  set (Y := Z.pos (fst (shl_align my ey (Z.min ex ey)))) in *.
  assert (PX : 0 < X) by (subst X; lia).
  assert (PY : 0 < Y) by (subst Y; lia).
  destruct sx, sy; cbn [cond_Zopp].
  - replace (match ey ?= ex with
             | Eq => CompOpp (Pos.compare_cont Eq my mx)
             | Lt => Gt
             | Gt => Lt
             end) with (CompOpp (Y ?= X))
      by (rewrite <- H; destruct (ey ?= ex); reflexivity).
    destruct (Z.compare_spec Y X); cbn [CompOpp]; lia.
  - lia.
  - lia.
  - rewrite H. destruct (Z.compare_spec Y X); lia.
Qed.

(** [0 < x - y] says as much as [y < x], whatever the numbers. *)
Lemma sub_positive (x y : float) : (0 <? x - y)%float = (y <? x)%float.
Proof.
  rewrite !ltb_spec, sub_spec. change (Prim2SF 0) with (S754_zero false).
  apply SFsub_positive; [reflexivity | apply Prim2SF_valid ..].
Qed.

(** The place of a number in the order of the numbers: its class (the
    infinities, the negative and the positive numbers, zero), then its
    exponent, then its mantissa. *)
Definition rank (f : spec_float) : Z * Z * Z :=
  match f with
  | S754_infinity true => (-2, 0, 0)
  | S754_finite true m e => (-1, - e, - Z.pos m)
  | S754_zero _ | S754_nan => (0, 0, 0)
  | S754_finite false m e => (1, e, Z.pos m)
  | S754_infinity false => (2, 0, 0)
  end.

Definition rankCompare (a b : Z * Z * Z) : comparison :=
  let '(a1, a2, a3) := a in
  let '(b1, b2, b3) := b in
  match a1 ?= b1 with
  | Eq => match a2 ?= b2 with
          | Eq => a3 ?= b3
          | c => c
          end
  | c => c
  end.

Lemma SFcompare_rank (f g : spec_float) :
  f <> S754_nan -> g <> S754_nan ->
  SFcompare f g = Some (rankCompare (rank f) (rank g)).
Proof.
  destruct f as [s | s | | s m e], g as [t | t | | t n k];
    try congruence; intros _ _;
    try (destruct s; reflexivity); try (destruct t; reflexivity);
    try (destruct s, t; reflexivity).
  destruct s, t; cbn [SFcompare rank rankCompare]; try reflexivity.
  change (-1 ?= -1) with Eq. cbv iota.
  rewrite !Z.compare_opp, (Z.compare_antisym k e). f_equal.
  destruct (k ?= e); cbn [CompOpp]; try reflexivity.
  change (Pos.compare_cont Eq m n) with (Pos.compare m n).
  symmetry. apply Pos.compare_antisym.
Qed.

Definition rankLt (a b : Z * Z * Z) : Prop :=
  let '(a1, a2, a3) := a in
  let '(b1, b2, b3) := b in
  a1 < b1 \/ (a1 = b1 /\ (a2 < b2 \/ (a2 = b2 /\ a3 < b3))).

Lemma rankCompare_spec (a b : Z * Z * Z) :
  match rankCompare a b with
  | Lt => rankLt a b
  | Eq => a = b
  | Gt => rankLt b a
  end.
Proof.
  destruct a as [[a1 a2] a3], b as [[b1 b2] b3]. cbn [rankCompare rankLt].
  destruct (Z.compare_spec a1 b1); [| lia ..].
  destruct (Z.compare_spec a2 b2); [| lia ..].
  destruct (Z.compare_spec a3 b3); [| lia ..].
  congruence.
Qed.

(** The order of the numbers that are not NaN, through their ranks. *)
Lemma ltb_rank (x y : float) :
  Js.isNaN x = false -> Js.isNaN y = false ->
  (x <? y)%float = true <-> rankLt (rank (Prim2SF x)) (rank (Prim2SF y)).
Proof.
  intros Hx Hy. apply isNaN_false in Hx, Hy.
  rewrite ltb_spec. unfold SFltb. rewrite (SFcompare_rank _ _ Hx Hy).
  pose proof (rankCompare_spec (rank (Prim2SF x)) (rank (Prim2SF y))) as H.
  destruct (rank (Prim2SF x)) as [[a1 a2] a3], (rank (Prim2SF y)) as [[b1 b2] b3].
  destruct (rankCompare _ _); cbn [rankLt] in *; split; intros H1;
    try reflexivity; try discriminate; try (injection H as -> -> ->); lia.
Qed.

Lemma leb_rank (x y : float) :
  Js.isNaN x = false -> Js.isNaN y = false ->
  (x <=? y)%float = true
  <-> rank (Prim2SF x) = rank (Prim2SF y)
      \/ rankLt (rank (Prim2SF x)) (rank (Prim2SF y)).
Proof.
  intros Hx Hy. apply isNaN_false in Hx, Hy.
  rewrite leb_spec. unfold SFleb. rewrite (SFcompare_rank _ _ Hx Hy).
  pose proof (rankCompare_spec (rank (Prim2SF x)) (rank (Prim2SF y))) as H.
  destruct (rank (Prim2SF x)) as [[a1 a2] a3], (rank (Prim2SF y)) as [[b1 b2] b3].
  destruct (rankCompare _ _); cbn [rankLt] in *; split; intros H1;
    try reflexivity; try discriminate; auto.
  destruct H1 as [H1 | H1]; [injection H1 as -> -> ->|]; lia.
Qed.

Lemma eqb_rank (x y : float) :
  (x =? y)%float = true ->
  Js.isNaN x = false /\ Js.isNaN y = false
  /\ rank (Prim2SF x) = rank (Prim2SF y).
Proof.
  rewrite eqb_spec. unfold SFeqb. intros H.
  assert (Hx : Prim2SF x <> S754_nan)
    by (intros E; rewrite E in H; discriminate).
  assert (Hy : Prim2SF y <> S754_nan)
    by (intros E; rewrite E in H; destruct (Prim2SF x); discriminate).
  rewrite (SFcompare_rank _ _ Hx Hy) in H.
  pose proof (rankCompare_spec (rank (Prim2SF x)) (rank (Prim2SF y))) as R.
  destruct (rankCompare _ _); try discriminate.
  repeat split; try (now apply isNaN_false); exact R.
Qed.

Lemma leb_trans (x y z : float) :
  Js.isNaN x = false -> Js.isNaN y = false -> Js.isNaN z = false ->
  (x <=? y)%float = true -> (y <=? z)%float = true -> (x <=? z)%float = true.
Proof.
  intros Hx Hy Hz. rewrite !leb_rank by assumption.
  destruct (rank (Prim2SF x)) as [[a1 a2] a3], (rank (Prim2SF y)) as [[b1 b2] b3],
    (rank (Prim2SF z)) as [[c1 c2] c3].
  cbn [rankLt]. intros [H1 | H1] [H2 | H2];
    try (injection H1 as -> -> ->); try (injection H2 as -> -> ->); auto.
  right. lia.
Qed.

Lemma ltb_leb (x y : float) :
  (x <? y)%float = true -> (x <=? y)%float = true.
Proof.
  rewrite ltb_spec, leb_spec. unfold SFltb, SFleb.
  destruct (SFcompare _ _) as [[]|]; congruence.
Qed.

(** Two numbers equal to a third are not one less than the other. *)
Lemma eqb_not_ltb (x y t : float) :
  (x =? t)%float = true -> (y =? t)%float = true -> (y <? x)%float = false.
Proof.
  intros Hx Hy. apply eqb_rank in Hx as (Nx & _ & Rx), Hy as (Ny & _ & Ry).
  destruct (y <? x)%float eqn:E; [|reflexivity].
  apply ltb_rank in E; try assumption. rewrite Rx, Ry in E.
  destruct (rank (Prim2SF t)) as [[a1 a2] a3]. cbn [rankLt] in E. lia.
Qed.

End Rounding.

(** ** The order of the time series *)

(** [a] is dated no later than [b]. *)
Definition notLater (a b : SeriesItem) : Prop :=
  (fecha a <=? fecha b)%float = true.

(** The date of an item is a time value, not NaN. *)
Definition dated (a : SeriesItem) : Prop := Js.isNaN (fecha a) = false.

(** The date of an item is the time value [t]. *)
Definition sameDate (t : Js.number) (a : SeriesItem) : bool :=
  (fecha a =? t)%float.

(** The comparator puts [a] after [b] exactly when [b] is dated before
    [a]. *)
Lemma comesAfter_later (a b : SeriesItem) :
  comesAfter a b = (fecha b <? fecha a)%float.
Proof. apply sub_positive. Qed.

Lemma insertByDate_sorted (item : SeriesItem) (sorted : list SeriesItem) :
  dated item -> Forall dated sorted ->
  StronglySorted notLater sorted ->
  StronglySorted notLater (insertByDate item sorted).
Proof.
  intros Hitem Hdated Hsorted.
  induction Hsorted as [| first rest Hrest IH Hfirst]; cbn [insertByDate].
  - constructor; constructor.
  - apply Forall_cons_iff in Hdated as [Dfirst Drest].
    rewrite comesAfter_later.
    destruct (fecha first <? fecha item)%float eqn:E.
    + constructor; [now apply IH|].
      apply (Permutation_Forall (insertByDate_perm item rest)).
      constructor; [now apply ltb_leb | exact Hfirst].
    + assert (Hle : notLater item first).
      { unfold notLater. rewrite (ltb_negb_leb _ _ Dfirst Hitem) in E.
        now apply negb_false_iff in E. }
      constructor; [now constructor|].
      constructor; [exact Hle|].
      rewrite Forall_forall in Hfirst, Drest |- *. intros other Hin.
      exact (leb_trans _ _ _ Hitem Dfirst (Drest other Hin) Hle
               (Hfirst other Hin)).
Qed.

Lemma sortByDate_dated (items : list SeriesItem) :
  Forall dated items -> Forall dated (sortByDate items).
Proof. apply Permutation_Forall, sortByDate_perm. Qed.

Lemma sortByDate_sorted (items : list SeriesItem) :
  Forall dated items -> StronglySorted notLater (sortByDate items).
Proof.
  induction items as [| item items IH]; intros H; cbn [sortByDate fold_right].
  - constructor.
  - apply Forall_cons_iff in H as [Hitem Hitems].
    apply insertByDate_sorted; auto. now apply sortByDate_dated.
Qed.

Lemma insertByDate_stable (t : Js.number) (item : SeriesItem)
    (sorted : list SeriesItem) :
  filter (sameDate t) (insertByDate item sorted)
  = filter (sameDate t) (item :: sorted).
Proof.
  induction sorted as [| first rest IH]; cbn [insertByDate]; [reflexivity|].
  rewrite comesAfter_later.
  destruct (fecha first <? fecha item)%float eqn:E; [|reflexivity].
  cbn [filter] in IH |- *. rewrite IH.
  destruct (sameDate t item) eqn:Hitem, (sameDate t first) eqn:Hfirst;
    try reflexivity.
  unfold sameDate in Hitem, Hfirst.
  rewrite (eqb_not_ltb _ _ _ Hitem Hfirst) in E. discriminate.
Qed.

Lemma sortByDate_stable (t : Js.number) (items : list SeriesItem) :
  filter (sameDate t) (sortByDate items) = filter (sameDate t) items.
Proof.
  induction items as [| item items IH]; [reflexivity|].
  cbn [sortByDate fold_right]. rewrite insertByDate_stable.
  cbn [filter]. fold (sortByDate items). now rewrite IH.
Qed.

Section SeriesOrder.

Variable StringToNumber : string -> Js.number.
Variable DateParse : string -> Js.number.
Variable toLocaleDateString : Js.number -> string.

Lemma parseDateValue_dated (value : Value) (time : Js.number) :
  parseDateValue DateParse value = Some time -> Js.isNaN time = false.
Proof.
  destruct value as [| | x | s]; cbn [parseDateValue]; try discriminate.
  - destruct (Js.isNaN (TimeClip x)) eqn:E; [discriminate|].
    now intros [= <-].
  - destruct s as [| c s]; [discriminate|].
    destruct (Js.isNaN (TimeClip (DateParse (String c s)))) eqn:E;
      [discriminate|].
    now intros [= <-].
Qed.

Lemma seriesItems_dated (dateColumn numericColumn : string)
    (rows : list DataRow) :
  Forall dated
    (filterItems
       (map (seriesItem StringToNumber DateParse dateColumn numericColumn)
          rows)).
Proof.
  induction rows as [| row rows IH]; cbn [map filterItems]; [constructor|].
  unfold seriesItem at 1.
  destruct (parseDateValue DateParse (get row dateColumn)) as [time|] eqn:Hd;
    [|exact IH].
  destruct (toNumber StringToNumber (get row numericColumn)); [|exact IH].
  constructor; [|exact IH].
  exact (parseDateValue_dated _ _ Hd).
Qed.

(** The items of the series before they are sorted: the rows that have a
    date in the first date column and a number in the first numeric
    column. *)
Definition seriesItems (analysis : AnalysisResult) : list SeriesItem :=
  filterItems
    (map (seriesItem StringToNumber DateParse
            (columnAt (dateColumns analysis) 0)
            (columnAt (numericColumns analysis) 0))
       (rawRows analysis)).

(** X24.  The points of the time series are the rows with a date and a
    number, in ascending order of their dates: each is dated no later than
    every point after it.  Rows of one date keep the order of the dataset. *)
Theorem timeSeriesData_ascending (analysis : AnalysisResult)
    (series : list (string * Js.number)) :
  timeSeriesData StringToNumber DateParse toLocaleDateString analysis
  = Some series ->
  exists sorted,
    series
    = map (fun item => (toLocaleDateString (fecha item), valor item)) sorted
    /\ Permutation (seriesItems analysis) sorted
    /\ StronglySorted notLater sorted
    /\ forall t,
         filter (sameDate t) sorted
         = filter (sameDate t) (seriesItems analysis).
Proof.
  intros H. unfold timeSeriesData in H.
  destruct ((List.length (dateColumns analysis) =? 0)%nat
            || (List.length (numericColumns analysis) =? 0)%nat);
    [discriminate|].
  injection H as <-. exists (sortByDate (seriesItems analysis)).
  split; [reflexivity|]. split; [apply sortByDate_perm|].
  split; [apply sortByDate_sorted, seriesItems_dated|].
  intros t. apply sortByDate_stable.
Qed.

End SeriesOrder.

Lemma timeSeriesData_ascending_sample :
  exists result series,
    analyzeData Reference.StringToNumber Reference.DateParse salesRows
    = Normal result
    /\ timeSeriesData Reference.StringToNumber Reference.DateParse
         Reference.NumberToString result
       = Some series
    /\ exists sorted,
         series
         = map (fun item => (Reference.NumberToString (fecha item), valor item))
             sorted
         /\ StronglySorted notLater sorted.
Proof.
  run_reference Hrun.
  destruct (timeSeriesData Reference.StringToNumber Reference.DateParse
              Reference.NumberToString result) as [series |] eqn:Hseries.
  - exists series. split; [reflexivity|]. split; [reflexivity|].
    destruct (timeSeriesData_ascending Reference.StringToNumber
                Reference.DateParse Reference.NumberToString result series
                Hseries) as (sorted & Hmap & _ & Hsorted & _).
    exists sorted. split; assumption.
  - exfalso. vm_compute in Hrun. injection Hrun as <-.
    vm_compute in Hseries. discriminate.
Defined.

(** ** The matrix and the scatter pairs

    An entry of the matrix pairs the numbers of two columns by their
    position among the numbers of each column; a scatter pair pairs them by
    row.  The two agree when the two columns have their numbers in the same
    rows. *)

Section Alignment.

Variable StringToNumber : string -> Js.number.

Lemma numbers_of_points (xColumn yColumn : string) (rows : list DataRow) :
  (forall row, In row rows ->
     coerces StringToNumber (get row xColumn)
     = coerces StringToNumber (get row yColumn)) ->
  filterNumbers (map (fun row => toNumber StringToNumber (get row xColumn)) rows)
  = map px
      (filterPoints
         (map (fun row => (toNumber StringToNumber (get row xColumn),
                           toNumber StringToNumber (get row yColumn))) rows))
  /\ filterNumbers
       (map (fun row => toNumber StringToNumber (get row yColumn)) rows)
     = map py
         (filterPoints
            (map (fun row => (toNumber StringToNumber (get row xColumn),
                              toNumber StringToNumber (get row yColumn))) rows)).
Proof.
  induction rows as [| row rows IH]; intros Hrows; [split; reflexivity|].
  destruct IH as [IHx IHy]; [intros r Hr; apply Hrows; now right|].
  pose proof (Hrows row (or_introl eq_refl)) as Hrow. unfold coerces in Hrow.
  cbn [map filterNumbers filterPoints].
  destruct (toNumber StringToNumber (get row xColumn)),
    (toNumber StringToNumber (get row yColumn));
    try discriminate; cbn [map px py]; rewrite IHx, IHy; split; reflexivity.
Qed.

(** X25.  Between two numeric columns that have their numbers in the same
    rows, the entry of the correlation matrix is the correlation of the
    points of their scatter pair: of the first coordinates with the second
    ones. *)
Theorem correlationMatrix_of_points (analysis : AnalysisResult) (i j : nat) :
  (i < List.length (numericColumns analysis))%nat ->
  (j < List.length (numericColumns analysis))%nat ->
  (forall row, In row (rawRows analysis) ->
     coerces StringToNumber (get row (columnAt (numericColumns analysis) i))
     = coerces StringToNumber (get row (columnAt (numericColumns analysis) j))) ->
  nth j (nth i (correlationMatrix StringToNumber analysis) []) 0%float
  = calculateCorrelation
      (map px (pointsOf StringToNumber analysis
                 (columnAt (numericColumns analysis) i)
                 (columnAt (numericColumns analysis) j)))
      (map py (pointsOf StringToNumber analysis
                 (columnAt (numericColumns analysis) i)
                 (columnAt (numericColumns analysis) j))).
Proof.
  intros Hi Hj Hrows. unfold correlationMatrix.
  rewrite (nth_map_in _ (numericColumns analysis) i [] "undefined"%string Hi).
  rewrite (nth_map_in _ (numericColumns analysis) j 0%float "undefined"%string
             Hj).
  destruct (numbers_of_points _ _ _ Hrows) as [Hx Hy].
  unfold numbersOf, pointsOf, columnAt in *.
  rewrite Hx, Hy, !length_map, Nat.min_id.
  rewrite <- (length_map px) at 1. rewrite firstn_all.
  rewrite <- (length_map py) at 1. now rewrite firstn_all.
Qed.

End Alignment.

(** A dataset in which two numeric columns have their empty cells in
    different rows. *)
Definition gapRows : list DataRow :=
  [ [ ("a", Null);  ("b", Num 1) ];
    [ ("a", Num 1); ("b", Num 2) ];
    [ ("a", Num 2); ("b", Num 4) ];
    [ ("a", Num 4); ("b", Null) ] ]%string.

(** There the matrix pairs each number of the first column with the number
    of the second column one row above: its entry is the correlation of
    1, 2, 4 with itself, while the scatter pair, taken by row, has the two
    points (1, 2) and (2, 4). *)
Example correlationMatrix_pairs_by_position :
  exists result,
    analyzeData Reference.StringToNumber Reference.DateParse gapRows
    = Normal result
    /\ numericColumns result = [ "a"; "b" ]%string
    /\ numbersOf Reference.StringToNumber result "a" = [1; 2; 4]%float
    /\ numbersOf Reference.StringToNumber result "b" = [1; 2; 4]%float
    /\ nth 1 (nth 0 (correlationMatrix Reference.StringToNumber result) [])
         0%float
       = 1%float
    /\ pointsOf Reference.StringToNumber result "a" "b"
       = [ {| px := 1; py := 2 |}; {| px := 2; py := 4 |} ]%float.
Proof.
  eexists. split; [vm_compute; reflexivity|].
  repeat split; vm_compute; reflexivity.
Qed.

Lemma correlationMatrix_of_points_sample :
  exists result,
    analyzeData Reference.StringToNumber Reference.DateParse salesRows
    = Normal result
    /\ numericColumns result = [ "unidades"; "precio" ]%string
    /\ nth 1 (nth 0 (correlationMatrix Reference.StringToNumber result) [])
         0%float
       = calculateCorrelation
           (map px (pointsOf Reference.StringToNumber result
                      "unidades" "precio"))
           (map py (pointsOf Reference.StringToNumber result
                      "unidades" "precio")).
Proof.
  run_reference Hrun.
  assert (Hcolumns : numericColumns result = [ "unidades"; "precio" ]%string).
  { vm_compute in Hrun. injection Hrun as <-. reflexivity. }
  split; [reflexivity|]. split; [exact Hcolumns|].
  assert (Hraw : rawRows result = salesRows).
  { vm_compute in Hrun. injection Hrun as <-. reflexivity. }
  pose proof (correlationMatrix_of_points Reference.StringToNumber result 0 1)
    as H.
  rewrite Hcolumns, Hraw in H. cbn [columnAt nth List.length] in H.
  apply H; [lia | lia |].
  intros row Hrow. cbn [salesRows In] in Hrow.
  destruct Hrow as [<- | [<- | [<- | []]]]; vm_compute; reflexivity.
Defined.
